(** * ASAP financial dashboard backend: normalisation and classification

  A shallow embedding of the parts of [server.js] that fetch, normalise
  and classify transactions, and of the rule store behind the
  [learn-rule] endpoint, followed by the properties of that code.

  Conventions of the embedding.
  - A JavaScript number that carries money or a confidence is a rational
    [Q]; the code only negates it, takes its absolute value and compares
    it, all of which are exact on finite doubles.
  - A field that may be missing from a JSON object is an [option]; the
    operator [a || b] is written out with JavaScript's notion of a falsy
    value ([undefined], [null], the empty string, zero).
  - [String.prototype.toLowerCase] is modelled on ASCII text.
  - A call that leaves the process (QuickBooks, Plaid, the classifier,
    the file system) is an oracle argument; a loop over such calls takes
    the stream of upstream answers, indexed by the number of the call. *)

From Stdlib Require Import Ascii String QArith Qabs Lqa Sorted.
From stdpp Require Import gmap strings list pretty.

Open Scope string_scope.
Open Scope list_scope.

(** ** JavaScript primitives used by the server *)

Module Js.

Definition lowerChar (c : ascii) : ascii :=
  let n := nat_of_ascii c in
  if (65 <=? n)%nat && (n <=? 90)%nat then ascii_of_nat (n + 32) else c.

(** [s.toLowerCase()] *)
Fixpoint toLowerCase (s : string) : string :=
  match s with
  | EmptyString => EmptyString
  | String c s' => String (lowerChar c) (toLowerCase s')
  end.

(** [s.startsWith(p)] *)
Definition startsWith (s p : string) : bool := String.prefix p s.

(** [s.includes(p)] *)
Fixpoint includes (s p : string) : bool :=
  String.prefix p s ||
  match s with
  | EmptyString => false
  | String _ s' => includes s' p
  end.

(** Truthiness of a string value that may be absent. *)
Definition truthy (a : option string) : bool :=
  match a with
  | Some s => negb (String.eqb s "")
  | None => false
  end.

(** [a || b] where [b] is a string literal or an already computed string. *)
Definition or_else (a : option string) (b : string) : string :=
  match a with
  | Some s => if String.eqb s "" then b else s
  | None => b
  end.

(** [a || b] where [b] may itself be absent. *)
Definition or_opt (a b : option string) : option string :=
  if truthy a then a else b.

(** A template literal prints a missing value as the word [undefined]. *)
Definition interpolate (a : option string) : string :=
  match a with
  | Some s => s
  | None => "undefined"
  end.

(** [xs.join(sep)] *)
Fixpoint join (sep : string) (xs : list string) : string :=
  match xs with
  | [] => ""
  | [x] => x
  | x :: rest => x +:+ sep +:+ join sep rest
  end.

(** [xs.includes(x)] on an array of strings. *)
Definition array_includes (xs : list string) (x : string) : bool :=
  existsb (String.eqb x) xs.

(** [a < b] and [a > b] on numbers. *)
Definition lt (a b : Q) : bool := negb (Qle_bool b a).
Definition gt (a b : Q) : bool := lt b a.

(** [-Math.abs(x)] *)
Definition neg_abs (x : Q) : Q := - Qabs x.

End Js.

Inductive TxnType := expense | income.

(** ** Bank feed (Plaid): the mapping of upstream items *)

Module Plaid.

Module Category.
Record t := mk { primary : option string; detailed : option string }.
End Category.

(** An item of [syncData.added] or of [txnData.transactions]. *)
Module Item.
Record t := mk
    { transaction_id : string;
      account_id : string;
      date : string;
      name : string;
      merchant_name : option string;
      amount : Q;
      personal_finance_category : option Category.t;
      category : option (list string);
      pending : bool }.
End Item.

(** An entry of [plaidAccounts]. *)
Module Connection.
Record t := mk
    { id : string;
      access_token : string;
      institution_name : string;
      excluded_accounts : option (list string);
      cursor : option string;
      last_synced : option string }.
End Connection.

(** The object pushed on [allTransactions]. *)
Module Txn.
Record t := mk
    { id : string;
      plaid_account_id : string;
      account_id : string;
      institution : string;
      date : string;
      description : string;
      merchant_name : option string;
      amount : Q;
      category : string;
      category_detailed : option string;
      pending : bool;
      type : TxnType;
      source : string }.
End Txn.

(** [account.excluded_accounts || []] *)
Definition excludedAccounts (account : Connection.t) : list string :=
  default [] (Connection.excluded_accounts account).

(** The arrow function under [.map] in both handlers (the two copies in
    the source are the same text). *)
Definition toTransaction (account : Connection.t) (t : Item.t) : Txn.t :=
  let pfc := Item.personal_finance_category t in
  {| Txn.id := Item.transaction_id t;
     Txn.plaid_account_id := Connection.id account;
     Txn.account_id := Item.account_id t;
     Txn.institution := Connection.institution_name account;
     Txn.date := Item.date t;
     Txn.description := Item.name t;
     Txn.merchant_name := Item.merchant_name t;
     Txn.amount := Item.amount t;
     Txn.category :=
       Js.or_else
         (Js.or_opt (pfc ≫= Category.primary)
                    (Item.category t ≫= head))
         "Uncategorized";
     Txn.category_detailed :=
       Js.or_opt (pfc ≫= Category.detailed)
                 (Js.join " > " <$> Item.category t);
     Txn.pending := Item.pending t;
     Txn.type := if Js.gt (Item.amount t) 0 then expense else income;
     Txn.source := "plaid" |}.

Definition included (account : Connection.t) (t : Item.t) : bool :=
  negb (Js.array_includes (excludedAccounts account) (Item.account_id t)).

(** [POST /api/plaid/sync]: what one connection contributes from
    [syncData.added || []]. *)
Definition syncTransactions (account : Connection.t)
    (added : option (list Item.t)) : list Txn.t :=
  map (toTransaction account)
      (List.filter (included account) (default [] added)).

(** [GET /api/plaid/transactions]: what one page contributes from
    [txnData.transactions || []]. *)
Definition pageTransactions (account : Connection.t)
    (transactions : option (list Item.t)) : list Txn.t :=
  map (toTransaction account)
      (List.filter (included account) (default [] transactions)).

(** *** The pagination loop of [GET /api/plaid/transactions] *)

(** The parsed body of one [/transactions/get] answer. *)
Module Page.
Record t := mk
  { error_code : option string;
    error_message : option string;
    transactions : option (list Item.t);
    total_transactions : option Z }.
End Page.

(** What [await fetch(...)] followed by [await txnResponse.json()] gives:
    an exception (network failure, unparsable body) or a parsed body. *)
Inductive Reply :=
| Throws (message : string)
| Answers (txnData : Page.t).

Module Error.
Record t := mk { institution : string; error : option string }.
End Error.

(** The state of one connection's loop when it is left: what was pushed
    on [allTransactions] and on [errors], the final [offset], and whether
    the statement after the loop ([account.last_synced = ...]) ran. *)
Module Listing.
Record t := mk
  { transactions : list Txn.t;
    errors : list Error.t;
    offset : Z;
    synced : bool }.
End Listing.

(** [offset < txnData.total_transactions]; a comparison with [undefined]
    is false. *)
Definition offset_below (offset : Z) (total : option Z) : bool :=
  match total with
  | Some n => (offset <? n)%Z
  | None => false
  end.

(** [while (hasMore) { ... }] for one connection.  [upstream k] is the
    answer to the [k]-th request of the loop; the result is [None] when
    [fuel] iterations did not reach the end of the loop. *)
Fixpoint listLoop (fuel : nat) (account : Connection.t)
    (upstream : nat -> Reply) (call : nat) (offset : Z)
    (allTransactions : list Txn.t) (errors : list Error.t)
    : option Listing.t :=
  match fuel with
  | O => None
  | S fuel' =>
    match upstream call with
    | Throws message =>
      (* caught by the [catch] around the connection *)
      Some (Listing.mk allTransactions
              (errors ++ [Error.mk (Connection.institution_name account)
                                   (Some message)])
              offset false)
    | Answers txnData =>
      if Js.truthy (Page.error_code txnData) then
        (* [errors.push(...); break;] *)
        Some (Listing.mk allTransactions
                (errors ++ [Error.mk (Connection.institution_name account)
                                     (Page.error_message txnData)])
                offset true)
      else
        let allTransactions' :=
          allTransactions ++ pageTransactions account (Page.transactions txnData) in
        let offset' :=
          (offset + Z.of_nat (length (default [] (Page.transactions txnData))))%Z in
        let hasMore := offset_below offset' (Page.total_transactions txnData) in
        if (5000 <=? offset')%Z then
          Some (Listing.mk allTransactions' errors offset' true)
        else if hasMore then
          listLoop fuel' account upstream (S call) offset' allTransactions' errors
        else
          Some (Listing.mk allTransactions' errors offset' true)
    end
  end.

(** The loop as the handler starts it: [offset = 0], first request. *)
Definition listConnection (fuel : nat) (account : Connection.t)
    (upstream : nat -> Reply) : option Listing.t :=
  listLoop fuel account upstream 0 0 [] [].

End Plaid.

(** ** Ledger (QuickBooks): paginated entity queries *)

Module Ledger.

Definition maxResults : Z := 1000.

(** [fetchAllRecords].  [query startPosition] is what [qbApiCall] gives
    for the page that starts at [startPosition]: [None] when it throws,
    otherwise the list [result.QueryResponse?.[entityType] || []].  The
    result is [None] when [fuel] iterations did not reach the end of the
    loop. *)
Fixpoint fetchLoop {R : Type} (fuel : nat) (query : Z -> option (list R))
    (startPosition : Z) (allRecords : list R) : option (list R) :=
  match fuel with
  | O => None
  | S fuel' =>
    match query startPosition with
    | None =>
      (* [catch (err) { ...; hasMore = false; }] *)
      Some allRecords
    | Some records =>
      let allRecords' := allRecords ++ records in
      let full := negb (Z.of_nat (length records) <? maxResults)%Z in
      let startPosition' :=
        if full then (startPosition + maxResults)%Z else startPosition in
      let hasMore := full && negb (10000 <? startPosition')%Z in
      if hasMore then fetchLoop fuel' query startPosition' allRecords'
      else Some allRecords'
    end
  end.

(** Ten iterations always reach the end of the loop (lemma
    [fetchLoop_returns] below), so the function is total. *)
Definition fetchAllRecords {R : Type} (query : Z -> option (list R)) : list R :=
  default [] (fetchLoop 10 query 1 []).

(** *** Source records, as the QuickBooks API returns them *)

Module Ref.
Record t := mk { value : option string; name : option string }.
End Ref.

Module Account.
Record t := mk
  { Id : string;
    Name : string;
    FullyQualifiedName : option string;
    AccountType : string;
    AccountSubType : option string;
    Active : bool }.
End Account.

Module Vendor.
Record t := mk
  { Id : string; DisplayName : option string; CompanyName : option string }.
End Vendor.

(** A line of a Purchase or of a Bill. *)
Module ExpenseLine.
Record t := mk
  { Description : option string;
    Amount : Q;
    (** the [AccountRef] of the detail, when the detail is present *)
    AccountBasedExpenseLineDetail : option (option Ref.t);
    (** the [ItemRef] of the detail, when the detail is present *)
    ItemBasedExpenseLineDetail : option (option Ref.t) }.
End ExpenseLine.

Module Purchase.
Record t := mk
  { Id : string;
    TxnDate : string;
    EntityRef : option Ref.t;
    PrivateNote : option string;
    PaymentType : option string;
    Line : option (list ExpenseLine.t);
    TotalAmt : Q }.
End Purchase.

Module Bill.
Record t := mk
  { Id : string;
    TxnDate : string;
    VendorRef : option Ref.t;
    PrivateNote : option string;
    Line : option (list ExpenseLine.t) }.
End Bill.

Module JournalDetail.
Record t := mk { AccountRef : option Ref.t; PostingType : option string }.
End JournalDetail.

Module JournalLine.
Record t := mk
  { Description : option string;
    Amount : option Q;
    JournalEntryLineDetail : option JournalDetail.t }.
End JournalLine.

Module JournalEntry.
Record t := mk
  { Id : string;
    TxnDate : string;
    PrivateNote : option string;
    DocNumber : option string;
    Line : option (list JournalLine.t) }.
End JournalEntry.

Module DepositLine.
Record t := mk
  { Description : option string;
    Amount : Q;
    (** the [Entity] of the detail, when the detail is present *)
    DepositLineDetail : option (option Ref.t) }.
End DepositLine.

Module Deposit.
Record t := mk
  { Id : string;
    TxnDate : string;
    PrivateNote : option string;
    Line : option (list DepositLine.t);
    TotalAmt : Q }.
End Deposit.

(** SalesReceipt, Payment and RefundReceipt are read through the same
    four fields. *)
Module Receipt.
Record t := mk
  { Id : string; TxnDate : string; CustomerRef : option Ref.t; TotalAmt : Q }.
End Receipt.

Module VendorCredit.
Record t := mk
  { Id : string; TxnDate : string; VendorRef : option Ref.t; TotalAmt : Q }.
End VendorCredit.

(** *** The canonical transaction *)

Module Txn.
Record t := mk
  { id : string;
    qbId : string;
    qbType : string;
    date : string;
    description : string;
    vendor : option string;
    customer : option string;
    category : string;
    categoryId : option string;
    amount : Q;
    type : TxnType;
    paymentType : option string;
    source : string;
    isPayroll : option bool;
    needsReview : bool }.
End Txn.

(** *** Lookup maps *)

Module AccountInfo.
Record t := mk
  { name : string; type : string; subType : option string; fullName : string }.
End AccountInfo.

(** [a || b] on two strings. *)
Definition or_str (a b : string) : string := Js.or_else (Some a) b.

(** [map[key]]: a missing key is coerced to the property name
    [undefined]. *)
Definition prop {V : Type} (m : gmap string V) (key : option string) : option V :=
  m !! Js.interpolate key.

(** [vendorRecords.forEach(v => { vendorMap[v.Id] = ... })] *)
Definition buildVendorMap (vendorRecords : list Vendor.t) : gmap string string :=
  foldl (fun m v =>
           <[Vendor.Id v :=
               Js.or_else (Js.or_opt (Vendor.DisplayName v) (Vendor.CompanyName v))
                          "Unknown Vendor"]> m)
        ∅ vendorRecords.

(** [accountRecords.forEach(a => { accountMap[a.Id] = {...} })] *)
Definition buildAccountMap (accountRecords : list Account.t)
    : gmap string AccountInfo.t :=
  foldl (fun m a =>
           <[Account.Id a :=
               AccountInfo.mk (Account.Name a) (Account.AccountType a)
                 (Account.AccountSubType a)
                 (Js.or_else (Account.FullyQualifiedName a) (Account.Name a))]> m)
        ∅ accountRecords.

Definition uncategorizedKeywords : list string :=
  ["uncategorized"; "ask my accountant"; "undeposited"].

Definition isUncategorized (categoryName : string) : bool :=
  if String.eqb categoryName "" then true
  else
    let lower := Js.toLowerCase categoryName in
    existsb (fun kw => Js.includes lower kw) uncategorizedKeywords.

(** *** Purchases and Bills *)

(** The object built by the arrow function under [.map] for a line that
    qualifies. *)
Module LineDetail.
Record t := mk
  { description : string;
    category : string;
    categoryId : option string;
    amount : Q }.
End LineDetail.

Definition purchaseLineDetail (accountMap : gmap string AccountInfo.t)
    (line : ExpenseLine.t) : option LineDetail.t :=
  match ExpenseLine.AccountBasedExpenseLineDetail line with
  | Some accountRef =>
    let acctId := accountRef ≫= Ref.value in
    let acctName :=
      Js.or_else (Js.or_opt (accountRef ≫= Ref.name)
                            (AccountInfo.name <$> prop accountMap acctId)) "" in
    Some (LineDetail.mk (Js.or_else (ExpenseLine.Description line) acctName)
            acctName acctId (ExpenseLine.Amount line))
  | None =>
    match ExpenseLine.ItemBasedExpenseLineDetail line with
    | Some itemRef =>
      Some (LineDetail.mk
              (Js.or_else (Js.or_opt (ExpenseLine.Description line)
                                     (itemRef ≫= Ref.name)) "")
              "Items" None (ExpenseLine.Amount line))
    | None => None
    end
  end.

Definition processPurchase (vendorMap : gmap string string)
    (accountMap : gmap string AccountInfo.t) (p : Purchase.t) : list Txn.t :=
  let vendorName :=
    Js.or_else (Js.or_opt (Purchase.EntityRef p ≫= Ref.name)
                          (prop vendorMap (Purchase.EntityRef p ≫= Ref.value))) "" in
  let memo := Js.or_else (Purchase.PrivateNote p) "" in
  let paymentType := Js.or_else (Purchase.PaymentType p) "Unknown" in
  let lineDetails :=
    omap (purchaseLineDetail accountMap) (default [] (Purchase.Line p)) in
  if (0 <? length lineDetails)%nat then
    imap (fun idx line =>
      {| Txn.id := "purchase-" +:+ Purchase.Id p +:+ "-" +:+ pretty idx;
         Txn.qbId := Purchase.Id p;
         Txn.qbType := "Purchase";
         Txn.date := Purchase.TxnDate p;
         Txn.description :=
           or_str (LineDetail.description line)
                  (or_str vendorName (or_str memo "Purchase"));
         Txn.vendor := Some vendorName;
         Txn.customer := None;
         Txn.category := or_str (LineDetail.category line) "Uncategorized";
         Txn.categoryId := LineDetail.categoryId line;
         Txn.amount := Js.neg_abs (LineDetail.amount line);
         Txn.type := expense;
         Txn.paymentType := Some paymentType;
         Txn.source := "Purchase";
         Txn.isPayroll := None;
         Txn.needsReview := isUncategorized (LineDetail.category line) |})
      lineDetails
  else
    [ {| Txn.id := "purchase-" +:+ Purchase.Id p;
         Txn.qbId := Purchase.Id p;
         Txn.qbType := "Purchase";
         Txn.date := Purchase.TxnDate p;
         Txn.description := or_str vendorName (or_str memo "Purchase");
         Txn.vendor := Some vendorName;
         Txn.customer := None;
         Txn.category := "Uncategorized";
         Txn.categoryId := None;
         Txn.amount := Js.neg_abs (Purchase.TotalAmt p);
         Txn.type := expense;
         Txn.paymentType := Some paymentType;
         Txn.source := "Purchase";
         Txn.isPayroll := None;
         Txn.needsReview := true |} ].

Definition billLineDetail (line : ExpenseLine.t) : option LineDetail.t :=
  match ExpenseLine.AccountBasedExpenseLineDetail line with
  | Some accountRef =>
    let acctId := accountRef ≫= Ref.value in
    let acctName := Js.or_else (accountRef ≫= Ref.name) "" in
    Some (LineDetail.mk (Js.or_else (ExpenseLine.Description line) acctName)
            acctName acctId (ExpenseLine.Amount line))
  | None => None
  end.

Definition processBill (vendorMap : gmap string string) (b : Bill.t)
    : list Txn.t :=
  let vendorName :=
    Js.or_else (Js.or_opt (Bill.VendorRef b ≫= Ref.name)
                          (prop vendorMap (Bill.VendorRef b ≫= Ref.value))) "" in
  let memo := Js.or_else (Bill.PrivateNote b) "" in
  let lineDetails := omap billLineDetail (default [] (Bill.Line b)) in
  if (0 <? length lineDetails)%nat then
    imap (fun idx line =>
      {| Txn.id := "bill-" +:+ Bill.Id b +:+ "-" +:+ pretty idx;
         Txn.qbId := Bill.Id b;
         Txn.qbType := "Bill";
         Txn.date := Bill.TxnDate b;
         Txn.description :=
           or_str (LineDetail.description line)
                  (or_str vendorName (or_str memo "Bill"));
         Txn.vendor := Some vendorName;
         Txn.customer := None;
         Txn.category := or_str (LineDetail.category line) "Uncategorized";
         Txn.categoryId := LineDetail.categoryId line;
         Txn.amount := Js.neg_abs (LineDetail.amount line);
         Txn.type := expense;
         Txn.paymentType := None;
         Txn.source := "Bill";
         Txn.isPayroll := None;
         Txn.needsReview := isUncategorized (LineDetail.category line) |})
      lineDetails
  else [].

(** *** Journal entries *)

(** [o === s] for a value that may be absent. *)
Definition str_is (o : option string) (s : string) : bool :=
  match o with
  | Some x => String.eqb x s
  | None => false
  end.

Definition expenseTypes : list string :=
  ["Expense"; "Cost of Goods Sold"; "Other Expense"].

Definition incomeTypes : list string := ["Income"; "Other Income"].

Definition balanceSheetTypes : list string :=
  ["Other Current Liability"; "Long Term Liability"; "Bank";
   "Other Current Asset"; "Fixed Asset"].

(** [acctRef?.name || accountMap[acctRef?.value]?.name || 'Journal Entry'] *)
Definition journalAcctName (accountMap : gmap string AccountInfo.t)
    (detail : JournalDetail.t) : string :=
  let acctRef := JournalDetail.AccountRef detail in
  Js.or_else (Js.or_opt (acctRef ≫= Ref.name)
                        (AccountInfo.name <$> prop accountMap (acctRef ≫= Ref.value)))
             "Journal Entry".

(** [accountMap[acctRef?.value]?.type || ''] *)
Definition journalAcctType (accountMap : gmap string AccountInfo.t)
    (detail : JournalDetail.t) : string :=
  let acctRef := JournalDetail.AccountRef detail in
  Js.or_else (AccountInfo.type <$> prop accountMap (acctRef ≫= Ref.value)) "".

(** [je.PrivateNote || je.DocNumber || ''] *)
Definition journalMemo (je : JournalEntry.t) : string :=
  Js.or_else (Js.or_opt (JournalEntry.PrivateNote je) (JournalEntry.DocNumber je)) "".

Definition isPayroll (acctName memo : string) : bool :=
  Js.includes (Js.toLowerCase acctName) "payroll" ||
  Js.includes (Js.toLowerCase acctName) "wage" ||
  Js.includes (Js.toLowerCase acctName) "salary" ||
  Js.includes (Js.toLowerCase acctName) "paychex" ||
  Js.includes (Js.toLowerCase memo) "payroll" ||
  Js.includes (Js.toLowerCase memo) "paychex".

(** The sign and kind chosen for a line, or [None] where the callback
    returns without pushing. *)
Definition journalPosting (acctType : string) (postingType : option string)
    (amount : Q) : option (TxnType * Q) :=
  if Js.array_includes expenseTypes acctType then
    if str_is postingType "Debit" then Some (expense, Js.neg_abs amount)
    else Some (expense, Qabs amount)
  else if Js.array_includes incomeTypes acctType then
    if str_is postingType "Credit" then Some (income, Qabs amount)
    else Some (income, Js.neg_abs amount)
  else if Js.array_includes balanceSheetTypes acctType then None
  else
    if str_is postingType "Debit" then Some (expense, Js.neg_abs amount)
    else None.

(** The callback of [(je.Line || []).forEach((line, idx) => ...)]. *)
Definition journalLine (accountMap : gmap string AccountInfo.t)
    (je : JournalEntry.t) (idx : nat) (line : JournalLine.t) : option Txn.t :=
  match JournalLine.JournalEntryLineDetail line with
  | None => None
  | Some detail =>
    let memo := journalMemo je in
    let acctName := journalAcctName accountMap detail in
    let acctType := journalAcctType accountMap detail in
    let postingType := JournalDetail.PostingType detail in
    let amount := default 0%Q (JournalLine.Amount line) in
    if Qeq_bool amount 0 then None
    else
      match journalPosting acctType postingType amount with
      | None => None
      | Some (txnType, txnAmount) =>
        let payroll := isPayroll acctName memo in
        Some {| Txn.id := "journal-" +:+ JournalEntry.Id je +:+ "-" +:+ pretty idx;
                Txn.qbId := JournalEntry.Id je;
                Txn.qbType := "JournalEntry";
                Txn.date := JournalEntry.TxnDate je;
                Txn.description :=
                  Js.or_else (Js.or_opt (JournalLine.Description line) (Some memo))
                             acctName;
                Txn.vendor := Some "";
                Txn.customer := None;
                Txn.category := if payroll then "Payroll Expenses" else acctName;
                Txn.categoryId := None;
                Txn.amount := txnAmount;
                Txn.type := txnType;
                Txn.paymentType := None;
                Txn.source := "JournalEntry";
                Txn.isPayroll := Some payroll;
                Txn.needsReview := false |}
      end
  end.

Definition processJournalEntry (accountMap : gmap string AccountInfo.t)
    (je : JournalEntry.t) : list Txn.t :=
  omap id (imap (journalLine accountMap je) (default [] (JournalEntry.Line je))).

(** *** Deposits, receipts, payments, refunds and vendor credits *)

Definition incomeTxn (id qbId qbType date description : string)
    (customer : option string) (amount : Q) : Txn.t :=
  {| Txn.id := id; Txn.qbId := qbId; Txn.qbType := qbType; Txn.date := date;
     Txn.description := description; Txn.vendor := None;
     Txn.customer := customer; Txn.category := "Income";
     Txn.categoryId := None; Txn.amount := amount; Txn.type := income;
     Txn.paymentType := None; Txn.source := qbType; Txn.isPayroll := None;
     Txn.needsReview := false |}.

(** [(description, customer, amount)] of a deposit line that qualifies. *)
Definition depositLineDetail (line : DepositLine.t)
    : option (string * string * Q) :=
  match DepositLine.DepositLineDetail line with
  | Some entity =>
    Some (Js.or_else (Js.or_opt (entity ≫= Ref.name) (DepositLine.Description line))
                     "Deposit",
          Js.or_else (entity ≫= Ref.name) "",
          DepositLine.Amount line)
  | None => None
  end.

Definition processDeposit (d : Deposit.t) : list Txn.t :=
  let lineDetails := omap depositLineDetail (default [] (Deposit.Line d)) in
  if (0 <? length lineDetails)%nat then
    imap (fun idx '(description, customer, amount) =>
            incomeTxn ("deposit-" +:+ Deposit.Id d +:+ "-" +:+ pretty idx)
              (Deposit.Id d) "Deposit" (Deposit.TxnDate d) description
              (Some customer) (Qabs amount))
         lineDetails
  else
    [ incomeTxn ("deposit-" +:+ Deposit.Id d) (Deposit.Id d) "Deposit"
        (Deposit.TxnDate d) (Js.or_else (Deposit.PrivateNote d) "Bank Deposit")
        None (Qabs (Deposit.TotalAmt d)) ].

(** [x.CustomerRef?.name ? `Payment - ${x.CustomerRef.name}` : fallback] *)
Definition paymentLabel (customerRef : option Ref.t) (fallback : string) : string :=
  if Js.truthy (customerRef ≫= Ref.name)
  then "Payment - " +:+ Js.interpolate (customerRef ≫= Ref.name)
  else fallback.

Definition processSalesReceipt (sr : Receipt.t) : Txn.t :=
  incomeTxn ("salesreceipt-" +:+ Receipt.Id sr) (Receipt.Id sr) "SalesReceipt"
    (Receipt.TxnDate sr) (paymentLabel (Receipt.CustomerRef sr) "Sales Receipt")
    (Some (Js.or_else (Receipt.CustomerRef sr ≫= Ref.name) ""))
    (Qabs (Receipt.TotalAmt sr)).

Definition processPayment (p : Receipt.t) : Txn.t :=
  incomeTxn ("payment-" +:+ Receipt.Id p) (Receipt.Id p) "Payment"
    (Receipt.TxnDate p) (paymentLabel (Receipt.CustomerRef p) "Payment Received")
    (Some (Js.or_else (Receipt.CustomerRef p ≫= Ref.name) ""))
    (Qabs (Receipt.TotalAmt p)).

Definition processRefundReceipt (rr : Receipt.t) : Txn.t :=
  {| Txn.id := "refund-" +:+ Receipt.Id rr;
     Txn.qbId := Receipt.Id rr;
     Txn.qbType := "RefundReceipt";
     Txn.date := Receipt.TxnDate rr;
     Txn.description :=
       "Refund to " +:+ Js.or_else (Receipt.CustomerRef rr ≫= Ref.name) "Customer";
     Txn.vendor := None;
     Txn.customer := Some (Js.or_else (Receipt.CustomerRef rr ≫= Ref.name) "");
     Txn.category := "Refunds";
     Txn.categoryId := None;
     Txn.amount := Js.neg_abs (Receipt.TotalAmt rr);
     Txn.type := expense;
     Txn.paymentType := None;
     Txn.source := "RefundReceipt";
     Txn.isPayroll := None;
     Txn.needsReview := false |}.

Definition processVendorCredit (vc : VendorCredit.t) : Txn.t :=
  {| Txn.id := "vendorcredit-" +:+ VendorCredit.Id vc;
     Txn.qbId := VendorCredit.Id vc;
     Txn.qbType := "VendorCredit";
     Txn.date := VendorCredit.TxnDate vc;
     Txn.description :=
       "Credit from " +:+ Js.or_else (VendorCredit.VendorRef vc ≫= Ref.name) "Vendor";
     Txn.vendor := Some (Js.or_else (VendorCredit.VendorRef vc ≫= Ref.name) "");
     Txn.customer := None;
     Txn.category := "Vendor Credits";
     Txn.categoryId := None;
     Txn.amount := Qabs (VendorCredit.TotalAmt vc);
     Txn.type := expense;
     Txn.paymentType := None;
     Txn.source := "VendorCredit";
     Txn.isPayroll := None;
     Txn.needsReview := false |}.

(** *** The aggregation run *)

Module Entity.
Inductive t :=
| Purchase | Bill | JournalEntry | VendorCredit | SalesReceipt
| Payment | Deposit | RefundReceipt | Account | Vendor.
End Entity.

Definition recordOf (e : Entity.t) : Type :=
  match e with
  | Entity.Purchase => Purchase.t
  | Entity.Bill => Bill.t
  | Entity.JournalEntry => JournalEntry.t
  | Entity.VendorCredit => VendorCredit.t
  | Entity.SalesReceipt | Entity.Payment | Entity.RefundReceipt => Receipt.t
  | Entity.Deposit => Deposit.t
  | Entity.Account => Account.t
  | Entity.Vendor => Vendor.t
  end.

(** The ledger seen from [fetchAllRecords]: for each entity type, what a
    query starting at a given position gives ([None]: [qbApiCall] throws). *)
Definition Upstream : Type :=
  forall e : Entity.t, Z -> option (list (recordOf e)).

(** The records of one entity type, as [fetchFinancialData] obtains them. *)
Definition fetched (upstream : Upstream) (e : Entity.t) : list (recordOf e) :=
  fetchAllRecords (upstream e).

Module Debug.
Record t := mk
  { purchase_count : nat;
    bill_count : nat;
    journal_entry_count : nat;
    salesreceipt_count : nat;
    payment_count : nat;
    deposit_count : nat;
    refund_count : nat;
    vendor_credit_count : nat;
    needs_review_count : nat;
    sources : gmap string nat }.
End Debug.


(** The part of the value returned by [fetchFinancialData] that does not
    depend on the profit-and-loss report or on sums of amounts: the two
    sorted lists and the [debug] field. *)
Module Result.
Record t := mk
  { transactions : list Txn.t;
    needsReview : list Txn.t;
    debug : Debug.t }.
End Result.

Definition sourceCounts (transactions : list Txn.t) : gmap string nat :=
  foldl (fun m t => <[Txn.source t := S (default 0%nat (m !! Txn.source t))]> m)
        ∅ transactions.

(** *** The date sort *)

(** [xs.sort((a, b) => new Date(b.date) - new Date(a.date))].
    [dateValue s] is the time value of [new Date(s)], for dates that
    parse, as the [TxnDate] of a ledger record does.  The sort of an
    array is stable, and a stable sort by a key has one result: each
    element goes behind the elements that are strictly newer and before
    the first one that is not. *)
Fixpoint insertByDate (dateValue : string -> Z) (t : Txn.t) (sorted : list Txn.t)
    : list Txn.t :=
  match sorted with
  | [] => [t]
  | u :: rest =>
    if (dateValue (Txn.date t) <? dateValue (Txn.date u))%Z
    then u :: insertByDate dateValue t rest
    else t :: u :: rest
  end.

Definition sortByDate (dateValue : string -> Z) (transactions : list Txn.t)
    : list Txn.t :=
  foldr (insertByDate dateValue) [] transactions.

(** [fetchFinancialData].  [plReport] tells whether the report request,
    which is made outside [fetchAllRecords], returned ([None]: it threw,
    and the exception leaves the function). *)
Definition fetchFinancialData (dateValue : string -> Z) (plReport : option unit)
    (upstream : Upstream) : option Result.t :=
  match plReport with
  | None => None
  | Some _ =>
    let purchaseRecords := fetched upstream Entity.Purchase in
    let billRecords := fetched upstream Entity.Bill in
    let journalEntryRecords := fetched upstream Entity.JournalEntry in
    let vendorCreditRecords := fetched upstream Entity.VendorCredit in
    let salesReceiptRecords := fetched upstream Entity.SalesReceipt in
    let paymentRecords := fetched upstream Entity.Payment in
    let depositRecords := fetched upstream Entity.Deposit in
    let refundReceiptRecords := fetched upstream Entity.RefundReceipt in
    let accountRecords := fetched upstream Entity.Account in
    let vendorRecords := fetched upstream Entity.Vendor in
    let vendorMap := buildVendorMap vendorRecords in
    let accountMap := buildAccountMap accountRecords in
    let purchases := purchaseRecords ≫= processPurchase vendorMap accountMap in
    let bills := billRecords ≫= processBill vendorMap in
    let pushed :=
      purchases ++ bills
      ++ (journalEntryRecords ≫= processJournalEntry accountMap)
      ++ (depositRecords ≫= processDeposit)
      ++ map processSalesReceipt salesReceiptRecords
      ++ map processPayment paymentRecords
      ++ map processRefundReceipt refundReceiptRecords
      ++ map processVendorCredit vendorCreditRecords in
    let transactions := sortByDate dateValue pushed in
    let needsReview :=
      sortByDate dateValue (List.filter Txn.needsReview (purchases ++ bills)) in
    Some (Result.mk transactions needsReview
            (Debug.mk (length purchaseRecords) (length billRecords)
               (length journalEntryRecords) (length salesReceiptRecords)
               (length paymentRecords) (length depositRecords)
               (length refundReceiptRecords) (length vendorCreditRecords)
               (length needsReview) (sourceCounts transactions)))
  end.

End Ledger.

(** ** The category resolver and the rule store *)

Module Server.

(** An entry of [learnedRules]. *)
Module Rule.
Record t := mk
  { id : string;
    pattern : string;
    patternType : string;
    categoryId : string;
    categoryName : string;
    confidence : option Q;
    timesUsed : option Z;
    createdAt : option string;
    updatedAt : option string }.
End Rule.

(** The object returned by [findMatchingRule]. *)
Module RuleMatch.
Record t := mk
  { categoryId : string;
    categoryName : string;
    confidence : Q;
    source : string;
    ruleId : string }.
End RuleMatch.

(** The object parsed from the classifier's text. *)
Module AiResult.
Record t := mk
  { categoryId : option string;
    categoryName : option string;
    confidence : option Q;
    reasoning : option string }.
End AiResult.

(** A suggestion is a rule match, or the classifier's object spread under
    [source: 'ai']. *)
Inductive Suggestion :=
| FromRule (ruleMatch : RuleMatch.t)
| FromAi (result : AiResult.t).

(** An entry of [categoryCache.categories]. *)
Module Category.
Record t := mk
  { id : string;
    name : string;
    fullName : string;
    type : string;
    subType : option string;
    active : bool }.
End Category.

(** The [transaction] of a categorize request. *)
Module Transaction.
Record t := mk
  { id : option string;
    description : option string;
    vendor : option string;
    amount : option Q;
    date : option string }.
End Transaction.

(** What [anthropic.messages.create] and the parsing of its text give. *)
Inductive Answer :=
| ApiError (message : string)      (* the request throws *)
| NoJson                           (* the text holds no [{...}] *)
| BadJson (message : string)       (* [JSON.parse] throws *)
| Json (result : AiResult.t).

Inductive Event :=
| ClassifierRequest (transaction : Transaction.t) (categories : list Category.t)
| ConsoleError (message : string)
| ConsoleLog (message : string).

(** The world outside the process, for the duration of one request. *)
Module Env.
Record t := mk
  { now : Z;                       (* [Date.now()] *)
    isoNow : string;               (* [new Date().toISOString()] *)
    classifier : Transaction.t -> list Category.t -> Answer;
    accountQuery : Z -> option (list Ledger.Account.t);
    diskWritable : bool            (* does [fs.writeFileSync] succeed *) }.
End Env.

(** The module-level variables of [server.js] that these handlers touch,
    the content of [RULES_FILE], and the trace of outside calls. *)
Module State.
Record t := mk
  { access_token : option string;
    categories : list Category.t;
    lastFetched : option Z;
    learnedRules : list Rule.t;
    anthropic : bool;
    rulesFile : option (list Rule.t);
    trace : list Event }.
End State.

(** *** A state monad with exceptions *)

Inductive Outcome (A : Type) :=
| Returns (a : A)
| Raises (message : string).
Arguments Returns {A} a.
Arguments Raises {A} message.

Definition M (A : Type) : Type := State.t -> Outcome A * State.t.

Definition ret {A} (a : A) : M A := fun st => (Returns a, st).

Definition raise {A} (message : string) : M A := fun st => (Raises message, st).

Definition bind {A B} (c : M A) (k : A -> M B) : M B :=
  fun st =>
    match c st with
    | (Returns a, st') => k a st'
    | (Raises message, st') => (Raises message, st')
    end.

(** [try { body } catch (err) { handler }]; what [body] did to the state
    before raising stays done. *)
Definition try_catch {A} (body : M A) (handler : string -> M A) : M A :=
  fun st =>
    match body st with
    | (Returns a, st') => (Returns a, st')
    | (Raises message, st') => handler message st'
    end.

Definition gets {A} (f : State.t -> A) : M A := fun st => (Returns (f st), st).

Definition modify (f : State.t -> State.t) : M unit := fun st => (Returns tt, f st).

Notation "'let*' x ':=' c 'in' k" := (bind c (fun x => k))
  (at level 10, x name, c at level 100, k at level 200).
Notation "c ';;' k" := (bind c (fun _ => k))
  (at level 100, k at level 200, right associativity).

Fixpoint forEachM {A B} (f : A -> M B) (xs : list A) : M (list B) :=
  match xs with
  | [] => ret []
  | x :: rest =>
    let* y := f x in
    let* ys := forEachM f rest in
    ret (y :: ys)
  end.

Definition emit (e : Event) : M unit :=
  modify (fun st =>
    State.mk (State.access_token st) (State.categories st) (State.lastFetched st)
      (State.learnedRules st) (State.anthropic st) (State.rulesFile st)
      (State.trace st ++ [e])).

Definition setLearnedRules (rules : list Rule.t) : M unit :=
  modify (fun st =>
    State.mk (State.access_token st) (State.categories st) (State.lastFetched st)
      rules (State.anthropic st) (State.rulesFile st) (State.trace st)).

Definition setCategoryCache (categories : list Category.t) (lastFetched : Z)
    : M unit :=
  modify (fun st =>
    State.mk (State.access_token st) categories (Some lastFetched)
      (State.learnedRules st) (State.anthropic st) (State.rulesFile st)
      (State.trace st)).

(** [fs.writeFileSync(RULES_FILE, JSON.stringify(learnedRules, null, 2))] *)
Definition writeRulesFile (env : Env.t) : M unit :=
  fun st =>
    if Env.diskWritable env then
      (Returns tt,
       State.mk (State.access_token st) (State.categories st)
         (State.lastFetched st) (State.learnedRules st) (State.anthropic st)
         (Some (State.learnedRules st)) (State.trace st))
    else (Raises "EACCES: permission denied, open './learned_rules.json'", st).

(** *** Rule matching *)

Definition ruleMatches (searchText : string) (rule : Rule.t) : bool :=
  let pattern := Js.toLowerCase (Rule.pattern rule) in
  if String.eqb (Rule.patternType rule) "exact" then
    String.eqb searchText pattern
  else if String.eqb (Rule.patternType rule) "starts_with" then
    Js.startsWith searchText pattern
  else
    Js.includes searchText pattern.

(** [rule.confidence || 1.0] *)
Definition reportedConfidence (rule : Rule.t) : Q :=
  match Rule.confidence rule with
  | Some c => if Qeq_bool c 0 then 1 else c
  | None => 1
  end.

Definition matchOf (rule : Rule.t) : RuleMatch.t :=
  {| RuleMatch.categoryId := Rule.categoryId rule;
     RuleMatch.categoryName := Rule.categoryName rule;
     RuleMatch.confidence := reportedConfidence rule;
     RuleMatch.source := "learned_rule";
     RuleMatch.ruleId := Rule.id rule |}.

(** [for (const rule of learnedRules) { ... if (matched) return {...}; }] *)
Fixpoint scanRules (rules : list Rule.t) (searchText : string)
    : option RuleMatch.t :=
  match rules with
  | [] => None
  | rule :: rest =>
    if ruleMatches searchText rule then Some (matchOf rule)
    else scanRules rest searchText
  end.

Definition searchKey (description vendorName : option string) : string :=
  Js.toLowerCase (Js.interpolate description +:+ " " +:+ Js.interpolate vendorName).

Definition findMatchingRule (learnedRules : list Rule.t)
    (description vendorName : option string) : option RuleMatch.t :=
  scanRules learnedRules (searchKey description vendorName).

(** [ruleMatch && ruleMatch.confidence >= 0.95] *)
Definition autoApproves (ruleMatch : option RuleMatch.t) : bool :=
  match ruleMatch with
  | Some m => Qle_bool 0.95 (RuleMatch.confidence m)
  | None => false
  end.

(** *** Categories and the classifier *)

Definition categoryAccountTypes : list string :=
  ["Expense"; "Cost of Goods Sold"; "Other Expense"; "Other Current Liability"].

Definition fetchAndCacheCategories (env : Env.t) : M (list Category.t) :=
  let accounts := Ledger.fetchAllRecords (Env.accountQuery env) in
  let expenseAccounts :=
    List.filter (fun a => Js.array_includes categoryAccountTypes
                            (Ledger.Account.AccountType a)) accounts in
  let categories :=
    map (fun a =>
           Category.mk (Ledger.Account.Id a) (Ledger.Account.Name a)
             (Js.or_else (Ledger.Account.FullyQualifiedName a) (Ledger.Account.Name a))
             (Ledger.Account.AccountType a) (Ledger.Account.AccountSubType a)
             (Ledger.Account.Active a))
        expenseAccounts in
  setCategoryCache categories (Env.now env) ;;
  gets State.categories.

Definition aiCategorize (env : Env.t) (transaction : Transaction.t)
    (categories : list Category.t) : M (option AiResult.t) :=
  let* client := gets State.anthropic in
  if negb client then ret None
  else
    try_catch
      (emit (ClassifierRequest transaction categories) ;;
       match Env.classifier env transaction categories with
       | ApiError message => raise message
       | NoJson => ret None
       | BadJson message => raise message
       | Json result => ret (Some result)
       end)
      (fun err =>
         emit (ConsoleError ("AI categorization error: " +:+ err)) ;;
         ret None).

(** [aiResult || ruleMatch] *)
Definition orRuleMatch (aiResult : option AiResult.t)
    (ruleMatch : option RuleMatch.t) : option Suggestion :=
  match aiResult with
  | Some result => Some (FromAi result)
  | None => FromRule <$> ruleMatch
  end.

(** *** Responses *)

Module BatchResult.
Record t := mk
  { transactionId : option string;
    suggestion : option Suggestion;
    autoApproved : bool }.
End BatchResult.

Inductive Body :=
| ErrorBody (error : string)
| CategorizeBody (suggestion : option Suggestion) (autoApproved : bool)
| BatchBody (results : list BatchResult.t)
| LearnBody (success : bool) (rulesCount : nat)
| DeleteBody (success : bool).

Module Response.
Record t := mk { status : Z; body : Body }.
End Response.

(** [res.json(body)] and [res.status(code).json(body)] *)
Definition json (body : Body) : Response.t := Response.mk 200 body.
Definition status_json (code : Z) (body : Body) : Response.t := Response.mk code body.

(** *** [POST /api/quickbooks/categorize] *)

Definition categorize (env : Env.t) (transaction : Transaction.t) : M Response.t :=
  try_catch
    (let* token := gets State.access_token in
     if negb (Js.truthy token) then
       ret (status_json 401 (ErrorBody "Not authenticated"))
     else
       let* learnedRules := gets State.learnedRules in
       let ruleMatch :=
         findMatchingRule learnedRules (Transaction.description transaction)
           (Transaction.vendor transaction) in
       if autoApproves ruleMatch then
         ret (json (CategorizeBody (FromRule <$> ruleMatch) true))
       else
         let* cached := gets State.categories in
         (if (length cached =? 0)%nat
          then fetchAndCacheCategories env ;; ret tt
          else ret tt) ;;
         let* categories := gets State.categories in
         let* aiResult := aiCategorize env transaction categories in
         ret (json (CategorizeBody (orRuleMatch aiResult ruleMatch) false)))
    (fun err =>
       emit (ConsoleError ("Categorization error: " +:+ err)) ;;
       ret (status_json 500 (ErrorBody err))).

(** *** [POST /api/quickbooks/categorize-batch] *)

(** The body of [for (const txn of transactions) { ... }]: the entry
    pushed on [results]. *)
Definition categorizeOne (env : Env.t) (txn : Transaction.t) : M BatchResult.t :=
  let* learnedRules := gets State.learnedRules in
  let ruleMatch :=
    findMatchingRule learnedRules (Transaction.description txn)
      (Transaction.vendor txn) in
  if autoApproves ruleMatch then
    ret (BatchResult.mk (Transaction.id txn) (FromRule <$> ruleMatch) true)
  else
    let* categories := gets State.categories in
    let* aiResult := aiCategorize env txn categories in
    ret (BatchResult.mk (Transaction.id txn) (orRuleMatch aiResult ruleMatch) false).

Definition categorizeBatch (env : Env.t) (transactions : list Transaction.t)
    : M Response.t :=
  try_catch
    (let* token := gets State.access_token in
     if negb (Js.truthy token) then
       ret (status_json 401 (ErrorBody "Not authenticated"))
     else
       let* cached := gets State.categories in
       (if (length cached =? 0)%nat
        then fetchAndCacheCategories env ;; ret tt
        else ret tt) ;;
       let* results := forEachM (categorizeOne env) transactions in
       ret (json (BatchBody results)))
    (fun err =>
       emit (ConsoleError ("Batch categorization error: " +:+ err)) ;;
       ret (status_json 500 (ErrorBody err))).

(** *** The rule store: [POST /api/quickbooks/learn-rule] and
    [DELETE /api/quickbooks/rules/:id] *)

(** [saveRules]: a failed write is logged and goes no further. *)
Definition saveRules (env : Env.t) : M unit :=
  try_catch (writeRulesFile env)
    (fun err => emit (ConsoleError ("Error saving rules: " +:+ err))).

Module LearnRequest.
Record t := mk
  { pattern : string;
    categoryId : string;
    categoryName : string;
    patternType : option string }.
End LearnRequest.

(** [xs.findIndex(p)], with [None] for [-1]. *)
Fixpoint findIndex {A : Type} (p : A -> bool) (xs : list A) : option nat :=
  match xs with
  | [] => None
  | x :: rest => if p x then Some 0%nat else S <$> findIndex p rest
  end.

(** The predicate given to [findIndex] by the learn-rule handler. *)
Definition samePattern (pattern patternType : string) (r : Rule.t) : bool :=
  String.eqb (Js.toLowerCase (Rule.pattern r)) (Js.toLowerCase pattern)
  && String.eqb (Rule.patternType r) patternType.

(** [(timesUsed || 1) + 1] *)
Definition bumped (timesUsed : option Z) : Z :=
  (match timesUsed with
   | Some n => if (n =? 0)%Z then 1 else n
   | None => 1
   end + 1)%Z.

Definition updateRule (env : Env.t) (categoryId categoryName : string)
    (r : Rule.t) : Rule.t :=
  {| Rule.id := Rule.id r;
     Rule.pattern := Rule.pattern r;
     Rule.patternType := Rule.patternType r;
     Rule.categoryId := categoryId;
     Rule.categoryName := categoryName;
     Rule.confidence := Rule.confidence r;
     Rule.timesUsed := Some (bumped (Rule.timesUsed r));
     Rule.createdAt := Rule.createdAt r;
     Rule.updatedAt := Some (Env.isoNow env) |}.

Definition newRule (env : Env.t) (pattern patternType categoryId categoryName : string)
    : Rule.t :=
  {| Rule.id := "rule-" +:+ pretty (Env.now env);
     Rule.pattern := pattern;
     Rule.patternType := patternType;
     Rule.categoryId := categoryId;
     Rule.categoryName := categoryName;
     Rule.confidence := Some 1%Q;
     Rule.timesUsed := Some 1%Z;
     Rule.createdAt := Some (Env.isoNow env);
     Rule.updatedAt := None |}.

(** The change that the handler makes to [learnedRules]. *)
Definition taught (env : Env.t) (pattern patternType categoryId categoryName : string)
    (learnedRules : list Rule.t) : list Rule.t :=
  match findIndex (samePattern pattern patternType) learnedRules with
  | Some existingIndex =>
    alter (updateRule env categoryId categoryName) existingIndex learnedRules
  | None =>
    learnedRules ++ [newRule env pattern patternType categoryId categoryName]
  end.

Definition learnRule (env : Env.t) (req : LearnRequest.t) : M Response.t :=
  try_catch
    (let pattern := LearnRequest.pattern req in
     let patternType := default "contains" (LearnRequest.patternType req) in
     let* learnedRules := gets State.learnedRules in
     setLearnedRules
       (taught env pattern patternType (LearnRequest.categoryId req)
          (LearnRequest.categoryName req) learnedRules) ;;
     saveRules env ;;
     emit (ConsoleLog ("Learned rule: " +:+ pattern)) ;;
     let* learnedRules := gets State.learnedRules in
     ret (json (LearnBody true (length learnedRules))))
    (fun err =>
       emit (ConsoleError ("Learn rule error: " +:+ err)) ;;
       ret (status_json 500 (ErrorBody err))).

Definition deleteRule (env : Env.t) (id : string) : M Response.t :=
  try_catch
    (let* learnedRules := gets State.learnedRules in
     setLearnedRules
       (List.filter (fun r => negb (String.eqb (Rule.id r) id)) learnedRules) ;;
     saveRules env ;;
     ret (json (DeleteBody true)))
    (fun err => ret (status_json 500 (ErrorBody err))).

(** [teach(p, t, c)] as a change of state: the learn-rule call, keeping
    the state it leaves. *)
Definition teach (env : Env.t) (pattern patternType categoryId categoryName : string)
    (st : State.t) : State.t :=
  snd (learnRule env
         (LearnRequest.mk pattern categoryId categoryName (Some patternType)) st).

(** The key under which the store keeps at most one rule. *)
Definition ruleKey (r : Rule.t) : string * string :=
  (Js.toLowerCase (Rule.pattern r), Rule.patternType r).

(** The rules of the store kept for [(pattern, patternType)]. *)
Definition rulesFor (pattern patternType : string) (rules : list Rule.t)
    : list Rule.t :=
  List.filter (samePattern pattern patternType) rules.

Definition uniqueRules (rules : list Rule.t) : Prop :=
  NoDup (map ruleKey rules).

End Server.

(** ** The monthly profit-and-loss report *)

Module Report.

Module ColData.
Record t := mk { value : option string }.
End ColData.

(** A [Summary] object; [ColData] may be missing. *)
Module Summary.
Record t := mk { ColData : option (list ColData.t) }.
End Summary.

(** A row of [Rows.Row]: its [Summary], and [Rows?.Row], the rows nested
    under it. *)
#[local] Unset Elimination Schemes.
Inductive Row :=
| mkRow (summary : option Summary.t) (rows : option (list Row)).
#[local] Set Elimination Schemes.

Module Column.
Record t := mk { ColTitle : option string }.
End Column.

(** The report as [parseMonthlyPL] reads it: [Rows?.Row] and
    [Columns?.Column]. *)
Module Doc.
Record t := mk
  { Rows : option (list Row);
    Columns : option (list Column.t) }.
End Doc.

(** [summary?.ColData?.[i]?.value] *)
Definition cell (summary : option Summary.t) (i : nat) : option string :=
  match summary ≫= Summary.ColData with
  | Some cells => (cells !! i) ≫= ColData.value
  | None => None
  end.

(** [row.Summary?.ColData?.[0]?.value?.toLowerCase().includes(label.toLowerCase())] *)
Definition summaryMatches (summary : option Summary.t) (label : string) : bool :=
  match cell summary 0 with
  | Some value => Js.includes (Js.toLowerCase value) (Js.toLowerCase label)
  | None => false
  end.

(** The body of the loop of [findRow] for one row; the inner [fix] is the
    recursive call [findRow(row.Rows.Row, label)]. *)
Fixpoint findInRow (label : string) (row : Row) {struct row} : option Summary.t :=
  match row with
  | mkRow summary rows =>
    if summaryMatches summary label then summary
    else
      match rows with
      | Some children =>
        (fix findRow (rs : list Row) : option Summary.t :=
           match rs with
           | [] => None
           | r :: rest =>
             match findInRow label r with
             | Some found => Some found
             | None => findRow rest
             end
           end) children
      | None => None
      end
  end.

(** [findRow(rows, label)] *)
Fixpoint findRow (rows : list Row) (label : string) : option Summary.t :=
  match rows with
  | [] => None
  | row :: rest =>
    match findInRow label row with
    | Some found => Some found
    | None => findRow rest label
    end
  end.

(** [s.split(' ')[0]]: the text before the first space. *)
Fixpoint firstWord (s : string) : string :=
  match s with
  | EmptyString => EmptyString
  | String c rest =>
    if Ascii.eqb c " "%char then EmptyString else String c (firstWord rest)
  end.

(** [columns.slice(1).map(c => (c.ColTitle || '').split(' ')[0] || '')] *)
Definition monthNames (columns : list Column.t) : list string :=
  map (fun c => firstWord (Js.or_else (Column.ColTitle c) "")) (drop 1 columns).

Module Month.
Record t := mk { month : string; revenue : Q; expenses : Q; profit : Q }.
End Month.

(** [parseFloat(text) || 0]; [parseFloat] is the built-in, which gives no
    number ([NaN]) for a missing or non-numeric text. *)
Definition amountOf (parseFloat : string -> option Q) (text : option string) : Q :=
  match text ≫= parseFloat with
  | Some x => if Qeq_bool x 0 then 0 else x
  | None => 0
  end.

Definition parseMonthlyPL (parseFloat : string -> option Q) (report : option Doc.t)
    : list Month.t :=
  match report ≫= Doc.Rows with
  | None => []
  | Some rows =>
    let columns := default [] (report ≫= Doc.Columns) in
    let incomeRow := findRow rows "Total Income" in
    let expenseRow := findRow rows "Total Expenses" in
    omap id
      (imap (fun idx month =>
               if String.eqb month "" then None
               else
                 let revenue := amountOf parseFloat (cell incomeRow (idx + 1)) in
                 let expenses := amountOf parseFloat (cell expenseRow (idx + 1)) in
                 Some (Month.mk month revenue expenses (revenue - expenses)))
            (monthNames columns))
  end.

End Report.

(** ** Bank feed (Plaid): the handlers over [plaidAccounts] *)

(** [savePlaidTokens] and [deletePlaidTokenFromSupabase] catch every
    failure and return nothing, so the handlers are given as functions of
    the array [plaidAccounts] alone. *)
Module Bank.

(** [pa => pa.id === id] *)
Definition hasId (id : string) (pa : Plaid.Connection.t) : bool :=
  String.eqb (Plaid.Connection.id pa) id.

Inductive Body :=
| ErrorBody (error : string)
| ToggleBody (success : bool) (account_id : string) (excluded : bool)
    (message : string)
| SyncBody (success : bool) (transactions_synced : nat)
    (transactions : list Plaid.Txn.t) (errors : option (list Plaid.Error.t))
| DisconnectBody (success : bool) (message : string).

Module Response.
Record t := mk { status : Z; body : Body }.
End Response.

Definition json (body : Body) : Response.t := Response.mk 200 body.
Definition status_json (code : Z) (body : Body) : Response.t := Response.mk code body.

(** *** [POST /api/plaid/toggle-account] *)

Module ToggleRequest.
Record t := mk
  { institution_id : string;
    account_id : string;
    exclude : bool }.
End ToggleRequest.

Definition withExcluded (excluded : list string) (institution : Plaid.Connection.t)
    : Plaid.Connection.t :=
  {| Plaid.Connection.id := Plaid.Connection.id institution;
     Plaid.Connection.access_token := Plaid.Connection.access_token institution;
     Plaid.Connection.institution_name := Plaid.Connection.institution_name institution;
     Plaid.Connection.excluded_accounts := Some excluded;
     Plaid.Connection.cursor := Plaid.Connection.cursor institution;
     Plaid.Connection.last_synced := Plaid.Connection.last_synced institution |}.

(** What the handler does to the connection it found: the list is
    created when missing, then the account is pushed unless it is there,
    or filtered out. *)
Definition toggled (account_id : string) (exclude : bool)
    (institution : Plaid.Connection.t) : Plaid.Connection.t :=
  let excluded := default [] (Plaid.Connection.excluded_accounts institution) in
  withExcluded
    (if exclude then
       if Js.array_includes excluded account_id then excluded
       else excluded ++ [account_id]
     else List.filter (fun id => negb (String.eqb id account_id)) excluded)
    institution.

(** [plaidAccounts.find(...)] gives the first connection with the id;
    the handler changes that object in place. *)
Definition toggleAccount (req : ToggleRequest.t)
    (plaidAccounts : list Plaid.Connection.t)
    : Response.t * list Plaid.Connection.t :=
  match Server.findIndex (hasId (ToggleRequest.institution_id req)) plaidAccounts with
  | None => (status_json 404 (ErrorBody "Institution not found"), plaidAccounts)
  | Some i =>
    (json (ToggleBody true (ToggleRequest.account_id req)
             (ToggleRequest.exclude req)
             (if ToggleRequest.exclude req then "Account excluded from sync"
              else "Account included in sync")),
     alter (toggled (ToggleRequest.account_id req) (ToggleRequest.exclude req))
       i plaidAccounts)
  end.

(** *** [POST /api/plaid/sync] *)

(** The parsed body of one [/transactions/sync] answer. *)
Module SyncData.
Record t := mk
  { error_code : option string;
    error_message : option string;
    added : option (list Plaid.Item.t);
    next_cursor : option string }.
End SyncData.

Inductive SyncReply :=
| SyncThrows (message : string)
| SyncAnswers (syncData : SyncData.t).

(** The bank feed during one request: the answer to a sync request with
    the given access token and cursor. *)
Definition Feed : Type := string -> string -> SyncReply.

(** What the body of [for (const account of plaidAccounts)] leaves: the
    connection, and what it pushed on [allTransactions] and [errors]. *)
Module Synced.
Record t := mk
  { account : Plaid.Connection.t;
    transactions : list Plaid.Txn.t;
    errors : list Plaid.Error.t }.
End Synced.

(** [account.cursor = syncData.next_cursor; account.last_synced = ...] *)
Definition advanced (next_cursor : option string) (isoNow : string)
    (account : Plaid.Connection.t) : Plaid.Connection.t :=
  {| Plaid.Connection.id := Plaid.Connection.id account;
     Plaid.Connection.access_token := Plaid.Connection.access_token account;
     Plaid.Connection.institution_name := Plaid.Connection.institution_name account;
     Plaid.Connection.excluded_accounts := Plaid.Connection.excluded_accounts account;
     Plaid.Connection.cursor := next_cursor;
     Plaid.Connection.last_synced := Some isoNow |}.

Definition syncOne (feed : Feed) (isoNow : string) (account : Plaid.Connection.t)
    : Synced.t :=
  match feed (Plaid.Connection.access_token account)
             (Js.or_else (Plaid.Connection.cursor account) "") with
  | SyncThrows message =>
    Synced.mk account []
      [Plaid.Error.mk (Plaid.Connection.institution_name account) (Some message)]
  | SyncAnswers syncData =>
    if Js.truthy (SyncData.error_code syncData) then
      Synced.mk account []
        [Plaid.Error.mk (Plaid.Connection.institution_name account)
           (SyncData.error_message syncData)]
    else
      Synced.mk (advanced (SyncData.next_cursor syncData) isoNow account)
        (Plaid.syncTransactions account (SyncData.added syncData)) []
  end.

(** The handler; [clock k] is what [new Date().toISOString()] gives while
    the [k]-th connection is handled. *)
Definition sync (configured : bool) (feed : Feed) (clock : nat -> string)
    (plaidAccounts : list Plaid.Connection.t)
    : Response.t * list Plaid.Connection.t :=
  if negb configured then
    (status_json 400 (ErrorBody "Plaid not configured"), plaidAccounts)
  else if (length plaidAccounts =? 0)%nat then
    (status_json 400 (ErrorBody "No bank accounts connected"), plaidAccounts)
  else
    let results := imap (fun k account => syncOne feed (clock k) account) plaidAccounts in
    let allTransactions := results ≫= Synced.transactions in
    let errors := results ≫= Synced.errors in
    (json (SyncBody true (length allTransactions) allTransactions
             (if (0 <? length errors)%nat then Some errors else None)),
     map Synced.account results).

(** *** [POST /api/plaid/disconnect] *)

Inductive Event :=
| ItemRemove (access_token : string)
| ConsoleLog (message : string).

(** [removeFails token] is the message of the exception that the
    [/item/remove] request throws, if it throws.  The events are the
    request and the note logged by the [catch]. *)
Definition disconnect (configured : bool) (removeFails : string -> option string)
    (account_id : option string) (plaidAccounts : list Plaid.Connection.t)
    : Response.t * list Plaid.Connection.t * list Event :=
  if negb (Js.truthy account_id) then
    (status_json 400 (ErrorBody "account_id required"), plaidAccounts, [])
  else
    match Server.findIndex (hasId (Js.interpolate account_id)) plaidAccounts with
    | None => (status_json 404 (ErrorBody "Account not found"), plaidAccounts, [])
    | Some accountIndex =>
      let account := plaidAccounts !! accountIndex in
      let token := Plaid.Connection.access_token <$> account in
      let events :=
        if configured && Js.truthy token then
          ItemRemove (Js.interpolate token)
          :: match removeFails (Js.interpolate token) with
             | Some message =>
               [ConsoleLog ("Note: Could not remove item from Plaid: " +:+ message)]
             | None => []
             end
        else [] in
      (json (DisconnectBody true
               ("Disconnected "
                +:+ Js.interpolate (Plaid.Connection.institution_name <$> account))),
       delete accountIndex plaidAccounts,
       events)
    end.

End Bank.

(** ** Ledger access tokens *)

Module Auth.

(** The module variable [tokens].  A missing, [null] or not-a-number
    [expires_at] is [None]. *)
Module Tokens.
Record t := mk
  { access_token : option string;
    refresh_token : option string;
    realm_id : option string;
    expires_at : option Z }.
End Tokens.

(** The parsed body of the token endpoint's answer. *)
Module TokenData.
Record t := mk
  { access_token : option string;
    refresh_token : option string;
    expires_in : option Z }.
End TokenData.

Inductive TokenReply :=
| TokenThrows (message : string)
| TokenAnswers (tokenData : TokenData.t).

(** What [fetch(url, options)] and the reading of its body give. *)
Inductive ApiReply (J : Type) :=
| NetworkError (message : string)
| NotOk (status : Z) (errorText : string)
| Unparsable (message : string)
| Ok (body : J).
Arguments NetworkError {J} message.
Arguments NotOk {J} status errorText.
Arguments Unparsable {J} message.
Arguments Ok {J} body.

(** The requests that leave the process. *)
Inductive Call :=
| TokenRequest (refresh_token : string)
| ApiRequest (realm_id : option string) (bearer : string) (endpoint method : string).

(** The world outside during one call: the clock, the token endpoint as
    a function of the refresh token sent, the ledger as a function of the
    bearer token, the endpoint and the method, and the disk. *)
Module Env.
Record t (J : Type) := mk
  { now : Z;
    tokenEndpoint : string -> TokenReply;
    api : string -> string -> string -> ApiReply J;
    diskWritable : bool }.
Arguments mk {J} now tokenEndpoint api diskWritable.
Arguments now {J} t.
Arguments tokenEndpoint {J} t.
Arguments api {J} t.
Arguments diskWritable {J} t.
End Env.

Module State.
Record t := mk
  { tokens : Tokens.t;
    tokenFile : option Tokens.t;
    calls : list Call }.
End State.

Definition called (call : Call) (st : State.t) : State.t :=
  State.mk (State.tokens st) (State.tokenFile st) (State.calls st ++ [call]).

(** [saveTokens]: a failed write is logged and goes no further. *)
Definition saveTokens {J} (env : Env.t J) (st : State.t) : State.t :=
  if Env.diskWritable env
  then State.mk (State.tokens st) (Some (State.tokens st)) (State.calls st)
  else st.

(** [Date.now() + (tokenData.expires_in * 1000)]; not a number when
    [expires_in] is missing. *)
Definition expiry (now : Z) (expires_in : option Z) : option Z :=
  (fun seconds => now + seconds * 1000)%Z <$> expires_in.

Definition refreshAccessToken {J} (env : Env.t J) (st : State.t)
    : Server.Outcome unit * State.t :=
  let tokens := State.tokens st in
  if negb (Js.truthy (Tokens.refresh_token tokens)) then
    (Server.Raises "No refresh token available", st)
  else
    let sent := Js.interpolate (Tokens.refresh_token tokens) in
    let st1 := called (TokenRequest sent) st in
    match Env.tokenEndpoint env sent with
    | TokenThrows message => (Server.Raises message, st1)
    | TokenAnswers tokenData =>
      if Js.truthy (TokenData.access_token tokenData) then
        let tokens' :=
          {| Tokens.access_token := TokenData.access_token tokenData;
             Tokens.refresh_token :=
               Js.or_opt (TokenData.refresh_token tokenData)
                         (Tokens.refresh_token tokens);
             Tokens.realm_id := Tokens.realm_id tokens;
             Tokens.expires_at :=
               expiry (Env.now env) (TokenData.expires_in tokenData) |} in
        (Server.Returns tt,
         saveTokens env (State.mk tokens' (State.tokenFile st1) (State.calls st1)))
      else (Server.Raises "Failed to refresh token", st1)
    end.

(** [tokens.expires_at && Date.now() > tokens.expires_at - 300000] *)
Definition expiring (now : Z) (expires_at : option Z) : bool :=
  match expires_at with
  | Some at_ => negb (at_ =? 0)%Z && (at_ - 300000 <? now)%Z
  | None => false
  end.

Definition ensureValidToken {J} (env : Env.t J) (st : State.t)
    : Server.Outcome unit * State.t :=
  if negb (Js.truthy (Tokens.access_token (State.tokens st))) then
    (Server.Raises "Not authenticated", st)
  else if expiring (Env.now env) (Tokens.expires_at (State.tokens st)) then
    refreshAccessToken env st
  else (Server.Returns tt, st).

(** [qbApiCall(endpoint, method)]; the payload is not part of the model. *)
Definition qbApiCall {J} (env : Env.t J) (endpoint method : string) (st : State.t)
    : Server.Outcome J * State.t :=
  match ensureValidToken env st with
  | (Server.Raises message, st') => (Server.Raises message, st')
  | (Server.Returns _, st') =>
    let bearer := Js.interpolate (Tokens.access_token (State.tokens st')) in
    let st'' :=
      called (ApiRequest (Tokens.realm_id (State.tokens st')) bearer endpoint method)
        st' in
    match Env.api env bearer endpoint method with
    | NetworkError message => (Server.Raises message, st'')
    | NotOk status errorText =>
      (Server.Raises ("QuickBooks API error: " +:+ pretty status +:+ " - "
                      +:+ errorText), st'')
    | Unparsable message => (Server.Raises message, st'')
    | Ok body => (Server.Returns body, st'')
    end
  end.

End Auth.

(** ** [GET /api/quickbooks/categories] *)

Module Catalog.

Inductive Body :=
| ErrorBody (error : string)
| CategoriesBody (categories : list Server.Category.t).

Module Response.
Record t := mk { status : Z; body : Body }.
End Response.



End Catalog.

(** ** [POST /api/quickbooks/update-transaction]: the new lines *)

Module Update.

(** A line of the transaction fetched for the update: its [DetailType]
    and the fields that the ledger model reads. *)
Module Line.
Record t := mk
  { DetailType : option string;
    line : Ledger.ExpenseLine.t }.
End Line.

(** [line.AccountBasedExpenseLineDetail.AccountRef = ref] on a line that
    has the detail. *)
Definition withAccountRef (ref : Ledger.Ref.t) (line : Ledger.ExpenseLine.t)
    : Ledger.ExpenseLine.t :=
  {| Ledger.ExpenseLine.Description := Ledger.ExpenseLine.Description line;
     Ledger.ExpenseLine.Amount := Ledger.ExpenseLine.Amount line;
     Ledger.ExpenseLine.AccountBasedExpenseLineDetail := Some (Some ref);
     Ledger.ExpenseLine.ItemBasedExpenseLineDetail :=
       Ledger.ExpenseLine.ItemBasedExpenseLineDetail line |}.

(** The arrow function under [transaction.Line.map]; [None] when the
    assignment throws because the line has the tag without the detail. *)
Definition recategorizeLine (categoryId categoryName : option string)
    (l : Line.t) : option Line.t :=
  if Ledger.str_is (Line.DetailType l) "AccountBasedExpenseLineDetail" then
    match Ledger.ExpenseLine.AccountBasedExpenseLineDetail (Line.line l) with
    | Some _ =>
      Some (Line.mk (Line.DetailType l)
              (withAccountRef (Ledger.Ref.mk categoryId categoryName) (Line.line l)))
    | None => None
    end
  else Some l.

(** [if (transaction.Line) { transaction.Line = transaction.Line.map(...) }];
    the outer [None] is the exception. *)
Definition recategorize (categoryId categoryName : option string)
    (lines : option (list Line.t)) : option (option (list Line.t)) :=
  match lines with
  | Some ls => Some <$> mapM (recategorizeLine categoryId categoryName) ls
  | None => Some None
  end.

End Update.

(** ** Bank connections across a restart *)

Module Store.

(** A row of the table [plaid_connections], with the columns that the
    model of a connection has. *)
Module Row.
Record t := mk
  { id : string;
    access_token : string;
    institution_name : string;
    excluded_accounts : option (list string);
    last_synced : option string }.
End Row.

(** The object that [savePlaidTokens] upserts for a connection. *)
Definition toRow (account : Plaid.Connection.t) : Row.t :=
  {| Row.id := Plaid.Connection.id account;
     Row.access_token := Plaid.Connection.access_token account;
     Row.institution_name := Plaid.Connection.institution_name account;
     Row.excluded_accounts :=
       Some (default [] (Plaid.Connection.excluded_accounts account));
     Row.last_synced := Plaid.Connection.last_synced account |}.

(** The arrow function under [data.map] in [loadPlaidTokens]: the object
    it builds has no [cursor]. *)
Definition fromRow (row : Row.t) : Plaid.Connection.t :=
  {| Plaid.Connection.id := Row.id row;
     Plaid.Connection.access_token := Row.access_token row;
     Plaid.Connection.institution_name := Row.institution_name row;
     Plaid.Connection.excluded_accounts :=
       Some (default [] (Row.excluded_accounts row));
     Plaid.Connection.cursor := None;
     Plaid.Connection.last_synced := Row.last_synced row |}.

End Store.

(** * Statement vocabulary and sample inputs *)

(** ** Bank feed *)

Definition checking : Plaid.Connection.t :=
  Plaid.Connection.mk "plaid-1" "access-sandbox-1" "First Bank" None None None.

(** A card payment of 25.00: money out, positive upstream. *)
Definition cardPayment : Plaid.Item.t :=
  Plaid.Item.mk "t1" "acc1" "2025-03-01" "COFFEE SHOP" None 25 None None false.

Definition cardPaymentStored : Plaid.Txn.t :=
  Plaid.Txn.mk "t1" "plaid-1" "acc1" "First Bank" "2025-03-01" "COFFEE SHOP"
    None 25 "Uncategorized" None false expense "plaid".

(** What the mapping does with the sign of one item. *)
Definition keepsSign (t : Plaid.Item.t) (stored : Plaid.Txn.t) : Prop :=
  Plaid.Txn.amount stored = Plaid.Item.amount t
  /\ (Plaid.Txn.type stored = expense <-> (0 < Plaid.Item.amount t)%Q)
  /\ (Plaid.Txn.type stored = income <-> (Plaid.Item.amount t <= 0)%Q).

(** ** Purchases and Bills *)

(** A line that carries an account-based or an item-based expense detail. *)
Definition qualifyingLine (line : Ledger.ExpenseLine.t) : bool :=
  match Ledger.ExpenseLine.AccountBasedExpenseLineDetail line,
        Ledger.ExpenseLine.ItemBasedExpenseLineDetail line with
  | None, None => false
  | _, _ => true
  end.

Definition accountBased (line : Ledger.ExpenseLine.t) : bool :=
  match Ledger.ExpenseLine.AccountBasedExpenseLineDetail line with
  | Some _ => true
  | None => false
  end.

Definition qualifyingLines (lines : option (list Ledger.ExpenseLine.t))
    : list Ledger.ExpenseLine.t :=
  List.filter qualifyingLine (default [] lines).

(** The amount of the transaction emitted for a line is [-|Amount|]. *)
Definition forcedNonPositive (line : Ledger.ExpenseLine.t) (txn : Ledger.Txn.t)
    : Prop :=
  Ledger.Txn.amount txn = Js.neg_abs (Ledger.ExpenseLine.Amount line)
  /\ (Ledger.Txn.amount txn <= 0)%Q
  /\ ((Ledger.Txn.amount txn < 0)%Q <-> ~ (Ledger.ExpenseLine.Amount line == 0)%Q).

(** [detail], the function under [.map(...).filter(Boolean)], gives an
    object exactly for the lines that [keep] selects, and copies the
    amount of the line. *)
Definition agrees (detail : Ledger.ExpenseLine.t -> option Ledger.LineDetail.t)
    (keep : Ledger.ExpenseLine.t -> bool) (line : Ledger.ExpenseLine.t) : Prop :=
  match detail line with
  | Some d =>
    keep line = true
    /\ Ledger.LineDetail.amount d = Ledger.ExpenseLine.Amount line
  | None => keep line = false
  end.

Definition officeSupplies : option (option Ledger.Ref.t) :=
  Some (Some (Ledger.Ref.mk (Some "61") (Some "Office Supplies"))).

Definition expenseLine (amount : Q) : Ledger.ExpenseLine.t :=
  Ledger.ExpenseLine.mk None amount officeSupplies None.

Definition itemLine (amount : Q) : Ledger.ExpenseLine.t :=
  Ledger.ExpenseLine.mk (Some "Printer paper") amount None
    (Some (Some (Ledger.Ref.mk (Some "5") (Some "Paper")))).

(** A purchase with one account-based line of amount zero. *)
Definition zeroLinePurchase : Ledger.Purchase.t :=
  Ledger.Purchase.mk "145" "2025-02-03" None None None (Some [expenseLine 0]) 0.

(** A purchase with lines of 50.00 and -10.00 on Office Supplies. *)
Definition twoLinePurchase : Ledger.Purchase.t :=
  Ledger.Purchase.mk "146" "2025-02-04" None None None
    (Some [expenseLine 50; expenseLine (-10)]) 40.

Definition twoLineBill : Ledger.Bill.t :=
  Ledger.Bill.mk "31" "2025-02-05" None None
    (Some [expenseLine 50; expenseLine (-10)]).

(** A bill whose only line is item-based. *)
Definition itemBill : Ledger.Bill.t :=
  Ledger.Bill.mk "32" "2025-02-06" None None (Some [itemLine 80]).

(** ** Journal entries *)

(** The line posts to an account whose type, as resolved through the
    account map, is one of the balance-sheet types. *)
Definition onBalanceSheetAccount (accountMap : gmap string Ledger.AccountInfo.t)
    (line : Ledger.JournalLine.t) : bool :=
  match Ledger.JournalLine.JournalEntryLineDetail line with
  | Some detail =>
    Js.array_includes Ledger.balanceSheetTypes
      (Ledger.journalAcctType accountMap detail)
  | None => false
  end.

(** The line posts to an account whose type is none of the expense
    types, the income types and the balance-sheet types: the final
    [else] of the callback.  An account missing from the chart has the
    type [''] and belongs here. *)
Definition onOtherAccount (accountMap : gmap string Ledger.AccountInfo.t)
    (line : Ledger.JournalLine.t) : bool :=
  match Ledger.JournalLine.JournalEntryLineDetail line with
  | Some detail =>
    let acctType := Ledger.journalAcctType accountMap detail in
    negb (Js.array_includes Ledger.expenseTypes acctType)
    && negb (Js.array_includes Ledger.incomeTypes acctType)
    && negb (Js.array_includes Ledger.balanceSheetTypes acctType)
  | None => false
  end.

(** [postingType === 'Debit'] *)
Definition postsDebit (line : Ledger.JournalLine.t) : bool :=
  match Ledger.JournalLine.JournalEntryLineDetail line with
  | Some detail => Ledger.str_is (Ledger.JournalDetail.PostingType detail) "Debit"
  | None => false
  end.

(** [line.Amount || 0] *)
Definition lineAmount (line : Ledger.JournalLine.t) : Q :=
  default 0%Q (Ledger.JournalLine.Amount line).

(** [text] contains [keyword], ignoring the case of [text]. *)
Definition mentions (text keyword : string) : bool :=
  Js.includes (Js.toLowerCase text) keyword.

Definition payrollKeywords : list string :=
  ["payroll"; "wage"; "salary"; "paychex"].

Definition chart : gmap string Ledger.AccountInfo.t :=
  Ledger.buildAccountMap
    [ Ledger.Account.mk "80" "Contract Labor" None "Expense" None true;
      Ledger.Account.mk "35" "Checking" None "Bank" None true ].

Definition journalDebit (account name : string) (amount : Q)
    : Ledger.JournalLine.t :=
  Ledger.JournalLine.mk None (Some amount)
    (Some (Ledger.JournalDetail.mk
             (Some (Ledger.Ref.mk (Some account) (Some name))) (Some "Debit"))).

(** A chart with an account of type Other Asset. *)
Definition prepaidChart : gmap string Ledger.AccountInfo.t :=
  Ledger.buildAccountMap
    [ Ledger.Account.mk "12" "Prepaid Insurance" None "Other Asset" None true ].

(** A journal entry that debits the prepaid-insurance account. *)
Definition prepaidEntry : Ledger.JournalEntry.t :=
  Ledger.JournalEntry.mk "901" "2025-02-01" (Some "Annual premium") None
    (Some [journalDebit "12" "Prepaid Insurance" 300]).

Definition prepaidTxn : Ledger.Txn.t :=
  Ledger.Txn.mk "journal-901-0" "901" "JournalEntry" "2025-02-01"
    "Annual premium" (Some "") None "Prepaid Insurance" None (Js.neg_abs 300)
    expense None "JournalEntry" (Some false) false.

(** A journal entry whose memo speaks of wages, posted to an account
    whose name does not. *)
Definition wagesEntry : Ledger.JournalEntry.t :=
  Ledger.JournalEntry.mk "900" "2025-01-31" (Some "Weekly wages") None
    (Some [journalDebit "80" "Contract Labor" 1200;
           journalDebit "35" "Checking" 1200]).

Definition wagesTxn : Ledger.Txn.t :=
  Ledger.Txn.mk "journal-900-0" "900" "JournalEntry" "2025-01-31"
    "Weekly wages" (Some "") None "Contract Labor" None (Js.neg_abs 1200)
    expense None "JournalEntry" (Some false) false.

(** ** Pagination *)

(** A page that does not end the ledger loop: [records.length] is not
    below [maxResults]. *)
Definition fullPage {R : Type} (records : list R) : Prop :=
  (Ledger.maxResults <= Z.of_nat (length records))%Z.

(** The position at which the ledger loop asks for its [i]-th page,
    counting from zero. *)
Definition pageStart (i : nat) : Z := (1 + Ledger.maxResults * Z.of_nat i)%Z.

(** A reading of the dates [YYYY-MM-DD] that orders them as their time
    values do: the digits of the date, read as one number. *)
Fixpoint digitsValue (acc : Z) (s : string) : Z :=
  match s with
  | EmptyString => acc
  | String c rest =>
    let n := Z.of_nat (nat_of_ascii c) in
    if ((48 <=? n) && (n <=? 57))%Z
    then digitsValue (10 * acc + (n - 48)) rest
    else digitsValue acc rest
  end.

Definition isoDateValue (date : string) : Z := digitsValue 0 date.

Definition somePurchase : Ledger.Purchase.t :=
  Ledger.Purchase.mk "7" "2025-01-15" None None None (Some [expenseLine 12]) 12.


(** A ledger whose bill queries fail from the first page on, and which
    holds one purchase. *)
Definition billsFail : Ledger.Upstream :=
  fun e =>
    match e return Z -> option (list (Ledger.recordOf e)) with
    | Ledger.Entity.Bill => fun _ => None
    | Ledger.Entity.Purchase => fun _ => Some [somePurchase]
    | _ => fun _ => Some []
    end.

(** The same ledger with no bills and no failure. *)
Definition noBills : Ledger.Upstream :=
  fun e =>
    match e return Z -> option (list (Ledger.recordOf e)) with
    | Ledger.Entity.Purchase => fun _ => Some [somePurchase]
    | _ => fun _ => Some []
    end.

(** A bank feed that answers every request with an empty page and a
    total of one transaction. *)
Definition stuckFeed : nat -> Plaid.Reply :=
  fun _ => Plaid.Answers (Plaid.Page.mk None None (Some []) (Some 1%Z)).

(** An answer that moves the bank-feed loop on: an exception, an error
    body, or a page with at least one transaction. *)
Definition advances (reply : Plaid.Reply) : Prop :=
  match reply with
  | Plaid.Throws _ => True
  | Plaid.Answers txnData =>
    Js.truthy (Plaid.Page.error_code txnData) = true
    \/ (1 <= length (default [] (Plaid.Page.transactions txnData)))%nat
  end.

(** ** Resolver and rule store *)

Definition authenticated (st : Server.State.t) : Prop :=
  Js.truthy (Server.State.access_token st) = true.

(** The classifier's object, when its answer holds one that parses. *)
Definition parsed (answer : Server.Answer) : option Server.AiResult.t :=
  match answer with
  | Server.Json result => Some result
  | _ => None
  end.

(** [st] with [events] added at the end of its trace. *)
Definition addTrace (st : Server.State.t) (events : list Server.Event)
    : Server.State.t :=
  Server.State.mk (Server.State.access_token st) (Server.State.categories st)
    (Server.State.lastFetched st) (Server.State.learnedRules st)
    (Server.State.anthropic st) (Server.State.rulesFile st)
    (Server.State.trace st ++ events).

Definition noAnswer : Server.Transaction.t -> list Server.Category.t -> Server.Answer :=
  fun _ _ => Server.NoJson.

(** A request served while the rules file cannot be written. *)
Definition readOnlyDisk : Server.Env.t :=
  Server.Env.mk 1740823200000 "2025-03-01T10:00:00.000Z" noAnswer
    (fun _ => Some []) false.

(** Two requests, a minute apart, served while the disk is writable. *)
Definition firstCall : Server.Env.t :=
  Server.Env.mk 1740823200000 "2025-03-01T10:00:00.000Z" noAnswer
    (fun _ => Some []) true.

Definition secondCall : Server.Env.t :=
  Server.Env.mk 1740823260000 "2025-03-01T10:01:00.000Z" noAnswer
    (fun _ => Some []) true.

(** A server without a classifier client whose rules file holds the
    rules it has in memory. *)
Definition stateWith (rules : list Server.Rule.t) : Server.State.t :=
  Server.State.mk (Some "token") [] None rules false (Some rules) [].

Definition teachAmazon : Server.LearnRequest.t :=
  Server.LearnRequest.mk "Amazon" "61" "Office Supplies" None.

(** A rule taught five times already. *)
Definition amazonRule : Server.Rule.t :=
  Server.Rule.mk "rule-1" "amazon" "contains" "61" "Office Supplies"
    (Some 1%Q) (Some 5%Z) (Some "2025-01-01T00:00:00.000Z") None.

(** The state after the categorize handlers have made sure that the
    category cache is filled. *)
Definition warmed (env : Server.Env.t) (st : Server.State.t) : Server.State.t :=
  if (length (Server.State.categories st) =? 0)%nat
  then snd (Server.fetchAndCacheCategories env st)
  else st.

(** The suggestion of the fallback path: the classifier's result when
    there is one, else the rule match, else nothing. *)
Definition fallbackSuggestion (aiResult : option Server.AiResult.t)
    (ruleMatch : option Server.RuleMatch.t) : option Server.Suggestion :=
  match aiResult, ruleMatch with
  | Some result, _ => Some (Server.FromAi result)
  | None, Some m => Some (Server.FromRule m)
  | None, None => None
  end.

(** The categorize call goes through the classifier: it answers with
    the fallback suggestion and [autoApproved = false]; the classifier is
    asked exactly when a client is configured. *)
Definition fallsBack (env : Server.Env.t) (transaction : Server.Transaction.t)
    (st : Server.State.t) (ruleMatch : option Server.RuleMatch.t) : Prop :=
  exists st' aiResult,
    Server.categorize env transaction st
    = (Server.Returns
         (Server.Response.mk 200
            (Server.CategorizeBody (fallbackSuggestion aiResult ruleMatch) false)),
       st')
    /\ aiResult
       = (if Server.State.anthropic st
          then parsed (Server.Env.classifier env transaction
                         (Server.State.categories st'))
          else None)
    /\ Server.State.learnedRules st' = Server.State.learnedRules st
    /\ (Server.State.anthropic st = true ->
        Server.ClassifierRequest transaction (Server.State.categories st')
        ∈ Server.State.trace st').

(** The confidence stored with a rule is absent, null or zero. *)
Definition confidenceMissing (rule : Server.Rule.t) : Prop :=
  match Server.Rule.confidence rule with
  | Some c => (c == 0)%Q
  | None => True
  end.

(** A rule stored without a confidence, and one with a low confidence. *)
Definition affiliateRule : Server.Rule.t :=
  Server.Rule.mk "rule-7" "Affiliate" "contains" "90" "Affiliate Payouts"
    None (Some 1%Z) None None.

Definition amazonGuess : Server.Rule.t :=
  Server.Rule.mk "rule-8" "amazon" "starts_with" "61" "Office Supplies"
    (Some 0.6%Q) (Some 1%Z) None None.

(** A rule of full confidence that matches what [amazonGuess] matches,
    and a rule stored with confidence zero. *)
Definition amazonSure : Server.Rule.t :=
  Server.Rule.mk "rule-9" "amazon" "contains" "61" "Office Supplies"
    (Some 1%Q) (Some 1%Z) None None.

Definition affiliateZero : Server.Rule.t :=
  Server.Rule.mk "rule-10" "affiliate" "contains" "90" "Affiliate Payouts"
    (Some 0%Q) (Some 1%Z) None None.

Definition payout : Server.Transaction.t :=
  Server.Transaction.mk (Some "txn-1") (Some "WF DIRECT PAY AFFILIATE PAYOUT")
    (Some "") (Some 250%Q) (Some "2025-03-01").

Definition amazonOrder : Server.Transaction.t :=
  Server.Transaction.mk (Some "txn-2") (Some "AMAZON MKTPLACE") (Some "")
    (Some 31%Q) (Some "2025-03-02").

Definition softwareGuess : Server.AiResult.t :=
  Server.AiResult.mk (Some "70") (Some "Software") (Some 0.99%Q)
    (Some "looks like a subscription").

(** A classifier that always answers "Software" with confidence 0.99. *)
Definition confidentClassifier : Server.Env.t :=
  Server.Env.mk 1740823200000 "2025-03-01T10:00:00.000Z"
    (fun _ _ => Server.Json softwareGuess) (fun _ => Some []) true.

(** An authenticated server with a classifier client. *)
Definition resolverState (rules : list Server.Rule.t) : Server.State.t :=
  Server.State.mk (Some "token") [] None rules true (Some rules) [].

Definition twoRules : Server.State.t := resolverState [amazonGuess; affiliateRule].

(** The rule of confidence 0.6 is stored before the rule of confidence
    1.0 that matches the same texts. *)
Definition shadowedRule : Server.State.t := resolverState [amazonGuess; amazonSure].

Definition zeroConfidence : Server.State.t := resolverState [affiliateZero].

(** A rule stored without a confidence that matches what [amazonGuess]
    matches, stored after it. *)
Definition amazonNoConfidence : Server.Rule.t :=
  Server.Rule.mk "rule-13" "amazon" "contains" "61" "Office Supplies"
    None (Some 1%Z) None None.

Definition shadowedNoConfidence : Server.State.t :=
  resolverState [amazonGuess; amazonNoConfidence].

(** ** Report rows *)

(** Some row of the tree rooted at the given row has a summary whose
    first cell contains the label, ignoring case. *)
Inductive hasMatch (label : string) : Report.Row -> Prop :=
| match_here summary rows :
    Report.summaryMatches summary label = true ->
    hasMatch label (Report.mkRow summary rows)
| match_below summary children row :
    row ∈ children ->
    hasMatch label row ->
    hasMatch label (Report.mkRow summary (Some children)).

(** The month names that give an entry: the non-empty ones. *)
Definition titledMonths (columns : list Report.Column.t) : list string :=
  List.filter (fun month => negb (String.eqb month "")) (Report.monthNames columns).

(** A parser that reads nothing: every text is not a number. *)
Definition parsesNothing : string -> option Q := fun _ => None.

(** A report with a nested "Total Expenses" row, no income row, and the
    columns "", "Jan 2025", "Feb 2025", one of them untitled. *)
Definition expensesOnly : Report.Doc.t :=
  Report.Doc.mk
    (Some [ Report.mkRow None
              (Some [ Report.mkRow None
                        (Some [ Report.mkRow
                                  (Some (Report.Summary.mk
                                           (Some [ Report.ColData.mk (Some "Total Expenses");
                                                   Report.ColData.mk (Some "120.50");
                                                   Report.ColData.mk (Some "80") ])))
                                  None ]) ]) ])
    (Some [ Report.Column.mk (Some ""); Report.Column.mk (Some "Jan 2025");
            Report.Column.mk None; Report.Column.mk (Some "Feb 2025") ]).

(** ** Ledger pages *)

(** A page that ends the ledger loop: fewer than [maxResults] records. *)
Definition shortPage {R : Type} (records : list R) : Prop :=
  (Z.of_nat (length records) < Ledger.maxResults)%Z.

(** A ledger that answers every query with a full page of 1000 records. *)
Definition endlessLedger : Z -> option (list unit) :=
  fun _ => Some (replicate 1000 tt).

(** A ledger with one full page followed by a page of three records. *)
Definition twoPages : Z -> option (list unit) :=
  fun startPosition =>
    if (startPosition =? 1)%Z then Some (replicate 1000 tt)
    else Some [tt; tt; tt].

(** ** Lookup maps *)

(** The entry that [buildAccountMap] stores for an account. *)
Definition accountInfo (a : Ledger.Account.t) : Ledger.AccountInfo.t :=
  Ledger.AccountInfo.mk (Ledger.Account.Name a) (Ledger.Account.AccountType a)
    (Ledger.Account.AccountSubType a)
    (Js.or_else (Ledger.Account.FullyQualifiedName a) (Ledger.Account.Name a)).

(** The name that [buildVendorMap] stores for a vendor. *)
Definition vendorName (v : Ledger.Vendor.t) : string :=
  Js.or_else (Js.or_opt (Ledger.Vendor.DisplayName v) (Ledger.Vendor.CompanyName v))
             "Unknown Vendor".

(** The number of transactions that carry the given source tag. *)
Definition countSource (source : string) (transactions : list Ledger.Txn.t) : nat :=
  length (List.filter (fun t => String.eqb (Ledger.Txn.source t) source) transactions).


(** The sign that the kind and the source of a ledger transaction allow. *)
Definition signBySource (t : Ledger.Txn.t) : Prop :=
  (Ledger.Txn.source t ∈ ["Purchase"; "Bill"; "RefundReceipt"]
   /\ Ledger.Txn.type t = expense /\ (Ledger.Txn.amount t <= 0)%Q)
  \/ (Ledger.Txn.source t ∈ ["Deposit"; "SalesReceipt"; "Payment"]
      /\ Ledger.Txn.type t = income /\ (0 <= Ledger.Txn.amount t)%Q)
  \/ (Ledger.Txn.source t = "VendorCredit"
      /\ Ledger.Txn.type t = expense /\ (0 <= Ledger.Txn.amount t)%Q)
  \/ (Ledger.Txn.source t = "JournalEntry" /\ ~ (Ledger.Txn.amount t == 0)%Q).

(** ** Resolver and rule store, continued *)

(** A server that holds no access token. *)
Definition signedOut : Server.State.t :=
  Server.State.mk None [] None [amazonSure] true (Some [amazonSure]) [].

(** The text holds a space. *)
Fixpoint hasSpace (s : string) : bool :=
  match s with
  | EmptyString => false
  | String c s' => Ascii.eqb c " " || hasSpace s'
  end.

(** The rule is of the default kind: its pattern is looked for anywhere
    in the search text. *)
Definition containsRule (rule : Server.Rule.t) : Prop :=
  String.eqb (Server.Rule.patternType rule) "exact" = false
  /\ String.eqb (Server.Rule.patternType rule) "starts_with" = false.

(** An [exact] rule taught from a description alone. *)
Definition exactAmazon : Server.Rule.t :=
  Server.Rule.mk "rule-11" "AMAZON" "exact" "61" "Office Supplies"
    (Some 1%Q) (Some 1%Z) None None.

(** A rule whose pattern is part of the word [undefined]. *)
Definition fineRule : Server.Rule.t :=
  Server.Rule.mk "rule-12" "Fine" "contains" "95" "Penalties"
    (Some 1%Q) (Some 1%Z) None None.

(** The rule that a teach call stores for a pair it did not know. *)
Definition freshRule (env : Server.Env.t) (pattern patternType categoryId
    categoryName : string) : Server.RuleMatch.t :=
  Server.matchOf (Server.newRule env pattern patternType categoryId categoryName).

(** The state after a delete call. *)
Definition forget (env : Server.Env.t) (id : string) (st : Server.State.t)
    : Server.State.t :=
  snd (Server.deleteRule env id st).

(** ** Bank connections *)

(** The transactions of a sync answer, or nothing for another body. *)
Definition syncedTransactions (response : Bank.Response.t) : list Plaid.Txn.t :=
  match Bank.Response.body response with
  | Bank.SyncBody _ _ transactions _ => transactions
  | _ => []
  end.

(** The errors of a sync answer. *)
Definition syncErrors (response : Bank.Response.t) : option (list Plaid.Error.t) :=
  match Bank.Response.body response with
  | Bank.SyncBody _ _ _ errors => errors
  | _ => None
  end.

(** The body that the feed gives for a connection, when it answers
    without an error code. *)
Definition answered (feed : Bank.Feed) (account : Plaid.Connection.t)
    : option Bank.SyncData.t :=
  match feed (Plaid.Connection.access_token account)
             (Js.or_else (Plaid.Connection.cursor account) "") with
  | Bank.SyncThrows _ => None
  | Bank.SyncAnswers syncData =>
    if Js.truthy (Bank.SyncData.error_code syncData) then None else Some syncData
  end.

(** The transaction comes from a connection of the list and from an
    account of it that is not excluded. *)
Definition fromIncludedAccount (plaidAccounts : list Plaid.Connection.t)
    (txn : Plaid.Txn.t) : Prop :=
  exists account,
    account ∈ plaidAccounts
    /\ Plaid.Txn.plaid_account_id txn = Plaid.Connection.id account
    /\ Plaid.Txn.institution txn = Plaid.Connection.institution_name account
    /\ Plaid.Txn.account_id txn ∉ Plaid.excludedAccounts account.

(** Two connections that differ at most in their exclusion list. *)
Definition sameButExclusions (a b : Plaid.Connection.t) : Prop :=
  Plaid.Connection.id a = Plaid.Connection.id b
  /\ Plaid.Connection.access_token a = Plaid.Connection.access_token b
  /\ Plaid.Connection.institution_name a = Plaid.Connection.institution_name b
  /\ Plaid.Connection.cursor a = Plaid.Connection.cursor b
  /\ Plaid.Connection.last_synced a = Plaid.Connection.last_synced b.

(** Two connections; the second has never been synced and excludes one
    of its accounts. *)
Definition savings : Plaid.Connection.t :=
  Plaid.Connection.mk "plaid-2" "access-2" "Second Bank" (Some ["acct-9"]) None None.

Definition bothBanks : list Plaid.Connection.t := [checking; savings].

(** A feed that is down for the first connection and answers the second
    with one transaction of the excluded account and one of another. *)
Definition itemOf (account_id : string) : Plaid.Item.t :=
  Plaid.Item.mk "t-1" account_id "2025-03-01" "COFFEE" None 4.5%Q None None false.

Definition halfDown : Bank.Feed :=
  fun access_token _ =>
    if String.eqb access_token "access-2" then
      Bank.SyncAnswers
        (Bank.SyncData.mk None None (Some [itemOf "acct-9"; itemOf "acct-3"])
           (Some "cursor-1"))
    else Bank.SyncThrows "fetch failed".

Definition noon : nat -> string := fun _ => "2025-03-01T12:00:00.000Z".

(** Requests to exclude and to include again an account of a connection. *)
Definition excludeRequest (institution_id account_id : string) : Bank.ToggleRequest.t :=
  Bank.ToggleRequest.mk institution_id account_id true.

Definition includeRequest (institution_id account_id : string) : Bank.ToggleRequest.t :=
  Bank.ToggleRequest.mk institution_id account_id false.

(** The connection ids of a list. *)
Definition connectionIds (plaidAccounts : list Plaid.Connection.t) : list string :=
  map Plaid.Connection.id plaidAccounts.

(** An [/item/remove] request that always fails. *)
Definition removeDown : string -> option string := fun _ => Some "fetch failed".

(** Two connections that the sync handler cannot tell apart: they agree
    on everything but the stored form of the exclusion list, and exclude
    the same accounts. *)
Definition syncsAlike (a b : Plaid.Connection.t) : Prop :=
  sameButExclusions a b /\ Plaid.excludedAccounts a = Plaid.excludedAccounts b.

(** The connections that stay when the one with the id is taken out. *)
Definition otherConnections (id : string) (plaidAccounts : list Plaid.Connection.t)
    : list Plaid.Connection.t :=
  List.filter (fun pa => negb (Bank.hasId id pa)) plaidAccounts.

(** An answered page of the listing has at most [n] transactions. *)
Definition pageAtMost (n : Z) (reply : Plaid.Reply) : Prop :=
  match reply with
  | Plaid.Throws _ => True
  | Plaid.Answers txnData =>
    (Z.of_nat (length (default [] (Plaid.Page.transactions txnData))) <= n)%Z
  end.

(** A feed of pages of two transactions each, one of an excluded
    account, out of a total of five. *)
Definition pagedFeed : nat -> Plaid.Reply :=
  fun _ =>
    Plaid.Answers
      (Plaid.Page.mk None None (Some [itemOf "acct-9"; itemOf "acct-3"]) (Some 5%Z)).

(** ** Ledger access tokens *)

(** The refresh token as it is sent to the token endpoint. *)
Definition sentRefreshToken (st : Auth.State.t) : string :=
  Js.interpolate (Auth.Tokens.refresh_token (Auth.State.tokens st)).

(** The stored token has less than five minutes left, or is past. *)
Definition mustRefresh {J} (env : Auth.Env.t J) (st : Auth.State.t) : bool :=
  Auth.expiring (Auth.Env.now env) (Auth.Tokens.expires_at (Auth.State.tokens st)).

(** The access token that a call may send: the stored one while it has
    more than five minutes left (or no known expiry), else the one that
    the token endpoint has just given. *)
Definition liveToken {J} (env : Auth.Env.t J) (st : Auth.State.t)
    (bearer : string) : Prop :=
  if mustRefresh env st then
    exists tokenData,
      Auth.Env.tokenEndpoint env (sentRefreshToken st) = Auth.TokenAnswers tokenData
      /\ Auth.TokenData.access_token tokenData = Some bearer
  else Auth.Tokens.access_token (Auth.State.tokens st) = Some bearer.

(** The refresh cannot succeed: there is no refresh token, or the
    endpoint throws or answers without an access token. *)
Definition refreshFails {J} (env : Auth.Env.t J) (st : Auth.State.t) : Prop :=
  Js.truthy (Auth.Tokens.refresh_token (Auth.State.tokens st)) = false
  \/ match Auth.Env.tokenEndpoint env (sentRefreshToken st) with
     | Auth.TokenThrows _ => True
     | Auth.TokenAnswers tokenData =>
       Js.truthy (Auth.TokenData.access_token tokenData) = false
     end.

(** Both tokens are present. *)
Definition usable (tokens : Auth.Tokens.t) : Prop :=
  Js.truthy (Auth.Tokens.access_token tokens) = true
  /\ Js.truthy (Auth.Tokens.refresh_token tokens) = true.

Definition isApiRequest (call : Auth.Call) : bool :=
  match call with
  | Auth.ApiRequest _ _ _ _ => true
  | Auth.TokenRequest _ => false
  end.

(** Tokens that ran out at the given time. *)
Definition tokensExpiring (at_ : Z) : Auth.State.t :=
  Auth.State.mk
    (Auth.Tokens.mk (Some "access-old") (Some "refresh-1") (Some "realm-1") (Some at_))
    None [].

(** A token endpoint that is down, and one that answers with a new
    access token and nothing else. *)
Definition endpointDown : Auth.Env.t unit :=
  Auth.Env.mk 1740823200000 (fun _ => Auth.TokenThrows "fetch failed")
    (fun _ _ _ => Auth.Ok tt) true.

Definition bareAnswer : Auth.Env.t unit :=
  Auth.Env.mk 1740823200000
    (fun _ => Auth.TokenAnswers (Auth.TokenData.mk (Some "access-new") None None))
    (fun _ _ _ => Auth.Ok tt) true.

(** ** The category list *)







(** ** Recategorizing a purchase *)

(** A line with an account-based detail carries the matching tag. *)
Definition tagged (l : Update.Line.t) : Prop :=
  accountBased (Update.Line.line l) = true ->
  Ledger.str_is (Update.Line.DetailType l) "AccountBasedExpenseLineDetail" = true.

(** The purchase as the ledger holds it once the new lines are stored. *)
Definition withLines (p : Ledger.Purchase.t) (lines : list Update.Line.t)
    : Ledger.Purchase.t :=
  {| Ledger.Purchase.Id := Ledger.Purchase.Id p;
     Ledger.Purchase.TxnDate := Ledger.Purchase.TxnDate p;
     Ledger.Purchase.EntityRef := Ledger.Purchase.EntityRef p;
     Ledger.Purchase.PrivateNote := Ledger.Purchase.PrivateNote p;
     Ledger.Purchase.PaymentType := Ledger.Purchase.PaymentType p;
     Ledger.Purchase.Line := Some (map Update.Line.line lines);
     Ledger.Purchase.TotalAmt := Ledger.Purchase.TotalAmt p |}.

(** A purchase of two tagged lines, one by account and one by item, and
    one without any line. *)
Definition taggedLines : list Update.Line.t :=
  [ Update.Line.mk (Some "AccountBasedExpenseLineDetail")
      (Ledger.ExpenseLine.mk (Some "Paper") 12.5%Q
         (Some (Some (Ledger.Ref.mk (Some "99") (Some "Uncategorized Expense")))) None);
    Update.Line.mk (Some "ItemBasedExpenseLineDetail")
      (Ledger.ExpenseLine.mk (Some "Toner") 40%Q None
         (Some (Some (Ledger.Ref.mk (Some "7") (Some "Toner"))))) ].

Definition taggedPurchase : Ledger.Purchase.t :=
  Ledger.Purchase.mk "145" "2025-03-01" None None None
    (Some (map Update.Line.line taggedLines)) 52.5%Q.

(** ** Bank connections across a restart *)

(** The connection as the server holds it after a restart, when the
    table gives back the row that was saved for it. *)
Definition reloaded (account : Plaid.Connection.t) : Plaid.Connection.t :=
  Store.fromRow (Store.toRow account).

(** What a sync contributes for a connection when the feed is asked from
    the given cursor. *)
Definition contributedFrom (feed : Bank.Feed) (cursor : string)
    (account : Plaid.Connection.t) : list Plaid.Txn.t :=
  match feed (Plaid.Connection.access_token account) cursor with
  | Bank.SyncThrows _ => []
  | Bank.SyncAnswers syncData =>
    if Js.truthy (Bank.SyncData.error_code syncData) then []
    else Plaid.syncTransactions account (Bank.SyncData.added syncData)
  end.

(** * Properties *)

(** ** Facts about the JavaScript primitives *)

Lemma js_lt_spec a b : Js.lt a b = true <-> (a < b)%Q.
Proof.
  unfold Js.lt. rewrite negb_true_iff.
  destruct (Qle_bool b a) eqn:E.
  - apply Qle_bool_iff in E. split; [discriminate | intros H; lra].
  - split; [intros _ | reflexivity].
    destruct (Qlt_le_dec a b) as [H | H]; [exact H |].
    apply Qle_bool_iff in H. congruence.
Qed.

Lemma js_gt_spec a b : Js.gt a b = true <-> (b < a)%Q.
Proof. apply js_lt_spec. Qed.

Lemma js_gt_false a b : Js.gt a b = false <-> (a <= b)%Q.
Proof.
  pose proof (js_gt_spec a b) as H.
  destruct (Js.gt a b); split; intros H1; try reflexivity; try discriminate.
  - assert (b < a)%Q by (apply H; reflexivity). lra.
  - destruct (Qlt_le_dec b a) as [H2 | H2]; [| exact H2].
    apply H in H2. discriminate.
Qed.

Lemma neg_abs_nonpos x : (Js.neg_abs x <= 0)%Q.
Proof. unfold Js.neg_abs. pose proof (Qabs_nonneg x). lra. Qed.

Lemma neg_abs_negative x : (Js.neg_abs x < 0)%Q <-> ~ (x == 0)%Q.
Proof.
  unfold Js.neg_abs. apply Qabs_case; intros H; split; intros H1; lra.
Qed.

Example toLowerCase_sample :
  Js.toLowerCase "WF Direct PAY 42" = "wf direct pay 42".
Proof. reflexivity. Qed.

Example includes_sample :
  Js.includes "wf direct pay affiliate payout " "affiliate" = true
  /\ Js.includes "amazon mktplace " "affiliate" = false
  /\ Js.startsWith "amazon mktplace " "amazon" = true
  /\ Js.includes "anything" "" = true.
Proof. repeat split; reflexivity. Qed.

(** ** Bank feed: the sign of stored amounts *)

(** C1, counterexample.  A money-out item (upstream amount 25 > 0) comes
    out of both the sync and the list operation with amount 25: it is not
    stored with a strictly negative amount. *)
Lemma plaid_money_out_not_negated :
  Plaid.syncTransactions checking (Some [cardPayment]) = [cardPaymentStored]
  /\ Plaid.pageTransactions checking (Some [cardPayment]) = [cardPaymentStored]
  /\ (0 < Plaid.Item.amount cardPayment)%Q
  /\ ~ (Plaid.Txn.amount cardPaymentStored < 0)%Q.
Proof.
  repeat split; try reflexivity.
  intros H. vm_compute in H. discriminate.
Qed.

Lemma toTransaction_keepsSign account t :
  keepsSign t (Plaid.toTransaction account t).
Proof.
  unfold keepsSign, Plaid.toTransaction; simpl.
  split; [reflexivity |].
  destruct (Js.gt (Plaid.Item.amount t) 0) eqn:E.
  - apply js_gt_spec in E. split; split; intros H; try reflexivity; try lra.
    discriminate.
  - apply js_gt_false in E. split; split; intros H; try reflexivity; try lra.
    discriminate.
Qed.

Lemma map_keepsSign account items :
  Forall2 keepsSign items (map (Plaid.toTransaction account) items).
Proof.
  induction items as [| t rest IH]; simpl; constructor.
  - apply toTransaction_keepsSign.
  - exact IH.
Qed.

(** C1, as the code has it.  Both operations store one transaction per
    upstream item of an account that is not excluded, in upstream order;
    the amount is stored unchanged, in the upstream convention (positive =
    money out), and the direction is carried by the type tag alone:
    [expense] exactly when the amount is positive, [income] otherwise. *)
Theorem plaid_amount_stored_unchanged :
  forall (account : Plaid.Connection.t) (items : option (list Plaid.Item.t)),
    Forall2 keepsSign
      (List.filter (Plaid.included account) (default [] items))
      (Plaid.syncTransactions account items)
    /\ Forall2 keepsSign
      (List.filter (Plaid.included account) (default [] items))
      (Plaid.pageTransactions account items).
Proof.
  intros account items. split; apply map_keepsSign.
Qed.

(** ** Purchases and Bills: one transaction per qualifying line *)

(** Scenario A of the specification: lines of 50.00 and -10.00 on Office
    Supplies give amounts -50.00 and -10.00, neither flagged for review. *)
Example purchase_two_lines :
  map (fun t => (Ledger.Txn.id t, Ledger.Txn.amount t, Ledger.Txn.category t,
                 Ledger.Txn.needsReview t))
      (Ledger.processPurchase ∅ ∅ twoLinePurchase)
  = [ ("purchase-146-0", (-50)%Q, "Office Supplies", false);
      ("purchase-146-1", (-10)%Q, "Office Supplies", false) ].
Proof. vm_compute. reflexivity. Qed.

(** C5, counterexample.  A purchase whose single qualifying line has
    amount zero yields one transaction whose amount is not strictly
    negative. *)
Lemma purchase_zero_line_amount_not_negative :
  exists txn,
    Ledger.processPurchase ∅ ∅ zeroLinePurchase = [txn]
    /\ length (qualifyingLines (Ledger.Purchase.Line zeroLinePurchase)) = 1%nat
    /\ ~ (Ledger.Txn.amount txn < 0)%Q.
Proof.
  eexists. split; [reflexivity |]. split; [reflexivity |].
  intros H. vm_compute in H. discriminate.
Qed.

(** A bill line that carries only an item-based detail qualifies in the
    sense of the claim, and the bill path emits nothing for it; the
    purchase path emits a transaction for the same line. *)
Lemma bill_item_line_dropped :
  length (qualifyingLines (Ledger.Bill.Line itemBill)) = 1%nat
  /\ Ledger.processBill ∅ itemBill = []
  /\ length (Ledger.processPurchase ∅ ∅
               (Ledger.Purchase.mk "32" "2025-02-06" None None None
                  (Ledger.Bill.Line itemBill) 80)) = 1%nat.
Proof. repeat split; reflexivity. Qed.

Lemma forcedNonPositive_intro line txn :
  Ledger.Txn.amount txn = Js.neg_abs (Ledger.ExpenseLine.Amount line) ->
  forcedNonPositive line txn.
Proof.
  intros E. unfold forcedNonPositive. rewrite E.
  split; [reflexivity |]. split; [apply neg_abs_nonpos | apply neg_abs_negative].
Qed.

Section LineDetails.

(** [detail] is the function under [.map(...).filter(Boolean)], [keep]
    the lines for which it gives an object, [emit] the function under
    [.forEach]. *)
Variable detail : Ledger.ExpenseLine.t -> option Ledger.LineDetail.t.
Variable keep : Ledger.ExpenseLine.t -> bool.

Lemma kept_length (lines : list Ledger.ExpenseLine.t) :
  Forall (agrees detail keep) lines ->
  length (omap detail lines) = length (List.filter keep lines).
Proof.
  induction 1 as [| line rest Hline _ IH]; simpl; [reflexivity |].
  unfold agrees in Hline. destruct (detail line) as [d |].
  - destruct Hline as [-> _]. simpl. f_equal. exact IH.
  - rewrite Hline. exact IH.
Qed.

Lemma emitted_per_line (lines : list Ledger.ExpenseLine.t) :
  Forall (agrees detail keep) lines ->
  forall emit : nat -> Ledger.LineDetail.t -> Ledger.Txn.t,
    (forall i d, Ledger.Txn.amount (emit i d)
                 = Js.neg_abs (Ledger.LineDetail.amount d)) ->
    Forall2 forcedNonPositive (List.filter keep lines)
      (imap emit (omap detail lines)).
Proof.
  induction 1 as [| line rest Hline _ IH]; intros emit Hemit; simpl.
  - constructor.
  - unfold agrees in Hline. destruct (detail line) as [d |].
    + destruct Hline as [-> Hamount]. simpl. constructor.
      * apply forcedNonPositive_intro. rewrite Hemit, Hamount. reflexivity.
      * apply IH. intros i d'. apply Hemit.
    + rewrite Hline. apply IH, Hemit.
Qed.

End LineDetails.

Lemma purchase_detail_agrees accountMap lines :
  Forall (agrees (Ledger.purchaseLineDetail accountMap) qualifyingLine) lines.
Proof.
  apply Forall_forall. intros line _.
  unfold agrees, Ledger.purchaseLineDetail, qualifyingLine.
  destruct (Ledger.ExpenseLine.AccountBasedExpenseLineDetail line);
    [split; reflexivity |].
  destruct (Ledger.ExpenseLine.ItemBasedExpenseLineDetail line);
    [split; reflexivity | reflexivity].
Qed.

Lemma bill_detail_agrees lines :
  forallb (fun l => implb (qualifyingLine l) (accountBased l)) lines = true ->
  Forall (agrees Ledger.billLineDetail qualifyingLine) lines.
Proof.
  intros H. apply Forall_forall. intros line Hin.
  rewrite forallb_forall in H. specialize (H line).
  rewrite <- list_elem_of_In in H. specialize (H Hin).
  revert H. unfold agrees, Ledger.billLineDetail, qualifyingLine, accountBased.
  destruct (Ledger.ExpenseLine.AccountBasedExpenseLineDetail line);
    [intros _; split; reflexivity |].
  destruct (Ledger.ExpenseLine.ItemBasedExpenseLineDetail line);
    [discriminate | reflexivity].
Qed.

(** C5, as the code has it.  A purchase with at least one qualifying line
    yields exactly one transaction per qualifying line, and so does a bill
    whose qualifying lines all carry an account-based detail; the amount
    of each is [-|line amount|], hence never positive, and strictly
    negative exactly when the line amount is not zero. *)
Theorem expense_lines_one_transaction_each
    (vendorMap : gmap string string)
    (accountMap : gmap string Ledger.AccountInfo.t)
    (p : Ledger.Purchase.t) (b : Ledger.Bill.t)
    (Hp : (0 < length (qualifyingLines (Ledger.Purchase.Line p)))%nat)
    (Hb : forallb (fun l => implb (qualifyingLine l) (accountBased l))
            (default [] (Ledger.Bill.Line b)) = true) :
  length (Ledger.processPurchase vendorMap accountMap p)
    = length (qualifyingLines (Ledger.Purchase.Line p))
  /\ Forall2 forcedNonPositive (qualifyingLines (Ledger.Purchase.Line p))
       (Ledger.processPurchase vendorMap accountMap p)
  /\ length (Ledger.processBill vendorMap b)
     = length (qualifyingLines (Ledger.Bill.Line b))
  /\ Forall2 forcedNonPositive (qualifyingLines (Ledger.Bill.Line b))
       (Ledger.processBill vendorMap b).
Proof.
  assert (HP : Forall2 forcedNonPositive (qualifyingLines (Ledger.Purchase.Line p))
                 (Ledger.processPurchase vendorMap accountMap p)).
  { unfold Ledger.processPurchase, qualifyingLines in *.
    set (lines := default [] (Ledger.Purchase.Line p)) in *.
    rewrite (kept_length _ qualifyingLine lines (purchase_detail_agrees _ _)).
    destruct (0 <? length (List.filter qualifyingLine lines))%nat eqn:E;
      [| apply Nat.ltb_ge in E; lia].
    apply emitted_per_line; [apply purchase_detail_agrees | reflexivity]. }
  assert (HB : Forall2 forcedNonPositive (qualifyingLines (Ledger.Bill.Line b))
                 (Ledger.processBill vendorMap b)).
  { unfold Ledger.processBill, qualifyingLines in *.
    set (lines := default [] (Ledger.Bill.Line b)) in *.
    pose proof (bill_detail_agrees lines Hb) as Hagree.
    pose proof (kept_length _ _ lines Hagree) as Hlen.
    destruct (0 <? length (omap Ledger.billLineDetail lines))%nat eqn:E.
    - apply emitted_per_line; [exact Hagree | reflexivity].
    - apply Nat.ltb_ge in E.
      destruct (List.filter qualifyingLine lines); [constructor |].
      simpl in Hlen. lia. }
  repeat split; try assumption; symmetry; eapply Forall2_length; eassumption.
Qed.

(** The theorem at the purchase and the bill of scenario A: lines of
    50.00 and -10.00 on Office Supplies. *)
Lemma expense_lines_one_transaction_each_witness :
  length (Ledger.processPurchase ∅ ∅ twoLinePurchase) = 2%nat
  /\ length (Ledger.processBill ∅ twoLineBill) = 2%nat.
Proof.
  pose proof (expense_lines_one_transaction_each ∅ ∅ twoLinePurchase twoLineBill)
    as H.
  destruct H as (H1 & _ & H3 & _).
  - vm_compute. lia.
  - reflexivity.
  - split; [exact H1 | exact H3].
Defined.

(** ** Journal entries *)

Lemma journalPosting_balance_sheet acctType postingType amount :
  Js.array_includes Ledger.balanceSheetTypes acctType = true ->
  Ledger.journalPosting acctType postingType amount = None.
Proof.
  unfold Js.array_includes, Ledger.balanceSheetTypes. simpl.
  rewrite !orb_true_iff.
  intros [H | [H | [H | [H | [H | H]]]]]; try discriminate;
    apply String.eqb_eq in H; subst acctType; reflexivity.
Qed.

Lemma journalLine_id accountMap je idx line txn :
  Ledger.journalLine accountMap je idx line = Some txn ->
  Ledger.Txn.id txn
  = "journal-" +:+ Ledger.JournalEntry.Id je +:+ "-" +:+ pretty idx.
Proof.
  unfold Ledger.journalLine.
  destruct (Ledger.JournalLine.JournalEntryLineDetail line); [| discriminate].
  destruct (Qeq_bool _ _); [discriminate |].
  destruct (Ledger.journalPosting _ _ _) as [[txnType txnAmount] |];
    [| discriminate].
  intros [= <-]. reflexivity.
Qed.

Lemma journal_id_inj (qbId : string) (i j : nat) :
  "journal-" +:+ qbId +:+ "-" +:+ pretty i
  = "journal-" +:+ qbId +:+ "-" +:+ pretty j ->
  i = j.
Proof.
  intros H.
  apply (String.app_inj "journal-"), (String.app_inj qbId),
        (String.app_inj "-") in H.
  exact (pretty_nat_inj _ _ H).
Qed.

Lemma processJournalEntry_from_line accountMap je txn :
  txn ∈ Ledger.processJournalEntry accountMap je ->
  exists idx line,
    default [] (Ledger.JournalEntry.Line je) !! idx = Some line
    /\ Ledger.journalLine accountMap je idx line = Some txn.
Proof.
  unfold Ledger.processJournalEntry. intros H.
  apply list_elem_of_omap in H as (o & Ho & Hsome).
  apply elem_of_lookup_imap_1 in Ho as (idx & line & -> & Hline).
  exists idx, line. split; [exact Hline | exact Hsome].
Qed.

(** C6, counterexample.  A debit line on an account of type Other
    Asset, an asset account type, yields an expense transaction. *)
Lemma other_asset_debit_line_emitted :
  Ledger.journalAcctType prepaidChart
    (Ledger.JournalDetail.mk
       (Some (Ledger.Ref.mk (Some "12") (Some "Prepaid Insurance")))
       (Some "Debit")) = "Other Asset"
  /\ Ledger.journalLine prepaidChart prepaidEntry 0
       (journalDebit "12" "Prepaid Insurance" 300) = Some prepaidTxn
  /\ Ledger.processJournalEntry prepaidChart prepaidEntry = [prepaidTxn]
  /\ Ledger.Txn.type prepaidTxn = expense.
Proof. vm_compute. repeat split; reflexivity. Qed.

(** C6, as the code has it.  A journal-entry line whose account type, as
    resolved through the chart of accounts, is one of Other Current
    Liability, Long Term Liability, Bank, Other Current Asset and Fixed
    Asset makes the callback return without a transaction, whatever its
    posting type and amount; and when the line is the [idx]-th of the
    entry, no transaction emitted for the entry carries the identifier of
    that line.  A line whose account type is none of these, nor an
    expense or income type, falls under the last branch: a Debit whose
    amount is not zero yields an expense transaction of amount
    [-|amount|], which is strictly negative; a line that is not a Debit,
    or whose amount is zero or missing, yields nothing. *)
Theorem balance_sheet_line_emits_nothing
    (accountMap : gmap string Ledger.AccountInfo.t)
    (je : Ledger.JournalEntry.t) (idx : nat) (line : Ledger.JournalLine.t) :
  (onBalanceSheetAccount accountMap line = true ->
   Ledger.journalLine accountMap je idx line = None
   /\ (default [] (Ledger.JournalEntry.Line je) !! idx = Some line ->
       forall txn, txn ∈ Ledger.processJournalEntry accountMap je ->
         Ledger.Txn.id txn
         <> "journal-" +:+ Ledger.JournalEntry.Id je +:+ "-" +:+ pretty idx))
  /\ (onOtherAccount accountMap line = true ->
      (postsDebit line = true -> ~ (lineAmount line == 0)%Q ->
       exists txn,
         Ledger.journalLine accountMap je idx line = Some txn
         /\ Ledger.Txn.type txn = expense
         /\ Ledger.Txn.amount txn = Js.neg_abs (lineAmount line)
         /\ (Ledger.Txn.amount txn < 0)%Q)
      /\ (postsDebit line = false ->
          Ledger.journalLine accountMap je idx line = None)
      /\ ((lineAmount line == 0)%Q ->
          Ledger.journalLine accountMap je idx line = None)).
Proof.
  split.
  - intros Hline.
    assert (Hnone : Ledger.journalLine accountMap je idx line = None).
    { unfold onBalanceSheetAccount in Hline. unfold Ledger.journalLine.
      destruct (Ledger.JournalLine.JournalEntryLineDetail line) as [detail |];
        [| reflexivity].
      destruct (Qeq_bool _ _); [reflexivity |].
      rewrite (journalPosting_balance_sheet _ _ _ Hline). reflexivity. }
    split; [exact Hnone |].
    intros Hidx txn Hin Hid.
    apply processJournalEntry_from_line in Hin as (idx' & line' & Hidx' & Hemit).
    rewrite (journalLine_id _ _ _ _ _ Hemit) in Hid.
    apply journal_id_inj in Hid. subst idx'.
    rewrite Hidx in Hidx'. injection Hidx' as <-.
    rewrite Hnone in Hemit. discriminate.
  - unfold onOtherAccount, postsDebit, lineAmount, Ledger.journalLine.
    destruct (Ledger.JournalLine.JournalEntryLineDetail line) as [detail |];
      [| discriminate].
    intros Hother.
    apply andb_true_iff in Hother as [Hother Hsheet].
    apply andb_true_iff in Hother as [Hexpense Hincome].
    apply negb_true_iff in Hexpense, Hincome, Hsheet.
    unfold Ledger.journalPosting. rewrite Hexpense, Hincome, Hsheet.
    split; [| split].
    + intros Hdebit Hnonzero. rewrite Hdebit.
      destruct (Qeq_bool _ 0) eqn:Ezero;
        [apply Qeq_bool_iff in Ezero; contradiction |].
      eexists. split; [reflexivity |]. simpl.
      split; [reflexivity |]. split; [reflexivity |].
      apply neg_abs_negative, Hnonzero.
    + intros Hcredit. rewrite Hcredit.
      destruct (Qeq_bool _ 0); reflexivity.
    + intros Hzero. apply Qeq_bool_iff in Hzero. rewrite Hzero. reflexivity.
Qed.

(** The theorem at the second line of [wagesEntry], a debit to the bank
    account Checking: the entry yields the transaction of its first line
    only; and at the debit of 300 to the prepaid-insurance account, of
    type Other Asset: an expense of -300. *)
Lemma balance_sheet_line_emits_nothing_witness :
  Ledger.journalLine chart wagesEntry 1 (journalDebit "35" "Checking" 1200) = None
  /\ Ledger.processJournalEntry chart wagesEntry = [wagesTxn]
  /\ exists txn,
       Ledger.journalLine prepaidChart prepaidEntry 0
         (journalDebit "12" "Prepaid Insurance" 300) = Some txn
       /\ Ledger.Txn.type txn = expense
       /\ Ledger.Txn.amount txn = Js.neg_abs 300
       /\ (Ledger.Txn.amount txn < 0)%Q.
Proof.
  split; [| split].
  - apply (fun H =>
             proj1 (proj1 (balance_sheet_line_emits_nothing chart wagesEntry 1
                             (journalDebit "35" "Checking" 1200)) H)).
    vm_compute. reflexivity.
  - vm_compute. reflexivity.
  - apply (fun H1 H2 H3 =>
             proj1 (proj2 (balance_sheet_line_emits_nothing prepaidChart
                             prepaidEntry 0
                             (journalDebit "12" "Prepaid Insurance" 300)) H1)
               H2 H3).
    + vm_compute. reflexivity.
    + vm_compute. reflexivity.
    + vm_compute. discriminate.
Defined.

(** C7, counterexample.  The memo "Weekly wages" contains the keyword
    "wage", and the transaction emitted for the line is not tagged as
    payroll and keeps the account name as its category. *)
Lemma memo_wage_not_tagged_payroll :
  Ledger.journalLine chart wagesEntry 0 (journalDebit "80" "Contract Labor" 1200)
  = Some wagesTxn
  /\ mentions (Ledger.journalMemo wagesEntry) "wage" = true
  /\ Ledger.Txn.isPayroll wagesTxn = Some false
  /\ Ledger.Txn.category wagesTxn = "Contract Labor".
Proof. vm_compute. repeat split; reflexivity. Qed.

Lemma isPayroll_keywords acctName memo :
  Ledger.isPayroll acctName memo = true <->
  existsb (mentions acctName) payrollKeywords = true
  \/ mentions memo "payroll" = true
  \/ mentions memo "paychex" = true.
Proof.
  unfold Ledger.isPayroll, payrollKeywords, mentions. simpl.
  rewrite !orb_true_iff. intuition discriminate.
Qed.

Lemma payroll_label_is_payroll memo :
  Ledger.isPayroll "Payroll Expenses" memo = true.
Proof. reflexivity. Qed.

(** C7, as the code has it.  An emitted journal-entry transaction is
    tagged [isPayroll], and has the category "Payroll Expenses", exactly
    when the account name contains (ignoring case) one of "payroll",
    "wage", "salary", "paychex", or the memo contains "payroll" or
    "paychex". *)
Theorem payroll_tag_iff_keywords
    (accountMap : gmap string Ledger.AccountInfo.t)
    (je : Ledger.JournalEntry.t) (idx : nat) (line : Ledger.JournalLine.t)
    (detail : Ledger.JournalDetail.t) (txn : Ledger.Txn.t)
    (Hdetail : Ledger.JournalLine.JournalEntryLineDetail line = Some detail)
    (Hemit : Ledger.journalLine accountMap je idx line = Some txn) :
  let acctName := Ledger.journalAcctName accountMap detail in
  let memo := Ledger.journalMemo je in
  let keyword :=
    existsb (mentions acctName) payrollKeywords = true
    \/ mentions memo "payroll" = true
    \/ mentions memo "paychex" = true in
  (Ledger.Txn.isPayroll txn = Some true <-> keyword)
  /\ (Ledger.Txn.category txn = "Payroll Expenses" <-> keyword)
  /\ (Ledger.Txn.isPayroll txn = Some false <-> ~ keyword).
Proof.
  intros acctName memo keyword.
  pose proof (isPayroll_keywords acctName memo) as Hkw. fold keyword in Hkw.
  revert Hemit. unfold Ledger.journalLine. rewrite Hdetail.
  fold acctName memo.
  destruct (Qeq_bool _ _); [discriminate |].
  destruct (Ledger.journalPosting _ _ _) as [[txnType txnAmount] |];
    [| discriminate].
  intros [= <-]. simpl.
  destruct (Ledger.isPayroll acctName memo) eqn:E.
  - assert (keyword) by (apply Hkw; reflexivity).
    repeat split; intros; try assumption; try reflexivity; try discriminate.
    contradiction.
  - assert (Hno : ~ keyword) by (intros K; apply Hkw in K; discriminate).
    repeat split; intros; try assumption; try reflexivity; try discriminate;
      try contradiction.
    subst keyword. exfalso.
    match goal with
    | H : acctName = "Payroll Expenses" |- _ =>
      rewrite H in E; rewrite payroll_label_is_payroll in E; discriminate
    end.
Qed.

(** The theorem at the first line of [wagesEntry]: the account name
    "Contract Labor" holds no keyword and the memo holds neither
    "payroll" nor "paychex", so the transaction is not tagged. *)
Lemma payroll_tag_iff_keywords_witness :
  Ledger.Txn.isPayroll wagesTxn = Some false.
Proof.
  pose proof (payroll_tag_iff_keywords chart wagesEntry 0
                (journalDebit "80" "Contract Labor" 1200)
                (Ledger.JournalDetail.mk
                   (Some (Ledger.Ref.mk (Some "80") (Some "Contract Labor")))
                   (Some "Debit"))
                wagesTxn eq_refl) as H.
  simpl in H.
  destruct H as (_ & _ & H3).
  - vm_compute. reflexivity.
  - apply H3. vm_compute. intros [H | [H | H]]; discriminate.
Defined.

(** ** Pagination of ledger queries *)

Lemma fetchLoop_returns {R : Type} (query : Z -> option (list R)) :
  forall (fuel : nat) (startPosition : Z) (allRecords : list R),
    (0 < fuel)%nat ->
    (10001 - startPosition <= Ledger.maxResults * Z.of_nat fuel)%Z ->
    is_Some (Ledger.fetchLoop fuel query startPosition allRecords).
Proof.
  unfold Ledger.maxResults.
  induction fuel as [| fuel IH]; intros startPosition allRecords Hpos Hfuel;
    [lia |].
  simpl. destruct (query startPosition) as [records |]; [| eexists; reflexivity].
  unfold Ledger.maxResults.
  destruct (Z.of_nat (length records) <? 1000)%Z; simpl;
    [eexists; reflexivity |].
  destruct (10000 <? startPosition + 1000)%Z eqn:E; simpl;
    [eexists; reflexivity |].
  apply Z.ltb_ge in E. apply IH; lia.
Qed.

(** [fetchAllRecords] is the value the loop returns: ten iterations are
    never exhausted. *)
Lemma fetchAllRecords_returns {R : Type} (query : Z -> option (list R)) :
  Ledger.fetchLoop 10 query 1 [] = Some (Ledger.fetchAllRecords query).
Proof.
  unfold Ledger.fetchAllRecords.
  destruct (fetchLoop_returns query 10 1 []) as [records ->];
    [lia | unfold Ledger.maxResults; lia | reflexivity].
Qed.



(** The value returned by the run does not tell a failed fetch from an
    entity type without records. *)
Lemma failed_fetch_looks_like_no_records :
  Ledger.fetchFinancialData isoDateValue (Some tt) billsFail
  = Ledger.fetchFinancialData isoDateValue (Some tt) noBills.
Proof. vm_compute. reflexivity. Qed.




(** ** Termination of the pagination loops *)

(** The ledger loop ends within ten iterations whatever the ledger
    answers. *)
Lemma ledger_loop_terminates {R : Type} (query : Z -> option (list R))
    (fuel : nat) :
  (10 <= fuel)%nat -> is_Some (Ledger.fetchLoop fuel query 1 []).
Proof.
  intros H. apply fetchLoop_returns; unfold Ledger.maxResults; lia.
Qed.

Lemma listLoop_stuck :
  forall (fuel call : nat) (allTransactions : list Plaid.Txn.t)
         (errors : list Plaid.Error.t),
    Plaid.listLoop fuel checking stuckFeed call 0 allTransactions errors = None.
Proof.
  induction fuel as [| fuel IH]; intros call allTransactions errors;
    [reflexivity |].
  simpl. apply IH.
Qed.

(** C9, the code at the failing input.  Against a bank feed that keeps
    answering with an empty page and a total of one, the listing loop of
    a connection has not ended after any number of iterations: the offset
    stays at 0, below the total and below the limit of 5000. *)
Theorem plaid_listing_does_not_terminate :
  forall fuel : nat, Plaid.listConnection fuel checking stuckFeed = None.
Proof.
  intros fuel. unfold Plaid.listConnection. apply listLoop_stuck.
Qed.

(** The bank-feed loop ends within 5000 iterations when every answer is
    an exception, an error body, or a page with at least one transaction. *)
Lemma listLoop_terminates_when_advancing (account : Plaid.Connection.t)
    (upstream : nat -> Plaid.Reply) :
  (forall k, advances (upstream k)) ->
  forall (fuel call : nat) (offset : Z) (allTransactions : list Plaid.Txn.t)
         (errors : list Plaid.Error.t),
    (0 < fuel)%nat ->
    (5000 - offset <= Z.of_nat fuel)%Z ->
    is_Some (Plaid.listLoop fuel account upstream call offset allTransactions errors).
Proof.
  intros Hadv.
  induction fuel as [| fuel IH]; intros call offset allTransactions errors Hpos Hfuel;
    [lia |].
  simpl. specialize (Hadv call) as Hcall.
  destruct (upstream call) as [message | txnData]; [eexists; reflexivity |].
  simpl in Hcall.
  destruct (Js.truthy (Plaid.Page.error_code txnData)); [eexists; reflexivity |].
  destruct Hcall as [Hcall | Hcall]; [discriminate |].
  destruct (5000 <=? _)%Z eqn:E; [eexists; reflexivity |].
  destruct (Plaid.offset_below _ _); [| eexists; reflexivity].
  apply Z.leb_gt in E. apply IH; lia.
Qed.

(** ** The rule store *)

Lemma learnRule_run env req st :
  let rules :=
    Server.taught env (Server.LearnRequest.pattern req)
      (default "contains" (Server.LearnRequest.patternType req))
      (Server.LearnRequest.categoryId req)
      (Server.LearnRequest.categoryName req) (Server.State.learnedRules st) in
  exists st',
    Server.learnRule env req st
    = (Server.Returns (Server.json (Server.LearnBody true (length rules))), st')
    /\ Server.State.learnedRules st' = rules
    /\ Server.State.rulesFile st'
       = (if Server.Env.diskWritable env then Some rules
          else Server.State.rulesFile st).
Proof.
  intros rules. subst rules.
  unfold Server.learnRule, Server.saveRules, Server.writeRulesFile,
    Server.try_catch, Server.bind, Server.gets, Server.setLearnedRules,
    Server.emit, Server.modify, Server.ret.
  simpl. destruct (Server.Env.diskWritable env); simpl;
    eexists; repeat split; reflexivity.
Qed.

Lemma deleteRule_run env id st :
  let rules :=
    List.filter (fun r => negb (String.eqb (Server.Rule.id r) id))
      (Server.State.learnedRules st) in
  exists st',
    Server.deleteRule env id st
    = (Server.Returns (Server.json (Server.DeleteBody true)), st')
    /\ Server.State.learnedRules st' = rules
    /\ Server.State.rulesFile st'
       = (if Server.Env.diskWritable env then Some rules
          else Server.State.rulesFile st).
Proof.
  intros rules. subst rules.
  unfold Server.deleteRule, Server.saveRules, Server.writeRulesFile,
    Server.try_catch, Server.bind, Server.gets, Server.setLearnedRules,
    Server.emit, Server.modify, Server.ret.
  simpl. destruct (Server.Env.diskWritable env); simpl;
    eexists; repeat split; reflexivity.
Qed.

(** C3, counterexample.  The rules file cannot be written; the
    learn-rule call and the delete call both answer with status 200 and
    [success: true], while the file still holds the rule set from before
    the call. *)
Lemma save_failure_reported_as_success :
  (exists st',
     Server.learnRule readOnlyDisk teachAmazon (stateWith [])
     = (Server.Returns (Server.Response.mk 200 (Server.LearnBody true 1)), st')
     /\ length (Server.State.learnedRules st') = 1%nat
     /\ Server.State.rulesFile st' = Some [])
  /\ (exists st',
        Server.deleteRule readOnlyDisk "rule-1" (stateWith [amazonRule])
        = (Server.Returns (Server.Response.mk 200 (Server.DeleteBody true)), st')
        /\ Server.State.learnedRules st' = []
        /\ Server.State.rulesFile st' = Some [amazonRule]).
Proof. split; eexists; repeat split; vm_compute; reflexivity. Qed.

(** C3, as the code has it.  When the write of the rules file fails,
    [saveRules] logs the error and swallows it: the learn-rule call and
    the delete call answer [success: true] with status 200, the rule set
    in memory carries the change, and the file keeps its former content. *)
Theorem save_failure_is_swallowed
    (env : Server.Env.t) (req : Server.LearnRequest.t) (id : string)
    (st : Server.State.t)
    (Hdisk : Server.Env.diskWritable env = false) :
  (exists st',
     Server.learnRule env req st
     = (Server.Returns
          (Server.Response.mk 200
             (Server.LearnBody true (length (Server.State.learnedRules st')))),
        st')
     /\ Server.State.learnedRules st'
        = Server.taught env (Server.LearnRequest.pattern req)
            (default "contains" (Server.LearnRequest.patternType req))
            (Server.LearnRequest.categoryId req)
            (Server.LearnRequest.categoryName req)
            (Server.State.learnedRules st)
     /\ Server.State.rulesFile st' = Server.State.rulesFile st)
  /\ (exists st',
        Server.deleteRule env id st
        = (Server.Returns (Server.Response.mk 200 (Server.DeleteBody true)), st')
        /\ Server.State.learnedRules st'
           = List.filter (fun r => negb (String.eqb (Server.Rule.id r) id))
               (Server.State.learnedRules st)
        /\ Server.State.rulesFile st' = Server.State.rulesFile st).
Proof.
  split.
  - destruct (learnRule_run env req st) as (st' & Hrun & Hrules & Hfile).
    exists st'. rewrite Hdisk in Hfile. rewrite Hrules.
    split; [exact Hrun |]. split; [reflexivity | exact Hfile].
  - destruct (deleteRule_run env id st) as (st' & Hrun & Hrules & Hfile).
    exists st'. rewrite Hdisk in Hfile.
    split; [exact Hrun |]. split; [exact Hrules | exact Hfile].
Qed.

(** The theorem at a first teach call made while the disk is read-only. *)
Lemma save_failure_is_swallowed_witness :
  exists st',
    Server.learnRule readOnlyDisk teachAmazon (stateWith [])
    = (Server.Returns
         (Server.Response.mk 200
            (Server.LearnBody true (length (Server.State.learnedRules st')))),
       st')
    /\ Server.State.rulesFile st' = Some [].
Proof.
  destruct (save_failure_is_swallowed readOnlyDisk teachAmazon "rule-1"
              (stateWith [])) as [(st' & Hrun & _ & Hfile) _].
  - reflexivity.
  - exists st'. split; [exact Hrun | exact Hfile].
Defined.

(** ** Teaching a rule twice *)

Example teach_new_rule :
  Server.State.learnedRules
    (Server.teach firstCall "Amazon" "contains" "61" "Office Supplies"
       (stateWith []))
  = [ Server.Rule.mk "rule-1740823200000" "Amazon" "contains" "61"
        "Office Supplies" (Some 1%Q) (Some 1%Z)
        (Some "2025-03-01T10:00:00.000Z") None ].
Proof. vm_compute. reflexivity. Qed.

(** C4, counterexample.  The store already holds a rule for
    ("amazon", contains) that was used five times; after two teach calls
    for that pattern the rule has [timesUsed = 7], not 2. *)
Lemma teach_twice_on_used_rule_counts_seven :
  Server.Rule.timesUsed
    <$> Server.rulesFor "Amazon" "contains"
          (Server.State.learnedRules
             (Server.teach secondCall "Amazon" "contains" "70" "Software"
                (Server.teach firstCall "Amazon" "contains" "61"
                   "Office Supplies" (stateWith [amazonRule]))))
  = [Some 7%Z].
Proof. vm_compute. reflexivity. Qed.

Lemma samePattern_key pattern patternType r :
  Server.samePattern pattern patternType r = true
  <-> Server.ruleKey r = (Js.toLowerCase pattern, patternType).
Proof.
  unfold Server.samePattern, Server.ruleKey.
  rewrite andb_true_iff, !String.eqb_eq. split.
  - intros [-> ->]. reflexivity.
  - intros [= -> ->]. split; reflexivity.
Qed.

Lemma rulesFor_nil pattern patternType rules :
  (Js.toLowerCase pattern, patternType) ∉ map Server.ruleKey rules ->
  Server.rulesFor pattern patternType rules = [].
Proof.
  unfold Server.rulesFor.
  induction rules as [| r rest IH]; intros Hnot; simpl; [reflexivity |].
  simpl in Hnot. apply not_elem_of_cons in Hnot as [Hr Hrest].
  destruct (Server.samePattern pattern patternType r) eqn:E.
  - apply samePattern_key in E. congruence.
  - apply IH, Hrest.
Qed.

Lemma findIndex_none pattern patternType rules :
  Server.findIndex (Server.samePattern pattern patternType) rules = None ->
  Server.rulesFor pattern patternType rules = []
  /\ (Js.toLowerCase pattern, patternType) ∉ map Server.ruleKey rules.
Proof.
  unfold Server.rulesFor.
  induction rules as [| r rest IH]; simpl; intros H.
  - split; [reflexivity | apply not_elem_of_nil].
  - destruct (Server.samePattern pattern patternType r) eqn:E; [discriminate |].
    destruct (Server.findIndex _ rest); [discriminate |].
    destruct (IH eq_refl) as [IH1 IH2]. split; [exact IH1 |].
    apply not_elem_of_cons. split; [| exact IH2].
    intros Hkey. symmetry in Hkey. apply samePattern_key in Hkey. congruence.
Qed.

Lemma findIndex_some pattern patternType (f : Server.Rule.t -> Server.Rule.t) :
  (forall r, Server.ruleKey (f r) = Server.ruleKey r) ->
  forall rules i,
    Server.uniqueRules rules ->
    Server.findIndex (Server.samePattern pattern patternType) rules = Some i ->
    exists r0,
      Server.rulesFor pattern patternType rules = [r0]
      /\ Server.rulesFor pattern patternType (alter f i rules) = [f r0]
      /\ map Server.ruleKey (alter f i rules) = map Server.ruleKey rules.
Proof.
  intros Hf. unfold Server.uniqueRules, Server.rulesFor.
  induction rules as [| r rest IH]; simpl; intros i Huniq H; [discriminate |].
  apply NoDup_cons in Huniq as [Hr Hrest].
  destruct (Server.samePattern pattern patternType r) eqn:E.
  - injection H as <-. exists r. simpl.
    assert (Ef : Server.samePattern pattern patternType (f r) = true).
    { apply samePattern_key. rewrite Hf. apply samePattern_key, E. }
    rewrite Ef.
    apply samePattern_key in E. rewrite E in Hr.
    pose proof (rulesFor_nil _ _ _ Hr) as Hnil. unfold Server.rulesFor in Hnil.
    rewrite Hnil, Hf. repeat split; reflexivity.
  - destruct (Server.findIndex _ rest) as [i' |] eqn:Ei; [| discriminate].
    injection H as <-.
    destruct (IH i' Hrest eq_refl) as (r0 & H1 & H2 & H3).
    exists r0. simpl. rewrite E.
    split; [exact H1 |]. split; [exact H2 |]. f_equal. exact H3.
Qed.

(** One teach call: the store stays free of duplicates and holds exactly
    one rule for the pair, with the category just taught; its counter is
    1 for a new rule and the former counter plus one otherwise. *)
Lemma taught_once env pattern patternType categoryId categoryName rules :
  Server.uniqueRules rules ->
  let rules' :=
    Server.taught env pattern patternType categoryId categoryName rules in
  Server.uniqueRules rules'
  /\ exists r,
       Server.rulesFor pattern patternType rules' = [r]
       /\ Server.Rule.categoryId r = categoryId
       /\ Server.Rule.categoryName r = categoryName
       /\ Server.Rule.timesUsed r
          = Some (match Server.rulesFor pattern patternType rules with
                  | [] => 1%Z
                  | r0 :: _ => Server.bumped (Server.Rule.timesUsed r0)
                  end).
Proof.
  intros Huniq rules'. subst rules'. unfold Server.taught.
  destruct (Server.findIndex _ rules) as [i |] eqn:E.
  - destruct (findIndex_some pattern patternType
                (Server.updateRule env categoryId categoryName)
                (fun r => eq_refl) rules i Huniq E) as (r0 & H1 & H2 & H3).
    split.
    + unfold Server.uniqueRules. rewrite H3. exact Huniq.
    + eexists. split; [exact H2 |]. rewrite H1. repeat split; reflexivity.
  - apply findIndex_none in E as [Hnil Hnot].
    split.
    + unfold Server.uniqueRules in *. rewrite map_app. simpl.
      apply NoDup_app. split; [exact Huniq |]. split.
      * intros key Hkey Hin. apply list_elem_of_singleton in Hin. subst key.
        apply Hnot. exact Hkey.
      * apply NoDup_singleton.
    + eexists. split.
      * unfold Server.rulesFor in *. rewrite List.filter_app, Hnil. simpl.
        unfold Server.samePattern. simpl. rewrite !String.eqb_refl. reflexivity.
      * rewrite Hnil. repeat split; reflexivity.
Qed.

Lemma teach_rules env pattern patternType categoryId categoryName st :
  Server.State.learnedRules
    (Server.teach env pattern patternType categoryId categoryName st)
  = Server.taught env pattern patternType categoryId categoryName
      (Server.State.learnedRules st).
Proof.
  unfold Server.teach.
  destruct (learnRule_run env
              (Server.LearnRequest.mk pattern categoryId categoryName
                 (Some patternType)) st) as (st' & Hrun & Hrules & _).
  rewrite Hrun. exact Hrules.
Qed.

(** C4, as the code has it.  From a store without duplicates, [teach(p,
    t, c1)] followed by [teach(p, t, c2)] leaves exactly one rule whose
    pattern equals [p] ignoring case with pattern type [t]; that rule has
    category [c2]; its [timesUsed] is 2 when the store held no rule for
    the pair, and otherwise the former counter (a missing or zero counter
    counting as 1) plus 2.  Each teach call keeps the store free of
    duplicates. *)
Theorem teach_twice_one_rule
    (env1 env2 : Server.Env.t) (st : Server.State.t)
    (p t id1 name1 id2 name2 : string)
    (Huniq : Server.uniqueRules (Server.State.learnedRules st)) :
  let st1 := Server.teach env1 p t id1 name1 st in
  let st2 := Server.teach env2 p t id2 name2 st1 in
  Server.uniqueRules (Server.State.learnedRules st1)
  /\ Server.uniqueRules (Server.State.learnedRules st2)
  /\ exists r,
       Server.rulesFor p t (Server.State.learnedRules st2) = [r]
       /\ Server.Rule.categoryId r = id2
       /\ Server.Rule.categoryName r = name2
       /\ Server.Rule.timesUsed r
          = Some (match Server.rulesFor p t (Server.State.learnedRules st) with
                  | [] => 2%Z
                  | r0 :: _ =>
                    Server.bumped (Some (Server.bumped (Server.Rule.timesUsed r0)))
                  end).
Proof.
  intros st1 st2. subst st1 st2. rewrite !teach_rules.
  destruct (taught_once env1 p t id1 name1 _ Huniq)
    as (Huniq1 & r1 & Hfor1 & _ & _ & Hused1).
  destruct (taught_once env2 p t id2 name2 _ Huniq1)
    as (Huniq2 & r2 & Hfor2 & Hid2 & Hname2 & Hused2).
  split; [exact Huniq1 |]. split; [exact Huniq2 |].
  exists r2. split; [exact Hfor2 |]. split; [exact Hid2 |].
  split; [exact Hname2 |].
  rewrite Hused2, Hfor1, Hused1.
  destruct (Server.rulesFor p t (Server.State.learnedRules st)); reflexivity.
Qed.

(** The theorem at an empty store: one rule for ("Amazon", contains),
    category Software, used twice. *)
Lemma teach_twice_one_rule_witness :
  exists r,
    Server.rulesFor "Amazon" "contains"
      (Server.State.learnedRules
         (Server.teach secondCall "Amazon" "contains" "70" "Software"
            (Server.teach firstCall "Amazon" "contains" "61"
               "Office Supplies" (stateWith []))))
    = [r]
    /\ Server.Rule.categoryName r = "Software"
    /\ Server.Rule.timesUsed r = Some 2%Z.
Proof.
  destruct (teach_twice_one_rule firstCall secondCall (stateWith [])
              "Amazon" "contains" "61" "Office Supplies" "70" "Software")
    as (_ & _ & r & Hfor & _ & Hname & Hused).
  - vm_compute. constructor.
  - exists r. split; [exact Hfor |]. split; [exact Hname | exact Hused].
Defined.

(** ** The category resolver *)

Lemma addTrace_nil st : addTrace st [] = st.
Proof. destruct st. unfold addTrace. simpl. rewrite app_nil_r. reflexivity. Qed.

Lemma addTrace_app st a b : addTrace (addTrace st a) b = addTrace st (a ++ b).
Proof. unfold addTrace. simpl. rewrite app_assoc. reflexivity. Qed.

Lemma scanRules_find rules key :
  Server.scanRules rules key
  = Server.matchOf <$> List.find (Server.ruleMatches key) rules.
Proof.
  induction rules as [| rule rest IH]; simpl; [reflexivity |].
  destruct (Server.ruleMatches key rule); [reflexivity | exact IH].
Qed.

Lemma aiCategorize_run env transaction categories st :
  exists events,
    Server.aiCategorize env transaction categories st
    = (Server.Returns
         (if Server.State.anthropic st
          then parsed (Server.Env.classifier env transaction categories)
          else None),
       addTrace st events)
    /\ (Server.State.anthropic st = true ->
        Server.ClassifierRequest transaction categories ∈ events)
    /\ (forall t c, Server.ClassifierRequest t c ∈ events -> t = transaction).
Proof.
  unfold Server.aiCategorize, Server.try_catch, Server.bind, Server.gets,
    Server.emit, Server.modify, Server.ret, Server.raise.
  destruct (Server.State.anthropic st) eqn:Eclient; simpl.
  - fold (addTrace st [Server.ClassifierRequest transaction categories]).
    destruct (Server.Env.classifier env transaction categories) as [m | | m | r];
      simpl.
    + exists [Server.ClassifierRequest transaction categories;
              Server.ConsoleError ("AI categorization error: " +:+ m)].
      split; [unfold addTrace; simpl; rewrite <- app_assoc; reflexivity |].
      split; [intros _; apply list_elem_of_here |].
      intros t c Hin. apply elem_of_cons in Hin as [[= -> _] | Hin];
        [reflexivity |].
      apply list_elem_of_singleton in Hin. discriminate.
    + exists [Server.ClassifierRequest transaction categories].
      split; [reflexivity |]. split; [intros _; apply list_elem_of_here |].
      intros t c Hin. apply list_elem_of_singleton in Hin.
      injection Hin as -> _. reflexivity.
    + exists [Server.ClassifierRequest transaction categories;
              Server.ConsoleError ("AI categorization error: " +:+ m)].
      split; [unfold addTrace; simpl; rewrite <- app_assoc; reflexivity |].
      split; [intros _; apply list_elem_of_here |].
      intros t c Hin. apply elem_of_cons in Hin as [[= -> _] | Hin];
        [reflexivity |].
      apply list_elem_of_singleton in Hin. discriminate.
    + exists [Server.ClassifierRequest transaction categories].
      split; [reflexivity |]. split; [intros _; apply list_elem_of_here |].
      intros t c Hin. apply list_elem_of_singleton in Hin.
      injection Hin as -> _. reflexivity.
  - exists []. rewrite addTrace_nil. split; [reflexivity |].
    split; [discriminate |]. intros t c Hin. apply elem_of_nil in Hin. contradiction.
Qed.

Lemma warmed_same env st :
  Server.State.learnedRules (warmed env st) = Server.State.learnedRules st
  /\ Server.State.trace (warmed env st) = Server.State.trace st
  /\ Server.State.anthropic (warmed env st) = Server.State.anthropic st.
Proof.
  unfold warmed.
  destruct (length (Server.State.categories st) =? 0)%nat;
    repeat split; reflexivity.
Qed.

(** The handler, once the caller is known to be authenticated. *)
Lemma categorize_authenticated env transaction st :
  authenticated st ->
  let ruleMatch :=
    Server.findMatchingRule (Server.State.learnedRules st)
      (Server.Transaction.description transaction)
      (Server.Transaction.vendor transaction) in
  Server.categorize env transaction st
  = if Server.autoApproves ruleMatch then
      (Server.Returns
         (Server.json (Server.CategorizeBody (Server.FromRule <$> ruleMatch) true)),
       st)
    else
      match Server.aiCategorize env transaction
              (Server.State.categories (warmed env st)) (warmed env st) with
      | (Server.Returns aiResult, st') =>
        (Server.Returns
           (Server.json
              (Server.CategorizeBody (Server.orRuleMatch aiResult ruleMatch) false)),
         st')
      | (Server.Raises err, st') =>
        (Server.Returns (Server.status_json 500 (Server.ErrorBody err)),
         addTrace st' [Server.ConsoleError ("Categorization error: " +:+ err)])
      end.
Proof.
  intros Hauth ruleMatch. unfold authenticated in Hauth.
  unfold Server.categorize, Server.try_catch, Server.bind, Server.gets,
    Server.ret, warmed.
  rewrite Hauth. simpl. fold ruleMatch.
  destruct (Server.autoApproves ruleMatch); [reflexivity |].
  destruct (length (Server.State.categories st) =? 0)%nat; simpl;
    destruct (Server.aiCategorize _ _ _ _) as [[aiResult | err] st'];
    reflexivity.
Qed.

Lemma categorize_fallback env transaction st :
  authenticated st ->
  let ruleMatch :=
    Server.findMatchingRule (Server.State.learnedRules st)
      (Server.Transaction.description transaction)
      (Server.Transaction.vendor transaction) in
  Server.autoApproves ruleMatch = false ->
  fallsBack env transaction st ruleMatch.
Proof.
  intros Hauth ruleMatch Hlow. unfold fallsBack.
  rewrite (categorize_authenticated env transaction st Hauth).
  fold ruleMatch. rewrite Hlow.
  destruct (aiCategorize_run env transaction
              (Server.State.categories (warmed env st)) (warmed env st))
    as (events & Hai & Hreq & _).
  destruct (warmed_same env st) as (Hrules & Htrace & Hclient).
  rewrite Hai, Hclient.
  exists (addTrace (warmed env st) events). eexists.
  split; [| split; [reflexivity |]].
  - unfold Server.json, Server.orRuleMatch, fallbackSuggestion. simpl.
    destruct (Server.State.anthropic st);
      [destruct (parsed _) |]; destruct ruleMatch; reflexivity.
  - split; [exact Hrules |].
    intros Hon. simpl. apply elem_of_app. right. apply Hreq.
    rewrite Hclient. exact Hon.
Qed.

Lemma categorize_auto env transaction st m :
  authenticated st ->
  Server.findMatchingRule (Server.State.learnedRules st)
    (Server.Transaction.description transaction)
    (Server.Transaction.vendor transaction) = Some m ->
  Qle_bool 0.95 (Server.RuleMatch.confidence m) = true ->
  Server.categorize env transaction st
  = (Server.Returns
       (Server.Response.mk 200 (Server.CategorizeBody (Some (Server.FromRule m)) true)),
     st).
Proof.
  intros Hauth Hmatch Hconf.
  rewrite (categorize_authenticated env transaction st Hauth), Hmatch.
  simpl. rewrite Hconf. reflexivity.
Qed.

(** C2, counterexample.  First store: the rule of confidence 1.0
    matches the marketplace order, but the rule of confidence 0.6 stored
    before it matches too; the answer is the classifier's, not approved.
    Second store: its only rule has stored confidence 0, below 0.95; the
    payout is approved automatically. *)
Lemma first_match_and_default_decide_approval :
  (Server.ruleMatches
     (Server.searchKey (Server.Transaction.description amazonOrder)
        (Server.Transaction.vendor amazonOrder)) amazonSure = true
   /\ Server.Rule.confidence amazonSure = Some 1%Q
   /\ fst (Server.categorize confidentClassifier amazonOrder shadowedRule)
      = Server.Returns
          (Server.Response.mk 200
             (Server.CategorizeBody (Some (Server.FromAi softwareGuess)) false)))
  /\ (Server.Rule.confidence <$> Server.State.learnedRules zeroConfidence
      = [Some 0%Q]
      /\ fst (Server.categorize confidentClassifier payout zeroConfidence)
         = Server.Returns
             (Server.Response.mk 200
                (Server.CategorizeBody
                   (Some (Server.FromRule (Server.matchOf affiliateZero))) true))).
Proof. vm_compute. repeat split; reflexivity. Qed.

(** C2, as the code has it.  For a transaction submitted by an
    authenticated caller, let [rule] be the first rule, in stored order,
    that matches the lower-cased "description vendor" key.  If there is
    one and the confidence reported for it (its stored confidence, or 1.0
    when that is absent, null or 0) is at least 0.95, the answer is that
    rule's suggestion with [autoApproved = true], and the state, trace of
    classifier requests included, is untouched.  Otherwise the answer
    carries the classifier's result when there is one, else the match of
    that rule, else nothing, always with [autoApproved = false]. *)
Theorem categorize_policy
    (env : Server.Env.t) (transaction : Server.Transaction.t)
    (st : Server.State.t) (Hauth : authenticated st) :
  let key :=
    Server.searchKey (Server.Transaction.description transaction)
      (Server.Transaction.vendor transaction) in
  match List.find (Server.ruleMatches key) (Server.State.learnedRules st) with
  | Some rule =>
    if Qle_bool 0.95 (Server.reportedConfidence rule) then
      Server.categorize env transaction st
      = (Server.Returns
           (Server.Response.mk 200
              (Server.CategorizeBody
                 (Some (Server.FromRule (Server.matchOf rule))) true)),
         st)
    else fallsBack env transaction st (Some (Server.matchOf rule))
  | None => fallsBack env transaction st None
  end.
Proof.
  intros key.
  pose proof (scanRules_find (Server.State.learnedRules st) key) as Hscan.
  fold key in Hscan.
  pose proof (categorize_fallback env transaction st Hauth) as Hfall.
  pose proof (categorize_auto env transaction st) as Hauto.
  unfold Server.findMatchingRule in *. fold key in Hfall, Hauto.
  rewrite Hscan in Hfall, Hauto.
  destruct (List.find (Server.ruleMatches key) (Server.State.learnedRules st))
    as [rule |]; simpl in *.
  - destruct (Qle_bool 0.95 (Server.reportedConfidence rule)) eqn:E.
    + apply Hauto; [exact Hauth | reflexivity | exact E].
    + apply Hfall. reflexivity.
  - apply Hfall. reflexivity.
Qed.

(** The theorem at a store of two rules and a classifier that always
    answers "Software" with confidence 0.99: the payout matches the rule
    stored without a confidence and is approved without the classifier;
    the marketplace order matches the rule of confidence 0.6 and gets the
    classifier's answer, not approved. *)
Lemma categorize_policy_witness :
  Server.categorize confidentClassifier payout twoRules
  = (Server.Returns
       (Server.Response.mk 200
          (Server.CategorizeBody
             (Some (Server.FromRule (Server.matchOf affiliateRule))) true)),
     twoRules)
  /\ exists st',
       Server.categorize confidentClassifier amazonOrder twoRules
       = (Server.Returns
            (Server.Response.mk 200
               (Server.CategorizeBody (Some (Server.FromAi softwareGuess)) false)),
          st').
Proof.
  split.
  - exact (categorize_policy confidentClassifier payout twoRules eq_refl).
  - destruct (categorize_policy confidentClassifier amazonOrder twoRules eq_refl)
      as (st' & aiResult & Hrun & Hai & _).
    exists st'. rewrite Hrun, Hai. reflexivity.
Defined.

(** ** Rules stored without a confidence *)

Lemma reportedConfidence_missing rule :
  confidenceMissing rule -> Server.reportedConfidence rule = 1%Q.
Proof.
  unfold confidenceMissing, Server.reportedConfidence.
  destruct (Server.Rule.confidence rule) as [c |]; [| reflexivity].
  intros H. apply Qeq_bool_iff in H. rewrite H. reflexivity.
Qed.

Lemma categorizeOne_run env txn st :
  let ruleMatch :=
    Server.findMatchingRule (Server.State.learnedRules st)
      (Server.Transaction.description txn) (Server.Transaction.vendor txn) in
  exists entry events,
    Server.categorizeOne env txn st = (Server.Returns entry, addTrace st events)
    /\ (Server.autoApproves ruleMatch = true ->
        entry = Server.BatchResult.mk (Server.Transaction.id txn)
                  (Server.FromRule <$> ruleMatch) true)
    /\ (Server.autoApproves ruleMatch = false ->
        Server.BatchResult.autoApproved entry = false)
    /\ (forall t c, Server.ClassifierRequest t c ∈ events ->
          t = txn /\ Server.autoApproves ruleMatch = false).
Proof.
  intros ruleMatch.
  unfold Server.categorizeOne, Server.bind, Server.gets, Server.ret.
  fold ruleMatch.
  destruct (Server.autoApproves ruleMatch) eqn:E.
  - eexists. exists []. rewrite addTrace_nil.
    split; [reflexivity |]. split; [reflexivity |]. split; [discriminate |].
    intros t c Hin. apply elem_of_nil in Hin. contradiction.
  - destruct (aiCategorize_run env txn (Server.State.categories st) st)
      as (events & Hai & _ & Hreq).
    rewrite Hai. eexists. exists events.
    split; [reflexivity |]. split; [discriminate |]. split; [reflexivity |].
    intros t c Hin. split; [exact (Hreq t c Hin) | reflexivity].
Qed.

(** What the entry of a batch result has to be for an auto-approved
    transaction. *)
Lemma forEachM_categorizeOne env :
  forall (transactions : list Server.Transaction.t) (st : Server.State.t),
  exists results events,
    Server.forEachM (Server.categorizeOne env) transactions st
    = (Server.Returns results, addTrace st events)
    /\ Forall2
         (fun txn entry =>
            let ruleMatch :=
              Server.findMatchingRule (Server.State.learnedRules st)
                (Server.Transaction.description txn)
                (Server.Transaction.vendor txn) in
            Server.autoApproves ruleMatch = true ->
            entry = Server.BatchResult.mk (Server.Transaction.id txn)
                      (Server.FromRule <$> ruleMatch) true)
         transactions results
    /\ (forall t c, Server.ClassifierRequest t c ∈ events ->
          Server.autoApproves
            (Server.findMatchingRule (Server.State.learnedRules st)
               (Server.Transaction.description t) (Server.Transaction.vendor t))
          = false).
Proof.
  induction transactions as [| txn rest IH]; intros st.
  - exists [], []. rewrite addTrace_nil. split; [reflexivity |].
    split; [constructor |]. intros t c Hin. apply elem_of_nil in Hin. contradiction.
  - destruct (categorizeOne_run env txn st)
      as (entry & events1 & Hone & Hauto & _ & Hreq1).
    destruct (IH (addTrace st events1)) as (results & events2 & Hrest & Hall & Hreq2).
    exists (entry :: results), (events1 ++ events2).
    split; [| split].
    + simpl. unfold Server.bind at 1. rewrite Hone.
      unfold Server.bind at 1. rewrite Hrest. unfold Server.ret.
      rewrite addTrace_app. reflexivity.
    + constructor; [exact Hauto | exact Hall].
    + intros t c Hin. apply elem_of_app in Hin as [Hin | Hin].
      * destruct (Hreq1 t c Hin) as [-> H]. exact H.
      * exact (Hreq2 t c Hin).
Qed.

Lemma categorizeBatch_authenticated env transactions st :
  authenticated st ->
  Server.categorizeBatch env transactions st
  = match Server.forEachM (Server.categorizeOne env) transactions (warmed env st) with
    | (Server.Returns results, st') =>
      (Server.Returns (Server.json (Server.BatchBody results)), st')
    | (Server.Raises err, st') =>
      (Server.Returns (Server.status_json 500 (Server.ErrorBody err)),
       addTrace st' [Server.ConsoleError ("Batch categorization error: " +:+ err)])
    end.
Proof.
  intros Hauth. unfold authenticated in Hauth.
  unfold Server.categorizeBatch, Server.try_catch, Server.bind, Server.gets,
    Server.ret, warmed.
  rewrite Hauth. simpl.
  destruct (length (Server.State.categories st) =? 0)%nat; simpl;
    destruct (Server.forEachM _ _ _) as [[results | err] st'];
    reflexivity.
Qed.

(** C10, counterexample.  The rule stored without a confidence matches
    the marketplace order, but the rule of confidence 0.6 stored before
    it matches too: [findMatchingRule] returns the earlier rule, the
    single and the batch operation both ask the classifier, and the
    answer is the classifier's, not approved. *)
Lemma later_rule_without_confidence_not_approved :
  Server.ruleMatches
    (Server.searchKey (Server.Transaction.description amazonOrder)
       (Server.Transaction.vendor amazonOrder)) amazonNoConfidence = true
  /\ Server.Rule.confidence amazonNoConfidence = None
  /\ Server.findMatchingRule (Server.State.learnedRules shadowedNoConfidence)
       (Server.Transaction.description amazonOrder)
       (Server.Transaction.vendor amazonOrder)
     = Some (Server.matchOf amazonGuess)
  /\ Server.categorize confidentClassifier amazonOrder shadowedNoConfidence
     = (Server.Returns
          (Server.Response.mk 200
             (Server.CategorizeBody (Some (Server.FromAi softwareGuess)) false)),
        addTrace (warmed confidentClassifier shadowedNoConfidence)
          [Server.ClassifierRequest amazonOrder []])
  /\ fst (Server.categorizeBatch confidentClassifier [amazonOrder]
            shadowedNoConfidence)
     = Server.Returns
         (Server.Response.mk 200
            (Server.BatchBody
               [Server.BatchResult.mk (Some "txn-2")
                  (Some (Server.FromAi softwareGuess)) false])).
Proof. vm_compute. repeat split; reflexivity. Qed.

(** C10, as the code has it.  When the rule that [findMatchingRule]
    matches, the first matching rule in stored order, is stored with
    no confidence, with [null] or with 0, the suggestion reports
    confidence 1.0; the categorize operation then approves it
    automatically and leaves the state untouched, and the batch operation
    answers, at the position of that transaction, with the rule's
    suggestion and [autoApproved = true], without any request to the
    classifier for that transaction. *)
Theorem missing_confidence_auto_approved
    (env : Server.Env.t) (st : Server.State.t)
    (transaction : Server.Transaction.t) (rule : Server.Rule.t)
    (before after : list Server.Transaction.t)
    (Hauth : authenticated st)
    (Hmatch :
       List.find
         (Server.ruleMatches
            (Server.searchKey (Server.Transaction.description transaction)
               (Server.Transaction.vendor transaction)))
         (Server.State.learnedRules st) = Some rule)
    (Hconf : confidenceMissing rule) :
  Server.findMatchingRule (Server.State.learnedRules st)
    (Server.Transaction.description transaction)
    (Server.Transaction.vendor transaction) = Some (Server.matchOf rule)
  /\ Server.RuleMatch.confidence (Server.matchOf rule) = 1%Q
  /\ Server.categorize env transaction st
     = (Server.Returns
          (Server.Response.mk 200
             (Server.CategorizeBody
                (Some (Server.FromRule (Server.matchOf rule))) true)),
        st)
  /\ exists results st' events,
       Server.categorizeBatch env (before ++ transaction :: after) st
       = (Server.Returns (Server.Response.mk 200 (Server.BatchBody results)), st')
       /\ results !! length before
          = Some (Server.BatchResult.mk (Server.Transaction.id transaction)
                    (Some (Server.FromRule (Server.matchOf rule))) true)
       /\ Server.State.trace st' = Server.State.trace st ++ events
       /\ forall categories,
            Server.ClassifierRequest transaction categories ∉ events.
Proof.
  assert (Hfind :
    Server.findMatchingRule (Server.State.learnedRules st)
      (Server.Transaction.description transaction)
      (Server.Transaction.vendor transaction) = Some (Server.matchOf rule)).
  { unfold Server.findMatchingRule. rewrite scanRules_find, Hmatch. reflexivity. }
  assert (Hone : Server.RuleMatch.confidence (Server.matchOf rule) = 1%Q)
    by (apply reportedConfidence_missing, Hconf).
  assert (Happroves : Server.autoApproves (Some (Server.matchOf rule)) = true)
    by (simpl; rewrite (reportedConfidence_missing rule Hconf); reflexivity).
  split; [exact Hfind |]. split; [exact Hone |]. split.
  - apply categorize_auto; [exact Hauth | exact Hfind | exact Happroves].
  - rewrite (categorizeBatch_authenticated env _ st Hauth).
    destruct (warmed_same env st) as (Hrules & Htrace & _).
    destruct (forEachM_categorizeOne env (before ++ transaction :: after)
                (warmed env st)) as (results & events & Hrun & Hall & Hreq).
    rewrite Hrun. exists results, (addTrace (warmed env st) events), events.
    split; [reflexivity |]. split; [| split].
    + destruct (Forall2_lookup_l _ _ _ (length before) transaction Hall)
        as (entry & Hentry & Hauto).
      { apply list_lookup_middle. reflexivity. }
      rewrite Hentry. f_equal. simpl in Hauto. rewrite Hrules, Hfind in Hauto.
      apply Hauto, Happroves.
    + simpl. rewrite Htrace. reflexivity.
    + intros categories Hin. specialize (Hreq _ _ Hin).
      rewrite Hrules, Hfind, Happroves in Hreq. discriminate.
Qed.

(** The theorem at the payout, in a batch after the marketplace order:
    the rule stored without a confidence is approved at confidence 1.0. *)
Lemma missing_confidence_auto_approved_witness :
  Server.RuleMatch.confidence (Server.matchOf affiliateRule) = 1%Q
  /\ exists results st',
       Server.categorizeBatch confidentClassifier [amazonOrder; payout] twoRules
       = (Server.Returns (Server.Response.mk 200 (Server.BatchBody results)), st')
       /\ results !! 1%nat
          = Some (Server.BatchResult.mk (Some "txn-1")
                    (Some (Server.FromRule (Server.matchOf affiliateRule))) true).
Proof.
  destruct (missing_confidence_auto_approved confidentClassifier twoRules payout
              affiliateRule [amazonOrder] [])
    as (_ & Hone & _ & results & st' & events & Hrun & Hentry & _).
  - reflexivity.
  - vm_compute. reflexivity.
  - exact I.
  - split; [exact Hone |]. exists results, st'.
    split; [exact Hrun | exact Hentry].
Defined.

(** ** The monthly report *)

Lemma Row_induction (P : Report.Row -> Prop) :
  (forall summary rows,
     Forall P (default [] rows) -> P (Report.mkRow summary rows)) ->
  forall row, P row.
Proof.
  intros Hrow. fix IH 1. intros [summary rows]. apply Hrow.
  destruct rows as [children |]; simpl; [| constructor].
  induction children as [| child rest IHrest]; constructor;
    [apply IH | exact IHrest].
Qed.

Lemma findInRow_unfold label summary rows :
  Report.findInRow label (Report.mkRow summary rows)
  = if Report.summaryMatches summary label then summary
    else match rows with
         | Some children => Report.findRow children label
         | None => None
         end.
Proof.
  simpl. destruct (Report.summaryMatches summary label); [reflexivity |].
  destruct rows as [children |]; [| reflexivity].
  induction children as [| child rest IH]; simpl; [reflexivity |].
  destruct (Report.findInRow label child); [reflexivity | exact IH].
Qed.

Lemma summaryMatches_some summary label :
  Report.summaryMatches summary label = true -> exists s, summary = Some s.
Proof.
  destruct summary as [s |]; [eauto | discriminate].
Qed.

Lemma findRow_sound_complete_rows label rows :
  Forall (fun row =>
            (forall found, Report.findInRow label row = Some found ->
                           Report.summaryMatches (Some found) label = true)
            /\ (Report.findInRow label row = None <-> ~ hasMatch label row))
         rows ->
  (forall found, Report.findRow rows label = Some found ->
                 Report.summaryMatches (Some found) label = true)
  /\ (Report.findRow rows label = None <->
      forall row, row ∈ rows -> ~ hasMatch label row).
Proof.
  induction 1 as [| row rest [Hs Hc] _ [IHs IHc]]; simpl.
  - split; [discriminate |]. split; [| reflexivity].
    intros _ row Hin. apply elem_of_nil in Hin. contradiction.
  - destruct (Report.findInRow label row) as [found |] eqn:E.
    + split; [intros f [= <-]; apply Hs; reflexivity |].
      split; [discriminate |]. intros Hnone. exfalso.
      assert (Hno : ~ hasMatch label row) by (apply Hnone, list_elem_of_here).
      apply Hc in Hno. discriminate.
    + split; [exact IHs |]. rewrite IHc. split.
      * intros Hrest r Hin. apply elem_of_cons in Hin as [-> | Hin];
          [apply Hc; reflexivity | apply Hrest, Hin].
      * intros Hall r Hin. apply Hall. apply list_elem_of_further, Hin.
Qed.

Lemma findInRow_sound_complete label row :
  (forall found, Report.findInRow label row = Some found ->
                 Report.summaryMatches (Some found) label = true)
  /\ (Report.findInRow label row = None <-> ~ hasMatch label row).
Proof.
  induction row as [summary rows IH] using Row_induction.
  rewrite findInRow_unfold.
  destruct (Report.summaryMatches summary label) eqn:E.
  - destruct (summaryMatches_some _ _ E) as [s ->].
    split; [intros found [= <-]; exact E |].
    split; [discriminate |]. intros Hno. exfalso. apply Hno.
    apply match_here, E.
  - destruct rows as [children |]; simpl in IH.
    + destruct (findRow_sound_complete_rows label children IH) as [Hs Hc].
      split; [exact Hs |]. rewrite Hc. split.
      * intros Hall Hmatch. inversion Hmatch as [? ? Hhere | ? ? r Hin Hr]; subst.
        -- congruence.
        -- exact (Hall r Hin Hr).
      * intros Hno r Hin Hr. apply Hno. eapply match_below; eassumption.
    + split; [discriminate |]. split; [| reflexivity].
      intros _ Hmatch. inversion Hmatch; subst. congruence.
Qed.

(** [findRow] searches the whole tree: it finds nothing exactly when no
    row at any depth has a summary whose first cell contains the label
    (ignoring the case of both), and what it finds is such a summary. *)
Theorem findRow_searches_whole_tree (rows : list Report.Row) (label : string) :
  (forall found, Report.findRow rows label = Some found ->
                 Report.summaryMatches (Some found) label = true)
  /\ (Report.findRow rows label = None <->
      forall row, row ∈ rows -> ~ hasMatch label row).
Proof.
  apply findRow_sound_complete_rows, Forall_forall.
  intros row _. apply findInRow_sound_complete.
Qed.

Lemma months_of_imap (f : nat -> string -> option Report.Month.t) :
  forall names : list string,
    (forall i month,
       match f i month with
       | Some entry => month <> "" /\ Report.Month.month entry = month
       | None => month = ""
       end) ->
    map Report.Month.month (omap id (imap f names))
    = List.filter (fun month => negb (String.eqb month "")) names.
Proof.
  intros names. revert f.
  induction names as [| name rest IH]; intros f Hf; simpl; [reflexivity |].
  specialize (Hf 0%nat name) as Hname.
  destruct (f 0%nat name) as [entry |] eqn:E; simpl.
  - destruct Hname as [Hne <-].
    apply String.eqb_neq in Hne. rewrite Hne. simpl. f_equal.
    apply IH. intros i month. apply Hf.
  - subst name. simpl. apply IH. intros i month. apply Hf.
Qed.

Lemma revenue_of_imap (f : nat -> string -> option Report.Month.t) (P : Report.Month.t -> Prop) :
  forall names : list string,
    (forall i month entry, f i month = Some entry -> P entry) ->
    Forall P (omap id (imap f names)).
Proof.
  intros names Hf. apply Forall_forall. intros entry Hin.
  apply list_elem_of_omap in Hin as (o & Ho & Hsome).
  apply elem_of_lookup_imap_1 in Ho as (i & month & -> & _).
  exact (Hf i month entry Hsome).
Qed.

(** For a report that has rows, [parseMonthlyPL] gives one entry per
    column after the first whose title has a non-empty first word, in
    column order, each with [profit = revenue - expenses]; when no row
    of the tree is labelled "Total Income", every revenue is 0. *)
Theorem monthly_entries_follow_titled_columns
    (parseFloat : string -> option Q) (report : Report.Doc.t)
    (rows : list Report.Row)
    (Hrows : Report.Doc.Rows report = Some rows) :
  let entries := Report.parseMonthlyPL parseFloat (Some report) in
  map Report.Month.month entries
  = titledMonths (default [] (Report.Doc.Columns report))
  /\ Forall (fun entry =>
               Report.Month.profit entry
               = (Report.Month.revenue entry - Report.Month.expenses entry)%Q)
            entries
  /\ ((forall row, row ∈ rows -> ~ hasMatch "Total Income" row) ->
      Forall (fun entry => Report.Month.revenue entry = 0%Q) entries).
Proof.
  intros entries. subst entries. unfold Report.parseMonthlyPL, titledMonths.
  simpl. rewrite Hrows. split; [| split].
  - apply months_of_imap. intros i month.
    destruct (String.eqb month "") eqn:E.
    + apply String.eqb_eq, E.
    + split; [apply String.eqb_neq, E | reflexivity].
  - apply revenue_of_imap. intros i month entry.
    destruct (String.eqb month ""); [discriminate |].
    intros [= <-]. reflexivity.
  - intros Hnone.
    assert (Hall : Forall (fun row =>
              (forall found, Report.findInRow "Total Income" row = Some found ->
                             Report.summaryMatches (Some found) "Total Income" = true)
              /\ (Report.findInRow "Total Income" row = None
                  <-> ~ hasMatch "Total Income" row)) rows)
      by (apply Forall_forall; intros row _; apply findInRow_sound_complete).
    apply (proj2 (findRow_sound_complete_rows "Total Income" rows Hall)) in Hnone.
    rewrite Hnone. apply revenue_of_imap. intros i month entry.
    destruct (String.eqb month ""); [discriminate |].
    intros [= <-]. reflexivity.
Qed.

(** The theorem at a report whose only labelled row, two levels down, is
    "Total Expenses": entries for Jan and Feb, revenue 0. *)
Lemma monthly_entries_follow_titled_columns_witness :
  map Report.Month.month (Report.parseMonthlyPL parsesNothing (Some expensesOnly))
  = ["Jan"; "Feb"].
Proof.
  destruct (monthly_entries_follow_titled_columns parsesNothing expensesOnly
              (default [] (Report.Doc.Rows expensesOnly))) as (Hmonths & _).
  - reflexivity.
  - exact Hmonths.
Defined.

(** ** Pages of a ledger query *)

Lemma fetchLoop_skip {R : Type} (query : Z -> option (list R)) :
  forall (pages : list (list R)) (fuel : nat) (startPosition : Z)
         (allRecords : list R),
    Forall fullPage pages ->
    (forall i page, pages !! i = Some page ->
       query (startPosition + Ledger.maxResults * Z.of_nat i)%Z = Some page) ->
    (startPosition + Ledger.maxResults * Z.of_nat (length pages) <= 10000)%Z ->
    Ledger.fetchLoop (length pages + fuel) query startPosition allRecords
    = Ledger.fetchLoop fuel query
        (startPosition + Ledger.maxResults * Z.of_nat (length pages))%Z
        (allRecords ++ concat pages).
Proof.
  unfold fullPage, Ledger.maxResults.
  induction pages as [| page pages IH];
    intros fuel startPosition allRecords Hfull Hpages Hbound.
  - simpl. rewrite Z.add_0_r, app_nil_r. reflexivity.
  - inversion Hfull as [| ? ? Hpage Hrest]; subst.
    pose proof (Hpages 0%nat page eq_refl) as H0.
    simpl in H0. rewrite Z.add_0_r in H0.
    simpl length in *. simpl Ledger.fetchLoop. rewrite H0.
    unfold Ledger.maxResults.
    destruct (Z.of_nat (length page) <? 1000)%Z eqn:E1;
      [apply Z.ltb_lt in E1; lia |].
    simpl negb. cbv iota.
    destruct (10000 <? startPosition + 1000)%Z eqn:E2;
      [apply Z.ltb_lt in E2; lia |].
    simpl andb. cbv iota.
    rewrite (IH fuel (startPosition + 1000)%Z (allRecords ++ page)).
    + simpl. rewrite <- app_assoc. f_equal. lia.
    + exact Hrest.
    + intros i p Hi. specialize (Hpages (S i) p Hi).
      rewrite <- Hpages. f_equal. lia.
    + lia.
Qed.

(** A page with fewer than 1000 records ends the loop: after [pages]
    full pages and one short page, [fetchAllRecords] returns all of them
    in order and asks for nothing beyond. *)
Theorem fetch_ends_at_short_page {R : Type}
    (query : Z -> option (list R)) (pages : list (list R)) (lastPage : list R)
    (Hcount : (length pages <= 9)%nat)
    (Hfull : Forall fullPage pages)
    (Hpages : forall i page, pages !! i = Some page ->
                query (pageStart i) = Some page)
    (Hlast : query (pageStart (length pages)) = Some lastPage)
    (Hshort : shortPage lastPage) :
  Ledger.fetchAllRecords query = concat pages ++ lastPage.
Proof.
  unfold Ledger.fetchAllRecords, pageStart, shortPage in *.
  replace 10%nat with (length pages + S (9 - length pages))%nat by lia.
  rewrite (fetchLoop_skip query pages); try assumption;
    [| unfold Ledger.maxResults; lia].
  simpl Ledger.fetchLoop. rewrite Hlast.
  apply Z.ltb_lt in Hshort. rewrite Hshort. simpl. reflexivity.
Qed.

Lemma fetch_ends_at_short_page_witness :
  length (Ledger.fetchAllRecords twoPages) = 1003%nat.
Proof.
  rewrite (fetch_ends_at_short_page twoPages [replicate 1000 tt] [tt; tt; tt]).
  - vm_compute. reflexivity.
  - simpl. lia.
  - repeat constructor. unfold fullPage. vm_compute. discriminate.
  - intros i page Hi. destruct i; [| discriminate Hi].
    injection Hi as <-. reflexivity.
  - reflexivity.
  - unfold shortPage. vm_compute. reflexivity.
Defined.

(** After ten full pages the loop stops whatever the ledger still holds:
    the result is exactly the first ten pages, and records from position
    10001 on are never asked for. *)
Theorem fetch_stops_after_ten_pages {R : Type}
    (query : Z -> option (list R)) (pages : list (list R))
    (Hcount : length pages = 10%nat)
    (Hfull : Forall fullPage pages)
    (Hpages : forall i page, pages !! i = Some page ->
                query (pageStart i) = Some page) :
  Ledger.fetchAllRecords query = concat pages.
Proof.
  unfold Ledger.fetchAllRecords, pageStart in *.
  destruct (lookup_lt_is_Some_2 pages 9) as [lastPage Hlast]; [lia |].
  pose proof (take_drop_middle pages 9 lastPage Hlast) as Hsplit.
  assert (Hlen : length (take 9 pages) = 9%nat) by (rewrite length_take; lia).
  assert (Hdrop : drop 10 pages = []) by (apply drop_ge; lia).
  simpl in Hsplit. rewrite Hdrop in Hsplit.
  rewrite <- Hsplit in Hfull. apply Forall_app in Hfull as [Hfirst Hten].
  inversion Hten as [| ? ? Hfulllast _]; subst.
  change 10%nat with (9 + 1)%nat. rewrite <- Hlen at 1.
  rewrite (fetchLoop_skip query (take 9 pages)).
  - rewrite Hlen. simpl Ledger.fetchLoop.
    rewrite (Hpages 9%nat lastPage Hlast).
    unfold fullPage, Ledger.maxResults in *.
    destruct (Z.of_nat (length lastPage) <? 1000)%Z eqn:E;
      [apply Z.ltb_lt in E; lia |].
    simpl. rewrite <- Hsplit at 2. rewrite concat_app. simpl.
    rewrite app_nil_r. reflexivity.
  - exact Hfirst.
  - intros i page Hi. apply Hpages.
    rewrite lookup_take_Some in Hi. apply Hi.
  - rewrite Hlen. unfold Ledger.maxResults. lia.
Qed.

Lemma fetch_stops_after_ten_pages_witness :
  Z.of_nat (length (Ledger.fetchAllRecords endlessLedger)) = 10000%Z.
Proof.
  rewrite (fetch_stops_after_ten_pages endlessLedger
             (replicate 10 (replicate 1000 tt))).
  - vm_compute. reflexivity.
  - reflexivity.
  - apply Forall_replicate. unfold fullPage. vm_compute. discriminate.
  - intros i page Hi. apply lookup_replicate in Hi as [-> _]. reflexivity.
Defined.

(** ** More on Purchases and Bills *)

Lemma bill_detail_agrees_accountBased lines :
  Forall (agrees Ledger.billLineDetail accountBased) lines.
Proof.
  apply Forall_forall. intros line _.
  unfold agrees, Ledger.billLineDetail, accountBased.
  destruct (Ledger.ExpenseLine.AccountBasedExpenseLineDetail line);
    [split; reflexivity | reflexivity].
Qed.

(** A purchase is never dropped: it yields one transaction per
    qualifying line, and when no line qualifies one transaction for the
    whole record, built from [TotalAmt], categorised "Uncategorized" and
    flagged for review.  A bill yields one transaction per line with an
    account-based detail, hence none when it has no such line. *)
Theorem purchase_never_dropped
    (vendorMap : gmap string string)
    (accountMap : gmap string Ledger.AccountInfo.t)
    (p : Ledger.Purchase.t) (b : Ledger.Bill.t) :
  length (Ledger.processPurchase vendorMap accountMap p)
  = Nat.max 1 (length (qualifyingLines (Ledger.Purchase.Line p)))
  /\ (qualifyingLines (Ledger.Purchase.Line p) = [] ->
      exists txn,
        Ledger.processPurchase vendorMap accountMap p = [txn]
        /\ Ledger.Txn.id txn = "purchase-" +:+ Ledger.Purchase.Id p
        /\ Ledger.Txn.category txn = "Uncategorized"
        /\ Ledger.Txn.needsReview txn = true
        /\ Ledger.Txn.amount txn = Js.neg_abs (Ledger.Purchase.TotalAmt p))
  /\ length (Ledger.processBill vendorMap b)
     = length (List.filter accountBased (default [] (Ledger.Bill.Line b))).
Proof.
  pose proof (kept_length _ qualifyingLine (default [] (Ledger.Purchase.Line p))
                (purchase_detail_agrees accountMap _)) as Hp.
  pose proof (kept_length _ accountBased (default [] (Ledger.Bill.Line b))
                (bill_detail_agrees_accountBased _)) as Hb.
  unfold qualifyingLines. split; [| split].
  - unfold Ledger.processPurchase.
    destruct (0 <? length (omap _ _))%nat eqn:E.
    + apply Nat.ltb_lt in E. rewrite length_imap, Hp in *. lia.
    + apply Nat.ltb_ge in E. rewrite Hp in E. simpl. lia.
  - intros Hnone. unfold Ledger.processPurchase.
    rewrite Hp, Hnone. simpl. eexists. repeat split; reflexivity.
  - unfold Ledger.processBill.
    destruct (0 <? length (omap _ _))%nat eqn:E.
    + rewrite length_imap. exact Hb.
    + apply Nat.ltb_ge in E. rewrite Hb in E. simpl. lia.
Qed.

Lemma isUncategorized_or_str category :
  Ledger.isUncategorized (Ledger.or_str category "Uncategorized")
  = Ledger.isUncategorized category.
Proof.
  unfold Ledger.or_str, Js.or_else.
  destruct (String.eqb category "") eqn:E; [| reflexivity].
  apply String.eqb_eq in E. subst category. reflexivity.
Qed.

(** A Purchase or Bill transaction is flagged for review exactly when
    the category it ends up with is empty or contains, ignoring case,
    "uncategorized", "ask my accountant" or "undeposited". *)
Theorem review_flag_follows_category
    (vendorMap : gmap string string)
    (accountMap : gmap string Ledger.AccountInfo.t) :
  (forall p txn,
     txn ∈ Ledger.processPurchase vendorMap accountMap p ->
     Ledger.Txn.needsReview txn = Ledger.isUncategorized (Ledger.Txn.category txn))
  /\ (forall b txn,
        txn ∈ Ledger.processBill vendorMap b ->
        Ledger.Txn.needsReview txn = Ledger.isUncategorized (Ledger.Txn.category txn)).
Proof.
  split.
  - intros p txn. unfold Ledger.processPurchase.
    destruct (0 <? length (omap _ _))%nat.
    + intros Hin. apply elem_of_lookup_imap_1 in Hin as (i & line & -> & _).
      simpl. rewrite isUncategorized_or_str. reflexivity.
    + intros Hin. apply list_elem_of_singleton in Hin. subst txn. reflexivity.
  - intros b txn. unfold Ledger.processBill.
    destruct (0 <? length (omap _ _))%nat.
    + intros Hin. apply elem_of_lookup_imap_1 in Hin as (i & line & -> & _).
      simpl. rewrite isUncategorized_or_str. reflexivity.
    + intros Hin. apply elem_of_nil in Hin. contradiction.
Qed.

(** ** Identifiers of the transactions of one record *)

Section IndexedIds.

Context {A : Type}.
Variable mkId : nat -> string.
Hypothesis mkId_inj : forall i j, mkId i = mkId j -> i = j.

Lemma indexed_ids_from (xs : list A) :
  forall (emit : nat -> A -> option Ledger.Txn.t) (k : nat),
    (forall i x txn, emit i x = Some txn ->
       Ledger.Txn.id txn = mkId (k + i)%nat) ->
    NoDup (map Ledger.Txn.id (omap id (imap emit xs)))
    /\ forall txn, txn ∈ omap id (imap emit xs) ->
         exists j, (k <= j)%nat /\ Ledger.Txn.id txn = mkId j.
Proof.
  induction xs as [| x rest IH]; intros emit k Hemit; simpl.
  - split; [constructor |]. intros txn Hin. apply elem_of_nil in Hin. contradiction.
  - destruct (IH (emit ∘ S) (S k)) as [Hnodup Hids].
    { intros i y txn Hy. rewrite (Hemit (S i) y txn Hy). f_equal. lia. }
    destruct (emit 0%nat x) as [txn0 |] eqn:E; simpl.
    + pose proof (Hemit 0%nat x txn0 E) as Hid0. rewrite Nat.add_0_r in Hid0.
      split.
      * apply NoDup_cons. split; [| exact Hnodup].
        intros Hin. apply list_elem_of_fmap in Hin as (txn & Hid & Hin).
        destruct (Hids txn Hin) as (j & Hj & Hidj).
        rewrite Hid0, Hidj in Hid. apply mkId_inj in Hid. lia.
      * intros txn Hin. apply elem_of_cons in Hin as [-> | Hin].
        -- exists k. split; [lia | exact Hid0].
        -- destruct (Hids txn Hin) as (j & Hj & Hidj). exists j. split; [lia | exact Hidj].
    + split; [exact Hnodup |].
      intros txn Hin. destruct (Hids txn Hin) as (j & Hj & Hidj).
      exists j. split; [lia | exact Hidj].
Qed.

Lemma indexed_ids_distinct (xs : list A) (emit : nat -> A -> Ledger.Txn.t) :
  (forall i x, Ledger.Txn.id (emit i x) = mkId i) ->
  NoDup (map Ledger.Txn.id (imap emit xs)).
Proof.
  intros Hemit.
  assert (Hsame : forall (ys : list A) (f : nat -> A -> Ledger.Txn.t),
            omap id (imap (fun i y => Some (f i y)) ys) = imap f ys).
  { induction ys as [| y ys IHys]; intros f; simpl; [reflexivity |].
    f_equal. apply IHys. }
  rewrite <- Hsame.
  apply (indexed_ids_from xs (fun i x => Some (emit i x)) 0).
  intros i x txn [= <-]. apply Hemit.
Qed.

End IndexedIds.

Lemma line_id_inj (kind qbId : string) (i j : nat) :
  kind +:+ qbId +:+ "-" +:+ pretty i = kind +:+ qbId +:+ "-" +:+ pretty j ->
  i = j.
Proof.
  intros H.
  apply (String.app_inj kind), (String.app_inj qbId), (String.app_inj "-") in H.
  exact (pretty_nat_inj _ _ H).
Qed.

(** The transactions that one Purchase, Bill, JournalEntry or Deposit
    record yields carry pairwise distinct identifiers. *)
Theorem record_transaction_ids_distinct
    (vendorMap : gmap string string)
    (accountMap : gmap string Ledger.AccountInfo.t)
    (p : Ledger.Purchase.t) (b : Ledger.Bill.t) (je : Ledger.JournalEntry.t)
    (d : Ledger.Deposit.t) :
  NoDup (map Ledger.Txn.id (Ledger.processPurchase vendorMap accountMap p))
  /\ NoDup (map Ledger.Txn.id (Ledger.processBill vendorMap b))
  /\ NoDup (map Ledger.Txn.id (Ledger.processJournalEntry accountMap je))
  /\ NoDup (map Ledger.Txn.id (Ledger.processDeposit d)).
Proof.
  split; [| split; [| split]].
  - unfold Ledger.processPurchase.
    destruct (0 <? length (omap _ _))%nat.
    + apply (indexed_ids_distinct
               (fun i => "purchase-" +:+ Ledger.Purchase.Id p +:+ "-" +:+ pretty i)
               (line_id_inj _ _)).
      reflexivity.
    + apply NoDup_singleton.
  - unfold Ledger.processBill.
    destruct (0 <? length (omap _ _))%nat.
    + apply (indexed_ids_distinct
               (fun i => "bill-" +:+ Ledger.Bill.Id b +:+ "-" +:+ pretty i)
               (line_id_inj _ _)).
      reflexivity.
    + constructor.
  - unfold Ledger.processJournalEntry.
    apply (indexed_ids_from
             (fun i => "journal-" +:+ Ledger.JournalEntry.Id je +:+ "-" +:+ pretty i)
             (line_id_inj _ _) _ (Ledger.journalLine accountMap je) 0).
    intros i line txn Hemit. exact (journalLine_id _ _ _ _ _ Hemit).
  - unfold Ledger.processDeposit.
    destruct (0 <? length (omap _ _))%nat.
    + apply (indexed_ids_distinct
               (fun i => "deposit-" +:+ Ledger.Deposit.Id d +:+ "-" +:+ pretty i)
               (line_id_inj _ _)).
      intros i [[description customer] amount]. reflexivity.
    + apply NoDup_singleton.
Qed.

(** ** Signs of journal-entry transactions *)

Lemma expense_type_not_income acctType :
  Js.array_includes Ledger.expenseTypes acctType = true ->
  Js.array_includes Ledger.incomeTypes acctType = false.
Proof.
  unfold Js.array_includes, Ledger.expenseTypes. simpl.
  rewrite !orb_true_iff.
  intros [H | [H | [H | H]]]; try discriminate;
    apply String.eqb_eq in H; subst acctType; reflexivity.
Qed.

Lemma debit_not_credit posting :
  Ledger.str_is posting "Debit" = true -> Ledger.str_is posting "Credit" = false.
Proof.
  destruct posting as [p |]; simpl; [| discriminate].
  intros H. apply String.eqb_eq in H. subst p. reflexivity.
Qed.

Lemma abs_positive x : ~ (x == 0)%Q -> (0 < Qabs x)%Q.
Proof. apply Qabs_case; intros H Hne; lra. Qed.

(** An emitted journal-entry transaction is never zero and keeps the
    magnitude of its line; it is negative for a Debit line and positive
    for a Credit line, whatever the account type; it is never flagged for
    review; and its kind is [income] exactly for the Income and Other
    Income account types. *)
Theorem journal_transaction_signs
    (accountMap : gmap string Ledger.AccountInfo.t)
    (je : Ledger.JournalEntry.t) (idx : nat) (line : Ledger.JournalLine.t)
    (detail : Ledger.JournalDetail.t) (txn : Ledger.Txn.t)
    (Hdetail : Ledger.JournalLine.JournalEntryLineDetail line = Some detail)
    (Hemit : Ledger.journalLine accountMap je idx line = Some txn) :
  ~ (Ledger.Txn.amount txn == 0)%Q
  /\ (Qabs (Ledger.Txn.amount txn)
      == Qabs (default 0%Q (Ledger.JournalLine.Amount line)))%Q
  /\ (Ledger.str_is (Ledger.JournalDetail.PostingType detail) "Debit" = true ->
      (Ledger.Txn.amount txn < 0)%Q)
  /\ (Ledger.str_is (Ledger.JournalDetail.PostingType detail) "Credit" = true ->
      (0 < Ledger.Txn.amount txn)%Q)
  /\ Ledger.Txn.needsReview txn = false
  /\ (Ledger.Txn.type txn = income <->
      Js.array_includes Ledger.incomeTypes
        (Ledger.journalAcctType accountMap detail) = true).
Proof.
  revert Hemit. unfold Ledger.journalLine. rewrite Hdetail.
  set (amount := default 0%Q (Ledger.JournalLine.Amount line)).
  set (acctType := Ledger.journalAcctType accountMap detail).
  set (posting := Ledger.JournalDetail.PostingType detail).
  destruct (Qeq_bool amount 0) eqn:Ezero; [discriminate |].
  apply Qeq_bool_neq in Ezero.
  pose proof (abs_positive amount Ezero) as Hpos.
  assert (Hneg : (Js.neg_abs amount < 0)%Q) by (unfold Js.neg_abs; lra).
  assert (Hmag : forall x, x = Js.neg_abs amount \/ x = Qabs amount ->
                   ~ (x == 0)%Q /\ (Qabs x == Qabs amount)%Q).
  { intros x [-> | ->]; unfold Js.neg_abs; split.
    - intros H. lra.
    - rewrite Qabs_opp. apply Qabs_pos. lra.
    - intros H. lra.
    - apply Qabs_pos. lra. }
  assert (Hdc : Ledger.str_is posting "Debit" = true ->
                Ledger.str_is posting "Credit" = true -> False).
  { intros Hd Hc. rewrite (debit_not_credit posting Hd) in Hc. discriminate. }
  unfold Ledger.journalPosting.
  destruct (Js.array_includes Ledger.expenseTypes acctType) eqn:Eexp;
    [pose proof (expense_type_not_income _ Eexp) as Einc
    | destruct (Js.array_includes Ledger.incomeTypes acctType) eqn:Einc];
    destruct (Ledger.str_is posting "Debit") eqn:Ed;
    destruct (Ledger.str_is posting "Credit") eqn:Ec;
    try (exfalso; apply Hdc; reflexivity);
    try destruct (Js.array_includes Ledger.balanceSheetTypes acctType);
    try discriminate;
    intros [= <-];
    cbn [Ledger.Txn.amount Ledger.Txn.type Ledger.Txn.needsReview];
    (split; [| split; [| split; [| split; [| split; [| split]]]]]);
    intros;
    solve [ apply Hmag; auto
          | assumption | reflexivity | discriminate | congruence ].
Qed.

Lemma journal_transaction_signs_witness :
  (Ledger.Txn.amount wagesTxn < 0)%Q.
Proof.
  destruct (journal_transaction_signs chart wagesEntry 0
              (journalDebit "80" "Contract Labor" 1200)
              (Ledger.JournalDetail.mk
                 (Some (Ledger.Ref.mk (Some "80") (Some "Contract Labor")))
                 (Some "Debit"))
              wagesTxn eq_refl) as (_ & _ & Hdebit & _).
  - vm_compute. reflexivity.
  - apply Hdebit. reflexivity.
Defined.

(** ** The lookup maps *)

Section KeyedMap.

Context {A V : Type}.
Variable key : A -> string.
Variable val : A -> V.

Lemma keyed_map_absent (xs : list A) :
  forall (m : gmap string V) (k : string),
    k ∉ map key xs ->
    foldl (fun m x => <[key x := val x]> m) m xs !! k = m !! k.
Proof.
  induction xs as [| x rest IH]; intros m k Hnot; simpl; [reflexivity |].
  simpl in Hnot. apply not_elem_of_cons in Hnot as [Hx Hrest].
  rewrite IH by exact Hrest. apply lookup_insert_ne. congruence.
Qed.

Lemma keyed_map_last (before after : list A) (a : A) (m : gmap string V) :
  key a ∉ map key after ->
  foldl (fun m x => <[key x := val x]> m) m (before ++ a :: after) !! key a
  = Some (val a).
Proof.
  intros Hnot. rewrite foldl_app. simpl.
  rewrite keyed_map_absent by exact Hnot. apply lookup_insert_eq.
Qed.

End KeyedMap.

(** The account map and the vendor map hold an entry exactly for the
    identifiers of the fetched records, and when an identifier occurs
    more than once the last record wins. *)
Theorem lookup_maps_keep_last_record
    (accounts : list Ledger.Account.t) (vendors : list Ledger.Vendor.t) :
  (forall k, k ∉ map Ledger.Account.Id accounts ->
             Ledger.buildAccountMap accounts !! k = None)
  /\ (forall before a after,
        accounts = before ++ a :: after ->
        Ledger.Account.Id a ∉ map Ledger.Account.Id after ->
        Ledger.buildAccountMap accounts !! Ledger.Account.Id a
        = Some (accountInfo a))
  /\ (forall k, k ∉ map Ledger.Vendor.Id vendors ->
                Ledger.buildVendorMap vendors !! k = None)
  /\ (forall before v after,
        vendors = before ++ v :: after ->
        Ledger.Vendor.Id v ∉ map Ledger.Vendor.Id after ->
        Ledger.buildVendorMap vendors !! Ledger.Vendor.Id v
        = Some (vendorName v)).
Proof.
  unfold Ledger.buildAccountMap, Ledger.buildVendorMap.
  split; [| split; [| split]].
  - intros k Hk.
    rewrite (keyed_map_absent Ledger.Account.Id accountInfo accounts ∅ k Hk).
    apply lookup_empty.
  - intros before a after -> Hlast.
    exact (keyed_map_last Ledger.Account.Id accountInfo before after a ∅ Hlast).
  - intros k Hk.
    rewrite (keyed_map_absent Ledger.Vendor.Id vendorName vendors ∅ k Hk).
    apply lookup_empty.
  - intros before v after -> Hlast.
    exact (keyed_map_last Ledger.Vendor.Id vendorName before after v ∅ Hlast).
Qed.

(** ** Counts by source *)

Lemma sourceCounts_snoc transactions t :
  Ledger.sourceCounts (transactions ++ [t])
  = <[Ledger.Txn.source t :=
        S (default 0%nat (Ledger.sourceCounts transactions !! Ledger.Txn.source t))]>
      (Ledger.sourceCounts transactions).
Proof. unfold Ledger.sourceCounts. rewrite foldl_snoc. reflexivity. Qed.

(** [debug.sources] maps each source tag that occurs to the number of
    transactions that carry it, and has no entry for a tag that does not
    occur. *)
Theorem source_counts_count (transactions : list Ledger.Txn.t) (source : string) :
  Ledger.sourceCounts transactions !! source
  = if (countSource source transactions =? 0)%nat then None
    else Some (countSource source transactions).
Proof.
  unfold countSource.
  induction transactions as [| t rest IH] using rev_ind; [reflexivity |].
  rewrite sourceCounts_snoc, List.filter_app, length_app. simpl.
  destruct (String.eqb (Ledger.Txn.source t) source) eqn:E.
  - apply String.eqb_eq in E. subst source. rewrite lookup_insert_eq, IH.
    simpl. rewrite Nat.add_1_r. simpl.
    destruct (length _ =? 0)%nat eqn:E0.
    + apply Nat.eqb_eq in E0. rewrite E0. reflexivity.
    + reflexivity.
  - apply String.eqb_neq in E. rewrite lookup_insert_ne by exact E.
    simpl. rewrite Nat.add_0_r. exact IH.
Qed.

(** ** The review queue and the signs of the run *)


Lemma deposit_income d :
  Forall (fun t => Ledger.Txn.needsReview t = false
                   /\ Ledger.Txn.type t = income
                   /\ Ledger.Txn.source t = "Deposit"
                   /\ (0 <= Ledger.Txn.amount t)%Q)
         (Ledger.processDeposit d).
Proof.
  unfold Ledger.processDeposit.
  destruct (0 <? length (omap _ _))%nat.
  - apply Forall_forall. intros txn Hin.
    apply elem_of_lookup_imap_1 in Hin as (i & [[description customer] amount] & -> & _).
    simpl. repeat split. apply Qabs_nonneg.
  - repeat constructor. apply Qabs_nonneg.
Qed.


Section DateSort.

Variable dateValue : string -> Z.

Lemma insertByDate_Forall (P : Ledger.Txn.t -> Prop) t sorted :
  P t -> Forall P sorted -> Forall P (Ledger.insertByDate dateValue t sorted).
Proof.
  intros Ht. induction 1 as [| u rest Hu Hrest IH]; simpl.
  - repeat constructor. exact Ht.
  - destruct (_ <? _)%Z; repeat constructor; assumption.
Qed.

Lemma sortByDate_Forall (P : Ledger.Txn.t -> Prop) transactions :
  Forall P transactions -> Forall P (Ledger.sortByDate dateValue transactions).
Proof.
  unfold Ledger.sortByDate.
  induction 1 as [| t rest Ht _ IH]; simpl; [constructor |].
  apply insertByDate_Forall; assumption.
Qed.






End DateSort.


Lemma journalPosting_amount acctType posting amount txnType txnAmount :
  Ledger.journalPosting acctType posting amount = Some (txnType, txnAmount) ->
  txnAmount = Js.neg_abs amount \/ txnAmount = Qabs amount.
Proof.
  unfold Ledger.journalPosting.
  repeat match goal with
         | |- context [if ?b then _ else _] => destruct b
         end; intros [= <- <-]; auto.
Qed.

Lemma journalLine_nonzero accountMap je idx line txn :
  Ledger.journalLine accountMap je idx line = Some txn ->
  Ledger.Txn.source txn = "JournalEntry" /\ ~ (Ledger.Txn.amount txn == 0)%Q.
Proof.
  unfold Ledger.journalLine.
  destruct (Ledger.JournalLine.JournalEntryLineDetail line) as [detail |];
    [| discriminate].
  destruct (Qeq_bool _ 0) eqn:Ezero; [discriminate |].
  apply Qeq_bool_neq in Ezero. apply abs_positive in Ezero.
  destruct (Ledger.journalPosting _ _ _) as [[txnType txnAmount] |] eqn:E;
    [| discriminate].
  apply journalPosting_amount in E.
  intros [= <-]. simpl. split; [reflexivity |].
  destruct E as [-> | ->]; unfold Js.neg_abs; intros H; lra.
Qed.

(** Every transaction of a run has the sign that its source allows:
    purchases, bills and refunds are expenses that are never positive;
    deposits, sales receipts and payments are income that is never
    negative; vendor credits are expenses that are never negative;
    journal entries are never zero. *)
Theorem run_signs_by_source
    (dateValue : string -> Z) (upstream : Ledger.Upstream) :
  exists result,
    Ledger.fetchFinancialData dateValue (Some tt) upstream = Some result
    /\ Forall signBySource (Ledger.Result.transactions result).
Proof.
  eexists. split; [reflexivity |].
  cbn [Ledger.Result.transactions]. apply sortByDate_Forall.
  repeat rewrite Forall_app. repeat split.
  - apply Forall_bind, Forall_forall. intros p _. apply Forall_forall.
    intros t. unfold Ledger.processPurchase.
    destruct (0 <? length (omap _ _))%nat; intros Hin.
    + apply elem_of_lookup_imap_1 in Hin as (i & line & -> & _).
      left. simpl. split; [set_solver |]. split; [reflexivity | apply neg_abs_nonpos].
    + apply list_elem_of_singleton in Hin. subst t.
      left. simpl. split; [set_solver |]. split; [reflexivity | apply neg_abs_nonpos].
  - apply Forall_bind, Forall_forall. intros b _. apply Forall_forall.
    intros t. unfold Ledger.processBill.
    destruct (0 <? length (omap _ _))%nat; intros Hin.
    + apply elem_of_lookup_imap_1 in Hin as (i & line & -> & _).
      left. simpl. split; [set_solver |]. split; [reflexivity | apply neg_abs_nonpos].
    + apply elem_of_nil in Hin. contradiction.
  - apply Forall_bind, Forall_forall. intros je _. apply Forall_forall.
    intros t Hin.
    apply processJournalEntry_from_line in Hin as (idx & line & _ & Hemit).
    right. right. right. exact (journalLine_nonzero _ _ _ _ _ Hemit).
  - apply Forall_bind, Forall_forall. intros d _.
    eapply Forall_impl; [apply deposit_income |].
    intros t (_ & Htype & Hsource & Hamount).
    right. left. rewrite Hsource. split; [set_solver |]. split; assumption.
  - apply Forall_forall. intros t Hin.
    apply list_elem_of_fmap in Hin as (r & -> & _).
    right. left. simpl. split; [set_solver |]. split; [reflexivity | apply Qabs_nonneg].
  - apply Forall_forall. intros t Hin.
    apply list_elem_of_fmap in Hin as (r & -> & _).
    right. left. simpl. split; [set_solver |]. split; [reflexivity | apply Qabs_nonneg].
  - apply Forall_forall. intros t Hin.
    apply list_elem_of_fmap in Hin as (r & -> & _).
    left. simpl. split; [set_solver |]. split; [reflexivity | apply neg_abs_nonpos].
  - apply Forall_forall. intros t Hin.
    apply list_elem_of_fmap in Hin as (r & -> & _).
    right. right. left. simpl. split; [reflexivity |].
    split; [reflexivity | apply Qabs_nonneg].
Qed.

(** ** The category resolver, continued *)

(** Without an access token both categorize operations answer 401 and
    leave the state as it was: no rule is read, the category cache is
    not filled and the classifier is not asked. *)
Theorem unauthenticated_categorize_changes_nothing
    (env : Server.Env.t) (st : Server.State.t)
    (transaction : Server.Transaction.t)
    (transactions : list Server.Transaction.t) :
  Js.truthy (Server.State.access_token st) = false ->
  Server.categorize env transaction st
  = (Server.Returns (Server.Response.mk 401 (Server.ErrorBody "Not authenticated")),
     st)
  /\ Server.categorizeBatch env transactions st
     = (Server.Returns (Server.Response.mk 401 (Server.ErrorBody "Not authenticated")),
        st).
Proof.
  intros Hno.
  unfold Server.categorize, Server.categorizeBatch, Server.try_catch,
    Server.bind, Server.gets, Server.ret.
  rewrite Hno. split; reflexivity.
Qed.

Lemma unauthenticated_categorize_changes_nothing_witness :
  Server.categorize confidentClassifier amazonOrder signedOut
  = (Server.Returns (Server.Response.mk 401 (Server.ErrorBody "Not authenticated")),
     signedOut)
  /\ Server.categorizeBatch confidentClassifier [amazonOrder; payout] signedOut
     = (Server.Returns (Server.Response.mk 401 (Server.ErrorBody "Not authenticated")),
        signedOut).
Proof.
  apply (unauthenticated_categorize_changes_nothing confidentClassifier signedOut
           amazonOrder [amazonOrder; payout]).
  reflexivity.
Defined.

Lemma categorizeOne_entry env txn st :
  let ruleMatch :=
    Server.findMatchingRule (Server.State.learnedRules st)
      (Server.Transaction.description txn) (Server.Transaction.vendor txn) in
  exists suggestion events,
    Server.categorizeOne env txn st
    = (Server.Returns
         (Server.BatchResult.mk (Server.Transaction.id txn) suggestion
            (Server.autoApproves ruleMatch)),
       addTrace st events).
Proof.
  intros ruleMatch.
  unfold Server.categorizeOne, Server.bind, Server.gets, Server.ret.
  fold ruleMatch.
  destruct (Server.autoApproves ruleMatch) eqn:E.
  - eexists. exists []. rewrite addTrace_nil. reflexivity.
  - destruct (aiCategorize_run env txn (Server.State.categories st) st)
      as (events & Hai & _ & _).
    rewrite Hai. eexists. exists events. reflexivity.
Qed.

Lemma forEachM_entries env :
  forall (transactions : list Server.Transaction.t) (st : Server.State.t),
  exists results events,
    Server.forEachM (Server.categorizeOne env) transactions st
    = (Server.Returns results, addTrace st events)
    /\ Forall2
         (fun txn entry =>
            Server.BatchResult.transactionId entry = Server.Transaction.id txn
            /\ Server.BatchResult.autoApproved entry
               = Server.autoApproves
                   (Server.findMatchingRule (Server.State.learnedRules st)
                      (Server.Transaction.description txn)
                      (Server.Transaction.vendor txn)))
         transactions results.
Proof.
  induction transactions as [| txn rest IH]; intros st.
  - exists [], []. rewrite addTrace_nil. split; [reflexivity | constructor].
  - destruct (categorizeOne_entry env txn st) as (suggestion & events1 & Hone).
    destruct (IH (addTrace st events1)) as (results & events2 & Hrest & Hall).
    eexists (_ :: results), (events1 ++ events2).
    split.
    + simpl. unfold Server.bind at 1. rewrite Hone.
      unfold Server.bind at 1. rewrite Hrest. unfold Server.ret.
      rewrite addTrace_app. reflexivity.
    + constructor; [split; reflexivity | exact Hall].
Qed.

(** An authenticated batch request is always answered with status 200
    and one entry per transaction, in the order of the request: each
    entry carries the id of its transaction and is approved exactly when
    the rule store approves that transaction.  A failure of the
    classifier never fails the batch, and the rule store is not changed. *)
Theorem batch_answers_every_transaction
    (env : Server.Env.t) (st : Server.State.t)
    (transactions : list Server.Transaction.t) :
  authenticated st ->
  exists results st',
    Server.categorizeBatch env transactions st
    = (Server.Returns (Server.Response.mk 200 (Server.BatchBody results)), st')
    /\ map Server.BatchResult.transactionId results
       = map Server.Transaction.id transactions
    /\ map Server.BatchResult.autoApproved results
       = map (fun txn =>
                Server.autoApproves
                  (Server.findMatchingRule (Server.State.learnedRules st)
                     (Server.Transaction.description txn)
                     (Server.Transaction.vendor txn)))
             transactions
    /\ Server.State.learnedRules st' = Server.State.learnedRules st.
Proof.
  intros Hauth.
  rewrite (categorizeBatch_authenticated env transactions st Hauth).
  destruct (forEachM_entries env transactions (warmed env st))
    as (results & events & Hrun & Hall).
  destruct (warmed_same env st) as (Hrules & _ & _).
  rewrite Hrun. exists results, (addTrace (warmed env st) events).
  split; [reflexivity |].
  rewrite Hrules in Hall. clear Hrun.
  split; [| split; [| exact Hrules]].
  - induction Hall as [| txn entry rest results' [Hid _] _ IH]; simpl;
      [reflexivity | rewrite Hid, IH; reflexivity].
  - induction Hall as [| txn entry rest results' [_ Hauto] _ IH]; simpl;
      [reflexivity | rewrite Hauto, IH; reflexivity].
Qed.

Lemma batch_answers_every_transaction_witness :
  exists results st',
    Server.categorizeBatch confidentClassifier [amazonOrder; payout] shadowedRule
    = (Server.Returns (Server.Response.mk 200 (Server.BatchBody results)), st')
    /\ map Server.BatchResult.transactionId results = [Some "txn-2"; Some "txn-1"].
Proof.
  destruct (batch_answers_every_transaction confidentClassifier shadowedRule
              [amazonOrder; payout])
    as (results & st' & Hrun & Hids & _ & _).
  - reflexivity.
  - exists results, st'. split; [exact Hrun | exact Hids].
Defined.

(** An authenticated categorize request is always answered with status
    200, whatever the classifier does; when the classifier throws or its
    text holds no object that parses, the suggestion is the rule match
    (or nothing), and the answer is approved only if the rule store
    approves it. *)
Theorem categorize_survives_classifier_failure
    (env : Server.Env.t) (st : Server.State.t)
    (transaction : Server.Transaction.t) :
  authenticated st ->
  let ruleMatch :=
    Server.findMatchingRule (Server.State.learnedRules st)
      (Server.Transaction.description transaction)
      (Server.Transaction.vendor transaction) in
  exists suggestion st',
    Server.categorize env transaction st
    = (Server.Returns
         (Server.Response.mk 200
            (Server.CategorizeBody suggestion (Server.autoApproves ruleMatch))),
       st')
    /\ Server.State.learnedRules st' = Server.State.learnedRules st
    /\ (parsed (Server.Env.classifier env transaction
                  (Server.State.categories (warmed env st))) = None ->
        suggestion = Server.FromRule <$> ruleMatch).
Proof.
  intros Hauth ruleMatch.
  rewrite (categorize_authenticated env transaction st Hauth). fold ruleMatch.
  destruct (Server.autoApproves ruleMatch) eqn:E.
  - exists (Server.FromRule <$> ruleMatch), st. repeat split; reflexivity.
  - destruct (aiCategorize_run env transaction
                (Server.State.categories (warmed env st)) (warmed env st))
      as (events & Hai & _ & _).
    destruct (warmed_same env st) as (Hrules & _ & _).
    rewrite Hai. eexists. exists (addTrace (warmed env st) events).
    split; [reflexivity |]. split; [exact Hrules |].
    intros Hnone. rewrite Hnone.
    destruct (Server.State.anthropic (warmed env st)); reflexivity.
Qed.

Lemma categorize_survives_classifier_failure_witness :
  exists st',
    Server.categorize firstCall amazonOrder shadowedRule
    = (Server.Returns
         (Server.Response.mk 200
            (Server.CategorizeBody
               (Some (Server.FromRule (Server.matchOf amazonGuess))) false)),
       st').
Proof.
  destruct (categorize_survives_classifier_failure firstCall shadowedRule amazonOrder)
    as (suggestion & st' & Hrun & _ & Hnone).
  - reflexivity.
  - exists st'. rewrite Hrun, (Hnone eq_refl). reflexivity.
Defined.

(** ** Rule patterns *)

Lemma lowerChar_space c : Ascii.eqb (Js.lowerChar c) " " = Ascii.eqb c " ".
Proof. destruct c as [[] [] [] [] [] [] [] []]; reflexivity. Qed.

Lemma hasSpace_toLowerCase s : hasSpace (Js.toLowerCase s) = hasSpace s.
Proof.
  induction s as [| c s IH]; simpl; [reflexivity |].
  rewrite lowerChar_space, IH. reflexivity.
Qed.

Lemma hasSpace_app a b : hasSpace (a +:+ b) = hasSpace a || hasSpace b.
Proof.
  induction a as [| c a IH]; simpl; [reflexivity |].
  rewrite IH, orb_assoc. reflexivity.
Qed.

Lemma searchKey_hasSpace description vendorName :
  hasSpace (Server.searchKey description vendorName) = true.
Proof.
  unfold Server.searchKey.
  rewrite hasSpace_toLowerCase, !hasSpace_app. simpl.
  rewrite orb_true_r. reflexivity.
Qed.

Lemma exact_rule_needs_space rule description vendorName :
  Server.Rule.patternType rule = "exact" ->
  hasSpace (Server.Rule.pattern rule) = false ->
  Server.ruleMatches (Server.searchKey description vendorName) rule = false.
Proof.
  intros Htype Hspace. unfold Server.ruleMatches. rewrite Htype. simpl.
  apply String.eqb_neq. intros Heq.
  pose proof (searchKey_hasSpace description vendorName) as Hkey.
  rewrite Heq, hasSpace_toLowerCase, Hspace in Hkey. discriminate.
Qed.

(** An [exact] rule whose pattern holds no space is dead: the search
    text always joins the description and the vendor with a space, so
    the rule matches no transaction, and the store answers every lookup
    as if the rule were not there. *)
Theorem exact_rule_without_space_never_matches
    (rule : Server.Rule.t) (before after : list Server.Rule.t)
    (description vendorName : option string) :
  Server.Rule.patternType rule = "exact" ->
  hasSpace (Server.Rule.pattern rule) = false ->
  Server.ruleMatches (Server.searchKey description vendorName) rule = false
  /\ Server.findMatchingRule (before ++ rule :: after) description vendorName
     = Server.findMatchingRule (before ++ after) description vendorName.
Proof.
  intros Htype Hspace.
  pose proof (exact_rule_needs_space rule description vendorName Htype Hspace)
    as Hdead.
  split; [exact Hdead |].
  unfold Server.findMatchingRule.
  induction before as [| r before IH]; simpl.
  - rewrite Hdead. reflexivity.
  - rewrite IH. reflexivity.
Qed.

Lemma exact_rule_without_space_never_matches_witness :
  Server.ruleMatches (Server.searchKey (Some "AMAZON") (Some "")) exactAmazon = false
  /\ Server.findMatchingRule ([amazonGuess] ++ exactAmazon :: [amazonSure])
       (Some "AMAZON") (Some "")
     = Server.findMatchingRule ([amazonGuess] ++ [amazonSure])
         (Some "AMAZON") (Some "").
Proof.
  apply (exact_rule_without_space_never_matches exactAmazon [amazonGuess]
           [amazonSure] (Some "AMAZON") (Some "")); reflexivity.
Defined.

Lemma toLowerCase_app a b :
  Js.toLowerCase (a +:+ b) = Js.toLowerCase a +:+ Js.toLowerCase b.
Proof.
  induction a as [| c a IH]; simpl; [reflexivity | rewrite IH; reflexivity].
Qed.

Lemma includes_app_r a b p :
  Js.includes b p = true -> Js.includes (a +:+ b) p = true.
Proof.
  intros H. induction a as [| c a IH]; simpl; [exact H |].
  rewrite IH. apply orb_true_r.
Qed.

(** A missing vendor is printed into the search text as the word
    [undefined]: a rule of the default kind whose pattern is part of
    that word, ignoring case, matches every transaction that has no
    vendor, and the store auto-approves them all when that rule comes
    first with full confidence. *)
Theorem missing_vendor_matches_undefined
    (rule : Server.Rule.t) (rest : list Server.Rule.t)
    (description : option string) :
  containsRule rule ->
  Js.includes "undefined" (Js.toLowerCase (Server.Rule.pattern rule)) = true ->
  Server.ruleMatches (Server.searchKey description None) rule = true
  /\ Server.findMatchingRule (rule :: rest) description None
     = Some (Server.matchOf rule).
Proof.
  intros [Hexact Hstarts] Hpart.
  assert (Hmatch : Server.ruleMatches (Server.searchKey description None) rule = true).
  { unfold Server.ruleMatches. rewrite Hexact, Hstarts.
    unfold Server.searchKey. rewrite !toLowerCase_app.
    apply includes_app_r, includes_app_r. exact Hpart. }
  split; [exact Hmatch |].
  unfold Server.findMatchingRule. simpl. rewrite Hmatch. reflexivity.
Qed.

Lemma missing_vendor_matches_undefined_witness :
  Server.ruleMatches (Server.searchKey (Some "PAYROLL TAX") None) fineRule = true
  /\ Server.findMatchingRule [fineRule; amazonSure] (Some "PAYROLL TAX") None
     = Some (Server.matchOf fineRule).
Proof.
  apply (missing_vendor_matches_undefined fineRule [amazonSure] (Some "PAYROLL TAX")).
  - split; reflexivity.
  - reflexivity.
Defined.

(** ** Teaching, applying and deleting a rule *)

Lemma ruleMatches_same_key key r1 r2 :
  Server.ruleKey r1 = Server.ruleKey r2 ->
  Server.ruleMatches key r1 = Server.ruleMatches key r2.
Proof.
  unfold Server.ruleKey, Server.ruleMatches. intros [= Hpattern Htype].
  rewrite Hpattern, Htype. reflexivity.
Qed.

Lemma scanRules_app_none rules more key :
  Forall (fun r => Server.ruleMatches key r = false) rules ->
  Server.scanRules (rules ++ more) key = Server.scanRules more key.
Proof.
  induction 1 as [| r rules Hr _ IH]; simpl; [reflexivity |].
  rewrite Hr. exact IH.
Qed.

Lemma taught_fresh env pattern patternType categoryId categoryName rules key :
  Forall (fun r => Server.ruleMatches key r = false) rules ->
  Server.ruleMatches key
    (Server.newRule env pattern patternType categoryId categoryName) = true ->
  Server.taught env pattern patternType categoryId categoryName rules
  = rules ++ [Server.newRule env pattern patternType categoryId categoryName].
Proof.
  intros Hnone Hnew. unfold Server.taught.
  destruct (Server.findIndex _ rules) as [i |] eqn:E; [| reflexivity].
  exfalso. revert i E.
  induction Hnone as [| r rules Hr _ IH]; simpl; intros i E; [discriminate |].
  destruct (Server.samePattern pattern patternType r) eqn:Esame.
  - apply samePattern_key in Esame.
    rewrite (ruleMatches_same_key key r
               (Server.newRule env pattern patternType categoryId categoryName))
      in Hr; [congruence | exact Esame].
  - destruct (Server.findIndex _ rules) as [i' |]; [| discriminate].
    exact (IH i' eq_refl).
Qed.

Lemma teach_token env pattern patternType categoryId categoryName st :
  Server.State.access_token
    (Server.teach env pattern patternType categoryId categoryName st)
  = Server.State.access_token st.
Proof.
  unfold Server.teach, Server.learnRule, Server.saveRules, Server.writeRulesFile,
    Server.try_catch, Server.bind, Server.gets, Server.setLearnedRules,
    Server.emit, Server.modify, Server.ret.
  simpl. destruct (Server.Env.diskWritable env); reflexivity.
Qed.

(** Teaching takes effect at once.  When no stored rule matches a
    transaction and the taught pattern does, the next categorize request
    for that transaction is answered from the new rule, with confidence
    1.0 and approved automatically, without a request to the classifier
    and without any change of state. *)
Theorem taught_rule_is_applied
    (env1 env2 : Server.Env.t) (st : Server.State.t)
    (pattern patternType categoryId categoryName : string)
    (transaction : Server.Transaction.t) :
  authenticated st ->
  let key :=
    Server.searchKey (Server.Transaction.description transaction)
      (Server.Transaction.vendor transaction) in
  Forall (fun r => Server.ruleMatches key r = false) (Server.State.learnedRules st) ->
  Server.ruleMatches key
    (Server.newRule env1 pattern patternType categoryId categoryName) = true ->
  let st1 := Server.teach env1 pattern patternType categoryId categoryName st in
  Server.categorize env2 transaction st1
  = (Server.Returns
       (Server.Response.mk 200
          (Server.CategorizeBody
             (Some (Server.FromRule
                      (freshRule env1 pattern patternType categoryId categoryName)))
             true)),
     st1)
  /\ Server.RuleMatch.categoryId
       (freshRule env1 pattern patternType categoryId categoryName) = categoryId
  /\ Server.RuleMatch.confidence
       (freshRule env1 pattern patternType categoryId categoryName) = 1%Q.
Proof.
  intros Hauth key Hnone Hnew st1.
  split; [| split; reflexivity].
  apply categorize_auto.
  - unfold authenticated, st1. rewrite teach_token. exact Hauth.
  - unfold st1. rewrite teach_rules.
    rewrite (taught_fresh env1 pattern patternType categoryId categoryName
               _ key Hnone Hnew).
    unfold Server.findMatchingRule. fold key.
    rewrite (scanRules_app_none _ _ key Hnone). simpl.
    rewrite Hnew. reflexivity.
  - reflexivity.
Qed.

Lemma taught_rule_is_applied_witness :
  Server.categorize confidentClassifier amazonOrder
    (Server.teach firstCall "Amazon" "contains" "61" "Office Supplies"
       (resolverState [affiliateRule]))
  = (Server.Returns
       (Server.Response.mk 200
          (Server.CategorizeBody
             (Some (Server.FromRule
                      (freshRule firstCall "Amazon" "contains" "61" "Office Supplies")))
             true)),
     Server.teach firstCall "Amazon" "contains" "61" "Office Supplies"
       (resolverState [affiliateRule])).
Proof.
  apply (taught_rule_is_applied firstCall confidentClassifier
           (resolverState [affiliateRule]) "Amazon" "contains" "61"
           "Office Supplies" amazonOrder).
  - reflexivity.
  - repeat constructor.
  - reflexivity.
Defined.

Lemma rulesFor_nil_findIndex pattern patternType rules :
  Server.rulesFor pattern patternType rules = [] ->
  Server.findIndex (Server.samePattern pattern patternType) rules = None.
Proof.
  unfold Server.rulesFor.
  induction rules as [| r rules IH]; simpl; [reflexivity |].
  destruct (Server.samePattern pattern patternType r); [discriminate |].
  intros H. rewrite (IH H). reflexivity.
Qed.

Lemma filter_other_ids id (rules : list Server.Rule.t) :
  Forall (fun r => Server.Rule.id r <> id) rules ->
  List.filter (fun r => negb (String.eqb (Server.Rule.id r) id)) rules = rules.
Proof.
  induction 1 as [| r rules Hr _ IH]; simpl; [reflexivity |].
  apply String.eqb_neq in Hr. rewrite Hr, IH. reflexivity.
Qed.

Lemma forget_rules env id st :
  Server.State.learnedRules (forget env id st)
  = List.filter (fun r => negb (String.eqb (Server.Rule.id r) id))
      (Server.State.learnedRules st).
Proof.
  unfold forget.
  destruct (deleteRule_run env id st) as (st' & Hrun & Hrules & _).
  rewrite Hrun. exact Hrules.
Qed.

(** Deleting undoes teaching.  When the store holds no rule for the
    pair and no rule with the id that the clock gives, teaching the pair
    and then deleting that id leaves the rules exactly as they were. *)
Theorem teach_then_delete_restores
    (env1 env2 : Server.Env.t) (st : Server.State.t)
    (pattern patternType categoryId categoryName : string) :
  let id := "rule-" +:+ pretty (Server.Env.now env1) in
  Server.rulesFor pattern patternType (Server.State.learnedRules st) = [] ->
  Forall (fun r => Server.Rule.id r <> id) (Server.State.learnedRules st) ->
  Server.State.learnedRules
    (forget env2 id
       (Server.teach env1 pattern patternType categoryId categoryName st))
  = Server.State.learnedRules st.
Proof.
  intros id Hnew Hfresh.
  rewrite forget_rules, teach_rules. unfold Server.taught.
  rewrite (rulesFor_nil_findIndex _ _ _ Hnew).
  rewrite List.filter_app, (filter_other_ids id _ Hfresh). simpl.
  unfold id. rewrite String.eqb_refl. simpl. apply app_nil_r.
Qed.

Lemma teach_then_delete_restores_witness :
  Server.State.learnedRules
    (forget secondCall ("rule-" +:+ pretty (Server.Env.now firstCall))
       (Server.teach firstCall "Amazon" "contains" "61" "Office Supplies"
          (resolverState [affiliateRule])))
  = [affiliateRule].
Proof.
  apply (teach_then_delete_restores firstCall secondCall
           (resolverState [affiliateRule]) "Amazon" "contains" "61"
           "Office Supplies").
  - reflexivity.
  - constructor; [| constructor]. vm_compute. discriminate.
Defined.

(** Rule ids are the clock reading.  Two different pairs taught under
    the same reading get the same id, and one delete call for that id
    removes both rules. *)
Theorem same_clock_rules_deleted_together
    (env env' : Server.Env.t) (st : Server.State.t)
    (pattern1 type1 categoryId1 categoryName1 : string)
    (pattern2 type2 categoryId2 categoryName2 : string) :
  let id := "rule-" +:+ pretty (Server.Env.now env) in
  Server.rulesFor pattern1 type1 (Server.State.learnedRules st) = [] ->
  Server.rulesFor pattern2 type2 (Server.State.learnedRules st) = [] ->
  (Js.toLowerCase pattern1, type1) <> (Js.toLowerCase pattern2, type2) ->
  Forall (fun r => Server.Rule.id r <> id) (Server.State.learnedRules st) ->
  let st2 :=
    Server.teach env pattern2 type2 categoryId2 categoryName2
      (Server.teach env pattern1 type1 categoryId1 categoryName1 st) in
  Server.State.learnedRules st2
  = Server.State.learnedRules st
    ++ [Server.newRule env pattern1 type1 categoryId1 categoryName1;
        Server.newRule env pattern2 type2 categoryId2 categoryName2]
  /\ Server.State.learnedRules (forget env' id st2) = Server.State.learnedRules st.
Proof.
  intros id Hnew1 Hnew2 Hdiff Hfresh st2.
  assert (Hst2 : Server.State.learnedRules st2
                 = Server.State.learnedRules st
                   ++ [Server.newRule env pattern1 type1 categoryId1 categoryName1;
                       Server.newRule env pattern2 type2 categoryId2 categoryName2]).
  { unfold st2. rewrite !teach_rules. unfold Server.taught at 2.
    rewrite (rulesFor_nil_findIndex _ _ _ Hnew1).
    unfold Server.taught.
    rewrite (rulesFor_nil_findIndex pattern2 type2).
    - rewrite <- app_assoc. reflexivity.
    - unfold Server.rulesFor in *. rewrite List.filter_app, Hnew2. simpl.
      destruct (Server.samePattern pattern2 type2 _) eqn:E; [| reflexivity].
      apply samePattern_key in E. exact (False_ind _ (Hdiff E)). }
  split; [exact Hst2 |].
  rewrite forget_rules, Hst2, List.filter_app, (filter_other_ids id _ Hfresh).
  simpl. unfold id. rewrite String.eqb_refl. simpl. apply app_nil_r.
Qed.

Lemma same_clock_rules_deleted_together_witness :
  Server.State.learnedRules
    (forget secondCall ("rule-" +:+ pretty (Server.Env.now firstCall))
       (Server.teach firstCall "Uber" "contains" "64" "Travel"
          (Server.teach firstCall "Amazon" "contains" "61" "Office Supplies"
             (resolverState [affiliateRule]))))
  = [affiliateRule].
Proof.
  apply (same_clock_rules_deleted_together firstCall secondCall
           (resolverState [affiliateRule]) "Amazon" "contains" "61"
           "Office Supplies" "Uber" "contains" "64" "Travel").
  - reflexivity.
  - reflexivity.
  - vm_compute. discriminate.
  - constructor; [| constructor]. vm_compute. discriminate.
Defined.

(** ** Bank connections: sync *)

Lemma array_includes_spec (xs : list string) (x : string) :
  Js.array_includes xs x = true <-> x ∈ xs.
Proof.
  unfold Js.array_includes. rewrite existsb_exists. split.
  - intros (y & Hin & Heq). apply String.eqb_eq in Heq. subst y.
    apply list_elem_of_In. exact Hin.
  - intros Hin. exists x. split; [apply list_elem_of_In; exact Hin |].
    apply String.eqb_refl.
Qed.

Lemma included_spec account item :
  Plaid.included account item = true
  <-> Plaid.Item.account_id item ∉ Plaid.excludedAccounts account.
Proof.
  unfold Plaid.included. rewrite negb_true_iff, <- array_includes_spec.
  destruct (Js.array_includes _ _); split; congruence.
Qed.

Lemma mapped_items_included account (items : list Plaid.Item.t) txn :
  txn ∈ map (Plaid.toTransaction account) (List.filter (Plaid.included account) items) ->
  Plaid.Txn.plaid_account_id txn = Plaid.Connection.id account
  /\ Plaid.Txn.institution txn = Plaid.Connection.institution_name account
  /\ Plaid.Txn.account_id txn ∉ Plaid.excludedAccounts account.
Proof.
  intros Hin. apply list_elem_of_fmap in Hin as (item & -> & Hitem).
  apply list_elem_of_In, List.filter_In in Hitem as [_ Hincl].
  apply included_spec in Hincl. repeat split; assumption.
Qed.

Lemma syncOne_included feed isoNow account txn :
  txn ∈ Bank.Synced.transactions (Bank.syncOne feed isoNow account) ->
  Plaid.Txn.plaid_account_id txn = Plaid.Connection.id account
  /\ Plaid.Txn.institution txn = Plaid.Connection.institution_name account
  /\ Plaid.Txn.account_id txn ∉ Plaid.excludedAccounts account.
Proof.
  unfold Bank.syncOne.
  destruct (feed _ _) as [message | syncData]; simpl;
    [intros H; apply elem_of_nil in H; contradiction |].
  destruct (Js.truthy _); simpl;
    [intros H; apply elem_of_nil in H; contradiction |].
  apply mapped_items_included.
Qed.

Lemma synced_from_included feed clock (plaidAccounts : list Plaid.Connection.t) txn :
  txn ∈ imap (fun k account => Bank.syncOne feed (clock k) account) plaidAccounts
        ≫= Bank.Synced.transactions ->
  fromIncludedAccount plaidAccounts txn.
Proof.
  intros Hin.
  apply list_elem_of_bind in Hin as (result & Hin & Hresult).
  apply elem_of_lookup_imap_1 in Hresult as (k & account & -> & Hk).
  apply syncOne_included in Hin.
  exists account. split; [| exact Hin].
  eapply list_elem_of_lookup_2, Hk.
Qed.

(** A sync answer never holds a transaction of an excluded account:
    every transaction in it comes from a connection of the server and
    from an account that this connection does not exclude. *)
Theorem sync_returns_included_accounts_only
    (configured : bool) (feed : Bank.Feed) (clock : nat -> string)
    (plaidAccounts : list Plaid.Connection.t) :
  Forall (fromIncludedAccount plaidAccounts)
    (syncedTransactions (Bank.sync configured feed clock plaidAccounts).1).
Proof.
  unfold Bank.sync.
  destruct configured; simpl; [| constructor].
  destruct (length plaidAccounts =? 0)%nat; simpl; [constructor |].
  apply Forall_forall. intros txn Hin.
  exact (synced_from_included feed clock plaidAccounts txn Hin).
Qed.

Lemma syncOne_errors feed isoNow account :
  Bank.Synced.errors (Bank.syncOne feed isoNow account) = []
  <-> is_Some (answered feed account).
Proof.
  unfold Bank.syncOne, answered.
  destruct (feed _ _) as [message | syncData]; simpl.
  - split; [discriminate | intros [? H]; discriminate].
  - destruct (Js.truthy _); simpl.
    + split; [discriminate | intros [? H]; discriminate].
    + split; [eexists; reflexivity | reflexivity].
Qed.

Lemma syncOne_account feed isoNow account :
  Bank.Synced.account (Bank.syncOne feed isoNow account)
  = match answered feed account with
    | Some syncData => Bank.advanced (Bank.SyncData.next_cursor syncData) isoNow account
    | None => account
    end.
Proof.
  unfold Bank.syncOne, answered.
  destruct (feed _ _) as [message | syncData]; simpl; [reflexivity |].
  destruct (Js.truthy _); reflexivity.
Qed.

Lemma sync_results feed :
  forall (plaidAccounts : list Plaid.Connection.t) (clock : nat -> string),
    let results :=
      imap (fun k account => Bank.syncOne feed (clock k) account) plaidAccounts in
    Forall2
      (fun account account' =>
         match answered feed account with
         | Some syncData =>
           exists isoNow,
             account' = Bank.advanced (Bank.SyncData.next_cursor syncData) isoNow account
         | None => account' = account
         end)
      plaidAccounts (map Bank.Synced.account results)
    /\ (results ≫= Bank.Synced.errors = []
        <-> Forall (fun account => is_Some (answered feed account)) plaidAccounts).
Proof.
  induction plaidAccounts as [| account rest IH]; intros clock; simpl.
  - split; [constructor |]. split; [constructor | reflexivity].
  - destruct (IH (clock ∘ S)) as [Hall Herr]. split.
    + constructor; [| exact Hall].
      rewrite syncOne_account. destruct (answered feed account);
        [eexists; reflexivity | reflexivity].
    + rewrite Forall_cons, <- Herr, <- syncOne_errors.
      split.
      * intros H. apply app_eq_nil in H. exact H.
      * intros [H1 H2]. unfold compose in H2. rewrite H1.
        simpl. exact H2.
Qed.

(** A sync request over at least one connection is always answered with
    status 200 and [success: true]; the count is the number of
    transactions returned.  A connection whose request threw or was
    answered with an error code stays exactly as it was, cursor
    included; a connection that was answered gets the new cursor and a
    time stamp, and nothing else of it changes.  The answer carries no
    error list exactly when every connection was answered. *)
Theorem sync_advances_answered_connections_only
    (feed : Bank.Feed) (clock : nat -> string)
    (plaidAccounts : list Plaid.Connection.t) :
  plaidAccounts <> [] ->
  exists transactions errors,
    (Bank.sync true feed clock plaidAccounts).1
    = Bank.Response.mk 200
        (Bank.SyncBody true (length transactions) transactions errors)
    /\ Forall2
         (fun account account' =>
            match answered feed account with
            | Some syncData =>
              exists isoNow,
                account'
                = Bank.advanced (Bank.SyncData.next_cursor syncData) isoNow account
            | None => account' = account
            end)
         plaidAccounts (Bank.sync true feed clock plaidAccounts).2
    /\ (errors = None
        <-> Forall (fun account => is_Some (answered feed account)) plaidAccounts).
Proof.
  intros Hsome. unfold Bank.sync. simpl.
  destruct plaidAccounts as [| account rest]; [contradiction |].
  change (length (account :: rest) =? 0)%nat with false. cbv iota.
  destruct (sync_results feed (account :: rest) clock) as [Hall Herr].
  eexists. eexists. split; [reflexivity |]. split; [exact Hall |].
  rewrite <- Herr.
  destruct (imap _ (account :: rest) ≫= Bank.Synced.errors) as [| e errs];
    simpl; split; congruence.
Qed.

Lemma sync_advances_answered_connections_only_witness :
  bothBanks <> []
  /\ exists transactions errors,
       (Bank.sync true halfDown noon bothBanks).1
       = Bank.Response.mk 200
           (Bank.SyncBody true (length transactions) transactions errors)
       /\ Forall2
            (fun account account' =>
               match answered halfDown account with
               | Some syncData =>
                 exists isoNow,
                   account'
                   = Bank.advanced (Bank.SyncData.next_cursor syncData) isoNow account
               | None => account' = account
               end)
            bothBanks (Bank.sync true halfDown noon bothBanks).2
       /\ (errors = None
           <-> Forall (fun account => is_Some (answered halfDown account)) bothBanks).
Proof.
  split; [discriminate |].
  apply (sync_advances_answered_connections_only halfDown noon bothBanks).
  discriminate.
Defined.

(** ** Bank connections: excluding an account *)

Lemma findIndex_first {A : Type} (p : A -> bool) :
  forall (xs : list A) (i : nat),
    Server.findIndex p xs = Some i ->
    exists x, xs !! i = Some x /\ p x = true.
Proof.
  induction xs as [| x xs IH]; simpl; intros i H; [discriminate |].
  destruct (p x) eqn:E.
  - injection H as <-. exists x. split; [reflexivity | exact E].
  - destruct (Server.findIndex p xs) as [j |]; [| discriminate].
    injection H as <-. exact (IH j eq_refl).
Qed.

Lemma findIndex_absent {A : Type} (p : A -> bool) :
  forall xs : list A,
    Server.findIndex p xs = None <-> Forall (fun x => p x = false) xs.
Proof.
  induction xs as [| x xs IH]; simpl.
  - split; [constructor | reflexivity].
  - rewrite Forall_cons, <- IH. destruct (p x).
    + split; [discriminate | intros [H _]; discriminate].
    + destruct (Server.findIndex p xs); simpl;
        split; try discriminate; try (intros [_ H]; discriminate); auto.
Qed.

Lemma toggled_id account_id exclude institution :
  Plaid.Connection.id (Bank.toggled account_id exclude institution)
  = Plaid.Connection.id institution.
Proof. reflexivity. Qed.

Lemma toggled_excludes account_id institution :
  account_id ∈ Plaid.excludedAccounts (Bank.toggled account_id true institution).
Proof.
  unfold Bank.toggled, Plaid.excludedAccounts. simpl.
  destruct (Js.array_includes _ account_id) eqn:E.
  - apply array_includes_spec. exact E.
  - apply elem_of_app. right. apply list_elem_of_singleton. reflexivity.
Qed.

Lemma unique_id_position (plaidAccounts : list Plaid.Connection.t) i j a b :
  NoDup (connectionIds plaidAccounts) ->
  plaidAccounts !! i = Some a ->
  plaidAccounts !! j = Some b ->
  Plaid.Connection.id a = Plaid.Connection.id b ->
  i = j.
Proof.
  intros Hnodup Hi Hj Hid.
  eapply NoDup_lookup; [exact Hnodup | |];
    unfold connectionIds; rewrite list_lookup_fmap.
  - rewrite Hi. reflexivity.
  - rewrite Hj. simpl. rewrite Hid. reflexivity.
Qed.

(** Excluding an account takes effect.  When connection ids are
    distinct and the toggle request finds its connection, no later sync
    answer holds a transaction of that account of that connection,
    whatever the bank feed sends. *)
Theorem excluded_account_is_dropped_by_sync
    (plaidAccounts : list Plaid.Connection.t)
    (institution_id account_id : string)
    (configured : bool) (feed : Bank.Feed) (clock : nat -> string) :
  NoDup (connectionIds plaidAccounts) ->
  institution_id ∈ connectionIds plaidAccounts ->
  let toggle :=
    Bank.toggleAccount (excludeRequest institution_id account_id) plaidAccounts in
  Bank.Response.status toggle.1 = 200%Z
  /\ Forall
       (fun txn =>
          ~ (Plaid.Txn.plaid_account_id txn = institution_id
             /\ Plaid.Txn.account_id txn = account_id))
       (syncedTransactions (Bank.sync configured feed clock toggle.2).1).
Proof.
  intros Hnodup Hknown toggle. subst toggle. unfold Bank.toggleAccount.
  destruct (Server.findIndex _ plaidAccounts) as [i |] eqn:Efind.
  - simpl. split; [reflexivity |].
    apply findIndex_first in Efind as (institution & Hi & Hid).
    apply String.eqb_eq in Hid.
    assert (Hall : Forall
                     (fromIncludedAccount
                        (alter (Bank.toggled account_id true) i plaidAccounts))
                     (syncedTransactions
                        (Bank.sync configured feed clock
                           (alter (Bank.toggled account_id true) i plaidAccounts)).1)).
    { unfold Bank.sync.
      destruct configured; simpl; [| constructor].
      destruct (length _ =? 0)%nat; simpl; [constructor |].
      apply Forall_forall. intros txn Hin.
      exact (synced_from_included feed clock _ txn Hin). }
    eapply Forall_impl; [exact Hall |].
    intros txn (account & Hin & Hconn & _ & Hnot) [Hinst Hacct].
    apply list_elem_of_lookup in Hin as [j Hj].
    destruct (decide (i = j)) as [<- | Hne].
    + rewrite list_lookup_alter, Hi in Hj. simpl in Hj.
      rewrite decide_True in Hj by reflexivity. injection Hj as <-.
      apply Hnot. rewrite Hacct. apply toggled_excludes.
    + rewrite list_lookup_alter_ne in Hj by exact Hne.
      apply Hne.
      apply (unique_id_position plaidAccounts i j institution account
               Hnodup Hi Hj).
      rewrite Hid, <- Hinst, Hconn. reflexivity.
  - exfalso. apply findIndex_absent in Efind.
    unfold connectionIds in Hknown.
    apply list_elem_of_fmap in Hknown as (account & -> & Hin).
    rewrite Forall_forall in Efind. specialize (Efind account Hin).
    unfold Bank.hasId in Efind. rewrite String.eqb_refl in Efind. discriminate.
Qed.

Lemma excluded_account_is_dropped_by_sync_witness :
  Bank.Response.status
    (Bank.toggleAccount (excludeRequest "plaid-2" "acct-3") bothBanks).1 = 200%Z
  /\ Forall
       (fun txn =>
          ~ (Plaid.Txn.plaid_account_id txn = "plaid-2"
             /\ Plaid.Txn.account_id txn = "acct-3"))
       (syncedTransactions
          (Bank.sync true halfDown noon
             (Bank.toggleAccount (excludeRequest "plaid-2" "acct-3") bothBanks).2).1).
Proof.
  apply (excluded_account_is_dropped_by_sync bothBanks "plaid-2" "acct-3"
           true halfDown noon).
  - apply (bool_decide_unpack (NoDup (connectionIds bothBanks))).
    vm_compute. reflexivity.
  - apply (bool_decide_unpack ("plaid-2" ∈ connectionIds bothBanks)).
    vm_compute. reflexivity.
Defined.

Lemma syncOne_alike feed isoNow a b :
  syncsAlike a b ->
  Bank.Synced.transactions (Bank.syncOne feed isoNow a)
  = Bank.Synced.transactions (Bank.syncOne feed isoNow b)
  /\ Bank.Synced.errors (Bank.syncOne feed isoNow a)
     = Bank.Synced.errors (Bank.syncOne feed isoNow b).
Proof.
  intros [(Hid & Htoken & Hname & Hcursor & _) Hexcl].
  unfold Bank.syncOne. rewrite Htoken, Hcursor, Hname.
  destruct (feed _ _) as [message | syncData]; simpl; [split; reflexivity |].
  destruct (Js.truthy _); simpl; [split; reflexivity |].
  split; [| reflexivity].
  unfold Plaid.syncTransactions.
  assert (Hincl : forall item, Plaid.included a item = Plaid.included b item).
  { intros item. unfold Plaid.included. rewrite Hexcl. reflexivity. }
  assert (Hmap : forall item, Plaid.toTransaction a item = Plaid.toTransaction b item).
  { intros item. unfold Plaid.toTransaction. rewrite Hid, Hname. reflexivity. }
  induction (default [] (Bank.SyncData.added syncData)) as [| item items IH];
    simpl; [reflexivity |].
  rewrite Hincl. destruct (Plaid.included b item); simpl;
    [rewrite Hmap, IH; reflexivity | exact IH].
Qed.

Lemma sync_alike configured feed :
  forall (l l' : list Plaid.Connection.t) (clock : nat -> string),
    Forall2 syncsAlike l l' ->
    (Bank.sync configured feed clock l).1 = (Bank.sync configured feed clock l').1.
Proof.
  intros l l' clock Hall. unfold Bank.sync.
  destruct configured; simpl; [| reflexivity].
  rewrite <- (Forall2_length _ _ _ Hall).
  destruct (length l =? 0)%nat; simpl; [reflexivity |].
  assert (H : imap (fun k account => Bank.syncOne feed (clock k) account) l
                ≫= Bank.Synced.transactions
              = imap (fun k account => Bank.syncOne feed (clock k) account) l'
                  ≫= Bank.Synced.transactions
              /\ imap (fun k account => Bank.syncOne feed (clock k) account) l
                   ≫= Bank.Synced.errors
                 = imap (fun k account => Bank.syncOne feed (clock k) account) l'
                     ≫= Bank.Synced.errors).
  { clear -Hall. revert clock.
    induction Hall as [| a b l l' Hab _ IH]; intros clock; simpl;
      [split; reflexivity |].
    destruct (syncOne_alike feed (clock 0%nat) a b Hab) as [Ht He].
    destruct (IH (clock ∘ S)) as [IHt IHe].
    unfold compose in IHt, IHe.
    split; f_equal; assumption. }
  destruct H as [Ht He]. rewrite Ht, He. reflexivity.
Qed.

Lemma findIndex_alter {A : Type} (p : A -> bool) (f : A -> A) :
  (forall x, p (f x) = p x) ->
  forall (xs : list A) (i : nat),
    Server.findIndex p (alter f i xs) = Server.findIndex p xs.
Proof.
  intros Hf. induction xs as [| x xs IH]; intros i; [reflexivity |].
  destruct i as [| i].
  - change (alter f 0%nat (x :: xs)) with (f x :: xs).
    cbn [Server.findIndex]. rewrite Hf. reflexivity.
  - change (alter f (S i) (x :: xs)) with (x :: alter f i xs).
    cbn [Server.findIndex]. rewrite IH. reflexivity.
Qed.

Lemma alter_related {A : Type} (R : A -> A -> Prop) (f : A -> A) :
  (forall x, R x x) ->
  forall (xs : list A) (i : nat),
    Forall (fun x => R x (f x)) xs ->
    Forall2 R xs (alter f i xs).
Proof.
  intros Hrefl. induction xs as [| x xs IH]; intros i Hall; [constructor |].
  apply Forall_cons in Hall as [Hx Hxs].
  destruct i as [| i].
  - change (alter f 0%nat (x :: xs)) with (f x :: xs).
    constructor; [exact Hx |]. apply Forall2_same_length_lookup.
    split; [reflexivity |]. intros j a b Ha Hb.
    assert (a = b) as -> by congruence. apply Hrefl.
  - change (alter f (S i) (x :: xs)) with (x :: alter f i xs).
    constructor; [apply Hrefl | apply IH, Hxs].
Qed.

Lemma filter_absent (account_id : string) (excluded : list string) :
  account_id ∉ excluded ->
  List.filter (fun id => negb (String.eqb id account_id)) excluded = excluded.
Proof.
  induction excluded as [| id rest IH]; intros Hnot; simpl; [reflexivity |].
  apply not_elem_of_cons in Hnot as [Hne Hrest].
  assert (E : String.eqb id account_id = false)
    by (apply String.eqb_neq; congruence).
  rewrite E, (IH Hrest). reflexivity.
Qed.

Lemma exclude_include_alike account_id institution :
  account_id ∉ Plaid.excludedAccounts institution ->
  syncsAlike institution
    (Bank.toggled account_id false (Bank.toggled account_id true institution)).
Proof.
  intros Hnot. split; [repeat split |].
  unfold Bank.toggled, Plaid.excludedAccounts in *. simpl.
  destruct (Js.array_includes _ account_id) eqn:E.
  - apply array_includes_spec in E. contradiction.
  - rewrite List.filter_app, (filter_absent _ _ Hnot). simpl.
    rewrite String.eqb_refl. simpl. rewrite app_nil_r. reflexivity.
Qed.

(** Excluding an account and including it again is a round trip.  When
    the account was excluded nowhere, the two toggle calls leave every
    connection with the same id, token, name, cursor and time stamp and
    with the same excluded accounts, and every later sync request is
    answered as it would have been without them. *)
Theorem exclude_then_include_changes_no_sync
    (plaidAccounts : list Plaid.Connection.t)
    (institution_id account_id : string) :
  Forall (fun c => account_id ∉ Plaid.excludedAccounts c) plaidAccounts ->
  let after :=
    (Bank.toggleAccount (includeRequest institution_id account_id)
       (Bank.toggleAccount (excludeRequest institution_id account_id)
          plaidAccounts).2).2 in
  Forall2 syncsAlike plaidAccounts after
  /\ forall (configured : bool) (feed : Bank.Feed) (clock : nat -> string),
       (Bank.sync configured feed clock after).1
       = (Bank.sync configured feed clock plaidAccounts).1.
Proof.
  intros Hnot after.
  assert (Halike : Forall2 syncsAlike plaidAccounts after).
  { subst after. unfold Bank.toggleAccount at 2. simpl.
    destruct (Server.findIndex _ plaidAccounts) as [i |] eqn:Efind; simpl.
    - unfold Bank.toggleAccount. simpl.
      rewrite (findIndex_alter (Bank.hasId institution_id)
                 (Bank.toggled account_id true) (fun x => eq_refl)), Efind.
      simpl.
      rewrite list_alter_alter_eq.
      apply (alter_related syncsAlike).
      + intros x. split; [repeat split | reflexivity].
      + eapply Forall_impl; [exact Hnot |].
        intros c Hc. apply exclude_include_alike, Hc.
    - unfold Bank.toggleAccount. simpl. rewrite Efind. simpl.
      apply Forall2_same_length_lookup. split; [reflexivity |].
      intros j a b Ha Hb. assert (a = b) as -> by congruence.
      split; [repeat split | reflexivity]. }
  split; [exact Halike |].
  intros configured feed clock. symmetry. apply sync_alike, Halike.
Qed.

Lemma exclude_then_include_changes_no_sync_witness :
  (Bank.sync true halfDown noon
     (Bank.toggleAccount (includeRequest "plaid-2" "acct-3")
        (Bank.toggleAccount (excludeRequest "plaid-2" "acct-3") bothBanks).2).2).1
  = (Bank.sync true halfDown noon bothBanks).1.
Proof.
  apply (exclude_then_include_changes_no_sync bothBanks "plaid-2" "acct-3").
  apply (bool_decide_unpack
           (Forall (fun c => "acct-3" ∉ Plaid.excludedAccounts c) bothBanks)).
  vm_compute. reflexivity.
Defined.

(** ** Bank connections: disconnecting *)

Lemma delete_first_unique (id : string) :
  forall (plaidAccounts : list Plaid.Connection.t) (i : nat),
    NoDup (connectionIds plaidAccounts) ->
    Server.findIndex (Bank.hasId id) plaidAccounts = Some i ->
    delete i plaidAccounts = otherConnections id plaidAccounts.
Proof.
  unfold otherConnections, connectionIds.
  induction plaidAccounts as [| pa rest IH]; simpl; intros i Hnodup H;
    [discriminate |].
  apply NoDup_cons in Hnodup as [Hfresh Hrest].
  destruct (Bank.hasId id pa) eqn:E.
  - injection H as <-. simpl.
    apply String.eqb_eq in E.
    symmetry. apply List.forallb_filter_id, forallb_forall.
    intros pb Hin. apply negb_true_iff, String.eqb_neq. intros Hpb.
    apply Hfresh. apply list_elem_of_fmap. exists pb.
    split; [congruence | apply list_elem_of_In; exact Hin].
  - destruct (Server.findIndex _ rest) as [j |]; [| discriminate].
    injection H as <-. simpl. f_equal. apply IH; [exact Hrest | reflexivity].
Qed.

Lemma others_absent (id : string) (plaidAccounts : list Plaid.Connection.t) :
  Server.findIndex (Bank.hasId id) (otherConnections id plaidAccounts) = None.
Proof.
  apply findIndex_absent, Forall_forall. intros pa Hin.
  apply list_elem_of_In, List.filter_In in Hin as [_ H].
  apply negb_true_iff in H. exact H.
Qed.

(** Disconnecting removes the connection and nothing else.  With
    distinct connection ids, a request that names a stored connection is
    answered with status 200 and leaves exactly the other connections, in
    their order, whether or not the removal at the bank succeeded; a
    request that names no stored connection is answered 404 and changes
    nothing; and a second request for the same id is answered 404. *)
Theorem disconnect_removes_the_connection
    (configured : bool) (removeFails removeFails' : string -> option string)
    (account_id : string) (plaidAccounts : list Plaid.Connection.t) :
  NoDup (connectionIds plaidAccounts) ->
  account_id <> "" ->
  let result := Bank.disconnect configured removeFails (Some account_id) plaidAccounts in
  result.1.2 = otherConnections account_id plaidAccounts
  /\ Bank.Response.status result.1.1
     = (if decide (account_id ∈ connectionIds plaidAccounts) then 200 else 404)%Z
  /\ (Bank.disconnect configured removeFails' (Some account_id) plaidAccounts).1
     = result.1
  /\ (Bank.disconnect configured removeFails (Some account_id) result.1.2).1
     = (Bank.Response.mk 404 (Bank.ErrorBody "Account not found"), result.1.2).
Proof.
  intros Hnodup Hid result.
  assert (Htruthy : Js.truthy (Some account_id) = true).
  { simpl. apply negb_true_iff, String.eqb_neq. exact Hid. }
  assert (Hafter : result.1.2 = otherConnections account_id plaidAccounts
                   /\ Bank.Response.status result.1.1
                      = (if decide (account_id ∈ connectionIds plaidAccounts)
                         then 200 else 404)%Z
                   /\ (Bank.disconnect configured removeFails' (Some account_id)
                         plaidAccounts).1 = result.1).
  { subst result. unfold Bank.disconnect. rewrite Htruthy.
    cbn [negb Js.interpolate].
    destruct (Server.findIndex _ plaidAccounts) as [i |] eqn:Efind.
    - cbn [fst snd]. split; [apply delete_first_unique; assumption |].
      split; [| reflexivity].
      apply findIndex_first in Efind as (pa & Hi & Hpa).
      apply String.eqb_eq in Hpa.
      rewrite decide_True; [reflexivity |].
      apply list_elem_of_fmap. exists pa.
      split; [congruence | eapply list_elem_of_lookup_2, Hi].
    - cbn [fst snd]. apply findIndex_absent in Efind.
      split; [| split; [| reflexivity]].
      + unfold otherConnections. symmetry.
        apply List.forallb_filter_id, forallb_forall.
        intros pa Hin. apply negb_true_iff.
        rewrite Forall_forall in Efind. apply Efind, list_elem_of_In, Hin.
      + rewrite decide_False; [reflexivity |].
        intros Hin. apply list_elem_of_fmap in Hin as (pa & -> & Hin).
        rewrite Forall_forall in Efind. specialize (Efind pa Hin).
        unfold Bank.hasId in Efind. rewrite String.eqb_refl in Efind.
        discriminate. }
  destruct Hafter as (Hrest & Hstatus & Hsame).
  split; [exact Hrest |]. split; [exact Hstatus |]. split; [exact Hsame |].
  rewrite Hrest. unfold Bank.disconnect. rewrite Htruthy.
  cbn [negb Js.interpolate]. rewrite others_absent. reflexivity.
Qed.

Lemma disconnect_removes_the_connection_witness :
  (Bank.disconnect true removeDown (Some "plaid-1") bothBanks).1.2 = [savings]
  /\ Bank.Response.status
       (Bank.disconnect true removeDown (Some "plaid-1") bothBanks).1.1 = 200%Z.
Proof.
  destruct (disconnect_removes_the_connection true removeDown removeDown
              "plaid-1" bothBanks) as (Hrest & Hstatus & _ & _).
  - apply (bool_decide_unpack (NoDup (connectionIds bothBanks))).
    vm_compute. reflexivity.
  - discriminate.
  - split; [exact Hrest | exact Hstatus].
Defined.

(** ** Bank connections: listing *)

Lemma listLoop_all (P : Plaid.Txn.t -> Prop) (account : Plaid.Connection.t)
    (upstream : nat -> Plaid.Reply) :
  (forall page, Forall P (Plaid.pageTransactions account page)) ->
  forall (fuel call : nat) (offset : Z) (allTransactions : list Plaid.Txn.t)
         (errors : list Plaid.Error.t) (listing : Plaid.Listing.t),
    Forall P allTransactions ->
    Plaid.listLoop fuel account upstream call offset allTransactions errors
    = Some listing ->
    Forall P (Plaid.Listing.transactions listing).
Proof.
  intros Hpage.
  induction fuel as [| fuel IH]; intros call offset allTransactions errors listing
    Hall Hrun; [discriminate |].
  simpl in Hrun.
  destruct (upstream call) as [message | txnData];
    [injection Hrun as <-; exact Hall |].
  destruct (Js.truthy _); [injection Hrun as <-; exact Hall |].
  assert (Hall' : Forall P (allTransactions
                            ++ Plaid.pageTransactions account
                                 (Plaid.Page.transactions txnData)))
    by (apply Forall_app; split; [exact Hall | apply Hpage]).
  destruct (5000 <=? _)%Z; [injection Hrun as <-; exact Hall' |].
  destruct (Plaid.offset_below _ _); [| injection Hrun as <-; exact Hall'].
  exact (IH _ _ _ _ _ Hall' Hrun).
Qed.

Lemma listLoop_bound (account : Plaid.Connection.t) (upstream : nat -> Plaid.Reply) :
  (forall k, pageAtMost 500 (upstream k)) ->
  forall (fuel call : nat) (offset : Z) (allTransactions : list Plaid.Txn.t)
         (errors : list Plaid.Error.t) (listing : Plaid.Listing.t),
    (offset < 5000)%Z ->
    (Z.of_nat (length allTransactions) <= offset)%Z ->
    Plaid.listLoop fuel account upstream call offset allTransactions errors
    = Some listing ->
    (Plaid.Listing.offset listing < 5500)%Z
    /\ (Z.of_nat (length (Plaid.Listing.transactions listing))
        <= Plaid.Listing.offset listing)%Z.
Proof.
  intros Hsize.
  induction fuel as [| fuel IH]; intros call offset allTransactions errors listing
    Hoffset Hlen Hrun; [discriminate |].
  simpl in Hrun. specialize (Hsize call) as Hcall.
  destruct (upstream call) as [message | txnData];
    [injection Hrun as <-; simpl; lia |].
  destruct (Js.truthy _); [injection Hrun as <-; simpl; lia |].
  simpl in Hcall.
  assert (Hkept : (Z.of_nat (length (allTransactions
                     ++ Plaid.pageTransactions account
                          (Plaid.Page.transactions txnData)))
                   <= offset
                      + Z.of_nat (length (default []
                                            (Plaid.Page.transactions txnData))))%Z).
  { rewrite length_app. unfold Plaid.pageTransactions. rewrite length_map.
    pose proof (List.filter_length_le (Plaid.included account)
                  (default [] (Plaid.Page.transactions txnData))).
    lia. }
  destruct (5000 <=? _)%Z eqn:Elimit; [injection Hrun as <-; simpl; lia |].
  apply Z.leb_gt in Elimit.
  destruct (Plaid.offset_below _ _); [| injection Hrun as <-; simpl; lia].
  exact (IH _ _ _ _ _ Elimit Hkept Hrun).
Qed.

(** When every answer of the bank moves the listing on, the listing of
    a connection ends within 5000 requests, and every transaction in it
    comes from that connection and from an account that the connection
    does not exclude. *)
Theorem listing_returns_included_accounts_only
    (account : Plaid.Connection.t) (upstream : nat -> Plaid.Reply) :
  (forall k, advances (upstream k)) ->
  exists listing,
    Plaid.listConnection 5000 account upstream = Some listing
    /\ Forall (fromIncludedAccount [account]) (Plaid.Listing.transactions listing).
Proof.
  intros Hadv. unfold Plaid.listConnection.
  destruct (listLoop_terminates_when_advancing account upstream Hadv
              5000 0 0%Z [] []) as [listing Hrun]; [lia | lia |].
  exists listing. split; [exact Hrun |].
  assert (Hpage : forall page,
             Forall (fromIncludedAccount [account])
               (Plaid.pageTransactions account page)).
  { intros page. apply Forall_forall. intros txn Hin.
    apply mapped_items_included in Hin.
    exists account. split; [apply list_elem_of_here | exact Hin]. }
  apply (listLoop_all _ account upstream Hpage 5000 0 0%Z [] [] listing);
    [constructor | exact Hrun].
Qed.

Lemma listing_returns_included_accounts_only_witness :
  exists listing,
    Plaid.listConnection 5000 savings pagedFeed = Some listing
    /\ Forall (fromIncludedAccount [savings]) (Plaid.Listing.transactions listing).
Proof.
  apply (listing_returns_included_accounts_only savings pagedFeed).
  intros k. right. simpl. lia.
Defined.

(** The limit of the listing.  When the bank answers with pages of 1 to
    500 transactions, as asked for, the listing of a connection ends
    with an offset below 5500, and it holds no more transactions than
    that offset: the loop stops once 5000 are passed, not at 5000. *)
Theorem listing_stops_near_limit
    (account : Plaid.Connection.t) (upstream : nat -> Plaid.Reply) :
  (forall k, advances (upstream k)) ->
  (forall k, pageAtMost 500 (upstream k)) ->
  exists listing,
    Plaid.listConnection 5000 account upstream = Some listing
    /\ (Plaid.Listing.offset listing < 5500)%Z
    /\ (Z.of_nat (length (Plaid.Listing.transactions listing))
        <= Plaid.Listing.offset listing)%Z.
Proof.
  intros Hadv Hsize. unfold Plaid.listConnection.
  destruct (listLoop_terminates_when_advancing account upstream Hadv
              5000 0 0%Z [] []) as [listing Hrun]; [lia | lia |].
  exists listing. split; [exact Hrun |].
  apply (listLoop_bound account upstream Hsize 5000 0 0%Z [] [] listing);
    [lia | simpl; lia | exact Hrun].
Qed.

Lemma listing_stops_near_limit_witness :
  exists listing,
    Plaid.listConnection 5000 savings pagedFeed = Some listing
    /\ (Plaid.Listing.offset listing < 5500)%Z
    /\ (Z.of_nat (length (Plaid.Listing.transactions listing))
        <= Plaid.Listing.offset listing)%Z.
Proof.
  apply (listing_stops_near_limit savings pagedFeed).
  - intros k. right. simpl. lia.
  - intros k. simpl. lia.
Defined.

(** ** Ledger access tokens *)

Lemma ensureValidToken_cases {J} (env : Auth.Env.t J) (st : Auth.State.t) :
  let tokens := Auth.State.tokens st in
  let run := Auth.ensureValidToken env st in
  (Js.truthy (Auth.Tokens.access_token tokens) = false
   /\ run = (Server.Raises "Not authenticated", st))
  \/ (Js.truthy (Auth.Tokens.access_token tokens) = true
      /\ mustRefresh env st = false
      /\ run = (Server.Returns tt, st))
  \/ (Js.truthy (Auth.Tokens.access_token tokens) = true
      /\ mustRefresh env st = true
      /\ refreshFails env st
      /\ exists message new,
           run = (Server.Raises message,
                  Auth.State.mk tokens (Auth.State.tokenFile st)
                    (Auth.State.calls st ++ new))
           /\ Forall (fun call => isApiRequest call = false) new)
  \/ (Js.truthy (Auth.Tokens.access_token tokens) = true
      /\ mustRefresh env st = true
      /\ Js.truthy (Auth.Tokens.refresh_token tokens) = true
      /\ exists tokenData,
           Auth.Env.tokenEndpoint env (sentRefreshToken st)
           = Auth.TokenAnswers tokenData
           /\ Js.truthy (Auth.TokenData.access_token tokenData) = true
           /\ run
              = (Server.Returns tt,
                 Auth.saveTokens env
                   (Auth.State.mk
                      (Auth.Tokens.mk (Auth.TokenData.access_token tokenData)
                         (Js.or_opt (Auth.TokenData.refresh_token tokenData)
                                    (Auth.Tokens.refresh_token tokens))
                         (Auth.Tokens.realm_id tokens)
                         (Auth.expiry (Auth.Env.now env)
                            (Auth.TokenData.expires_in tokenData)))
                      (Auth.State.tokenFile st)
                      (Auth.State.calls st ++ [Auth.TokenRequest (sentRefreshToken st)])))).
Proof.
  intros tokens run. subst run.
  unfold Auth.ensureValidToken, mustRefresh. fold tokens.
  destruct (Js.truthy (Auth.Tokens.access_token tokens)) eqn:Eaccess; simpl;
    [| left; split; reflexivity].
  right.
  destruct (Auth.expiring _ _) eqn:Eexp; [| left; repeat split; reflexivity].
  right.
  unfold Auth.refreshAccessToken, refreshFails, sentRefreshToken. fold tokens.
  destruct (Js.truthy (Auth.Tokens.refresh_token tokens)) eqn:Erefresh; simpl.
  - destruct (Auth.Env.tokenEndpoint env _) as [message | tokenData] eqn:Ereply.
    + left. repeat split; [right; exact I |].
      exists message, [Auth.TokenRequest (Js.interpolate (Auth.Tokens.refresh_token tokens))].
      split; [reflexivity | repeat constructor].
    + destruct (Js.truthy (Auth.TokenData.access_token tokenData)) eqn:Enew.
      * right. repeat split. exists tokenData.
        split; [reflexivity | split; [exact Enew | reflexivity]].
      * left. repeat split; [right; reflexivity |].
        eexists. exists [Auth.TokenRequest (Js.interpolate (Auth.Tokens.refresh_token tokens))].
        split; [reflexivity | repeat constructor].
  - left. repeat split; [left; reflexivity |].
    eexists. exists []. rewrite app_nil_r. destruct st.
    split; [reflexivity | constructor].
Qed.

Lemma truthy_some (a : option string) :
  Js.truthy a = true -> exists s, a = Some s /\ s <> "".
Proof.
  destruct a as [s |]; simpl; [| discriminate].
  intros H. exists s. split; [reflexivity |].
  apply negb_true_iff, String.eqb_neq in H. exact H.
Qed.

Lemma saveTokens_same {J} (env : Auth.Env.t J) st :
  Auth.State.tokens (Auth.saveTokens env st) = Auth.State.tokens st
  /\ Auth.State.calls (Auth.saveTokens env st) = Auth.State.calls st.
Proof.
  unfold Auth.saveTokens. destruct (Auth.Env.diskWritable env); split; reflexivity.
Qed.

(** A ledger request never bears a token known to be running out.  The
    requests that a call adds hold at most one ledger request; its
    bearer token is not empty, and it is the stored token when that has
    more than five minutes left or no known expiry, and otherwise the
    token that the token endpoint has just answered with. *)
Theorem api_request_bears_live_token {J : Type}
    (env : Auth.Env.t J) (endpoint method : string) (st : Auth.State.t) :
  exists new,
    Auth.State.calls (Auth.qbApiCall env endpoint method st).2
    = Auth.State.calls st ++ new
    /\ (length (List.filter isApiRequest new) <= 1)%nat
    /\ forall realm bearer e m,
         Auth.ApiRequest realm bearer e m ∈ new ->
         bearer <> "" /\ liveToken env st bearer /\ e = endpoint /\ m = method.
Proof.
  unfold Auth.qbApiCall.
  destruct (ensureValidToken_cases env st)
    as [[Hno Hrun] | [(Hyes & Hfresh & Hrun) | [(Hyes & Hdue & _ & message & new & Hrun & Hnew)
       | (Hyes & Hdue & Hrefresh & tokenData & Hreply & Hgiven & Hrun)]]];
    rewrite Hrun.
  - exists []. rewrite app_nil_r. split; [reflexivity |]. split; [simpl; lia |].
    intros realm bearer e m Hin. apply elem_of_nil in Hin. contradiction.
  - apply truthy_some in Hyes as (token & Htoken & Hne).
    eexists [_].
    split; [destruct (Auth.Env.api env _ _ _); reflexivity |].
    split; [simpl; lia |].
    intros realm bearer e m Hin. apply list_elem_of_singleton in Hin.
    injection Hin as -> -> -> ->. rewrite Htoken. simpl.
    split; [exact Hne |]. split; [| split; reflexivity].
    unfold liveToken. rewrite Hfresh. exact Htoken.
  - exists new. split; [reflexivity |]. split.
    + assert (E : List.filter isApiRequest new = []).
      { clear -Hnew. induction Hnew as [| call new Hcall _ IH]; simpl;
          [reflexivity | rewrite Hcall; exact IH]. }
      rewrite E. simpl. lia.
    + intros realm bearer e m Hin. rewrite Forall_forall in Hnew.
      specialize (Hnew _ Hin). discriminate.
  - apply truthy_some in Hgiven as (token & Htoken & Hne).
    destruct (saveTokens_same env
                (Auth.State.mk
                   (Auth.Tokens.mk (Auth.TokenData.access_token tokenData)
                      (Js.or_opt (Auth.TokenData.refresh_token tokenData)
                         (Auth.Tokens.refresh_token (Auth.State.tokens st)))
                      (Auth.Tokens.realm_id (Auth.State.tokens st))
                      (Auth.expiry (Auth.Env.now env)
                         (Auth.TokenData.expires_in tokenData)))
                   (Auth.State.tokenFile st)
                   (Auth.State.calls st ++ [Auth.TokenRequest (sentRefreshToken st)])))
      as [Htokens Hcalls].
    eexists [_; _].
    split.
    { destruct (Auth.Env.api env _ _ _); simpl; rewrite Hcalls; simpl;
        rewrite <- app_assoc; reflexivity. }
    split; [simpl; lia |].
    intros realm bearer e m Hin.
    apply elem_of_cons in Hin as [Hin | Hin]; [discriminate |].
    apply list_elem_of_singleton in Hin.
    injection Hin as -> -> -> ->. rewrite Htokens. simpl. rewrite Htoken. simpl.
    split; [exact Hne |]. split; [| split; reflexivity].
    unfold liveToken. rewrite Hdue. exists tokenData. split; assumption.
Qed.

(** When the stored token is running out and the refresh fails, the
    call raises, sends nothing to the ledger and leaves the stored tokens
    and the token file as they were. *)
Theorem failed_refresh_blocks_the_call {J : Type}
    (env : Auth.Env.t J) (endpoint method : string) (st : Auth.State.t) :
  Js.truthy (Auth.Tokens.access_token (Auth.State.tokens st)) = true ->
  mustRefresh env st = true ->
  refreshFails env st ->
  exists message st',
    Auth.qbApiCall env endpoint method st = (Server.Raises message, st')
    /\ Auth.State.tokens st' = Auth.State.tokens st
    /\ Auth.State.tokenFile st' = Auth.State.tokenFile st
    /\ List.filter isApiRequest (Auth.State.calls st')
       = List.filter isApiRequest (Auth.State.calls st).
Proof.
  intros Htoken Hdue Hfails. unfold Auth.qbApiCall.
  destruct (ensureValidToken_cases env st)
    as [[Hno Hrun] | [(Hyes & Hfresh & Hrun) | [(Hyes & _ & _ & message & new & Hrun & Hnew)
       | (Hyes & _ & Hrefresh & tokenData & Hreply & Hgiven & Hrun)]]].
  - congruence.
  - congruence.
  - rewrite Hrun. eexists. eexists. split; [reflexivity |].
    split; [reflexivity |]. split; [reflexivity |]. simpl.
    rewrite List.filter_app.
    assert (E : List.filter isApiRequest new = []).
    { clear -Hnew. induction Hnew as [| call new Hcall _ IH]; simpl;
        [reflexivity | rewrite Hcall; exact IH]. }
    rewrite E. apply app_nil_r.
  - exfalso. destruct Hfails as [Hnone | Hbad]; [congruence |].
    rewrite Hreply in Hbad. congruence.
Qed.

Lemma failed_refresh_blocks_the_call_witness :
  exists message st',
    Auth.qbApiCall endpointDown "/query" "GET" (tokensExpiring 1740823100000)
    = (Server.Raises message, st')
    /\ Auth.State.tokens st' = Auth.State.tokens (tokensExpiring 1740823100000)
    /\ Auth.State.tokenFile st' = None
    /\ List.filter isApiRequest (Auth.State.calls st') = [].
Proof.
  apply (failed_refresh_blocks_the_call endpointDown "/query" "GET"
           (tokensExpiring 1740823100000)).
  - reflexivity.
  - reflexivity.
  - right. exact I.
Defined.

(** A refresh answer without [expires_in] switches refreshing off.  The
    stored expiry becomes not-a-number, and from then on no call asks the
    token endpoint again, whatever the clock says: the new access token
    is sent for ever. *)
Theorem refresh_without_expiry_never_refreshes_again {J : Type}
    (env : Auth.Env.t J) (st : Auth.State.t) (tokenData : Auth.TokenData.t) :
  usable (Auth.State.tokens st) ->
  mustRefresh env st = true ->
  Auth.Env.tokenEndpoint env (sentRefreshToken st) = Auth.TokenAnswers tokenData ->
  Js.truthy (Auth.TokenData.access_token tokenData) = true ->
  Auth.TokenData.expires_in tokenData = None ->
  let st' := (Auth.ensureValidToken env st).2 in
  Auth.Tokens.access_token (Auth.State.tokens st')
  = Auth.TokenData.access_token tokenData
  /\ forall later : Auth.Env.t J,
       Auth.ensureValidToken later st' = (Server.Returns tt, st').
Proof.
  intros [Haccess Hrefresh] Hdue Hreply Hgiven Hnone st'.
  destruct (ensureValidToken_cases env st)
    as [[Hno Hrun] | [(Hyes & Hfresh & Hrun) | [(Hyes & _ & Hfails & _)
       | (Hyes & _ & _ & tokenData' & Hreply' & _ & Hrun)]]].
  - congruence.
  - congruence.
  - exfalso. destruct Hfails as [Hnone' | Hbad]; [congruence |].
    rewrite Hreply in Hbad. congruence.
  - rewrite Hreply in Hreply'. injection Hreply' as <-.
    subst st'. rewrite Hrun. simpl.
    match goal with
    | |- context [Auth.saveTokens env ?s] =>
      destruct (saveTokens_same env s) as [Htokens _]; set (saved := Auth.saveTokens env s) in *
    end.
    split; [rewrite Htokens; reflexivity |].
    intros later. unfold Auth.ensureValidToken. rewrite Htokens. simpl.
    rewrite Hgiven, Hnone. reflexivity.
Qed.

Lemma refresh_without_expiry_never_refreshes_again_witness :
  Auth.Tokens.access_token
    (Auth.State.tokens
       (Auth.ensureValidToken bareAnswer (tokensExpiring 1740823100000)).2)
  = Some "access-new"
  /\ forall later : Auth.Env.t unit,
       Auth.ensureValidToken later
         (Auth.ensureValidToken bareAnswer (tokensExpiring 1740823100000)).2
       = (Server.Returns tt,
          (Auth.ensureValidToken bareAnswer (tokensExpiring 1740823100000)).2).
Proof.
  apply (refresh_without_expiry_never_refreshes_again bareAnswer
           (tokensExpiring 1740823100000)
           (Auth.TokenData.mk (Some "access-new") None None)).
  - split; reflexivity.
  - reflexivity.
  - reflexivity.
  - reflexivity.
  - reflexivity.
Defined.

(** Tokens stay usable.  When the server holds an access token and a
    refresh token, it still holds both after any ledger call, whether
    the call succeeded, the refresh failed or the answer of the token
    endpoint left the refresh token out. *)
Theorem tokens_stay_usable {J : Type}
    (env : Auth.Env.t J) (endpoint method : string) (st : Auth.State.t) :
  usable (Auth.State.tokens st) ->
  usable (Auth.State.tokens (Auth.qbApiCall env endpoint method st).2).
Proof.
  intros [Haccess Hrefresh]. unfold Auth.qbApiCall.
  destruct (ensureValidToken_cases env st)
    as [[Hno Hrun] | [(Hyes & Hfresh & Hrun) | [(Hyes & _ & _ & message & new & Hrun & _)
       | (Hyes & _ & _ & tokenData & Hreply & Hgiven & Hrun)]]];
    rewrite Hrun.
  - congruence.
  - destruct (Auth.Env.api env _ _ _); split; assumption.
  - split; assumption.
  - match goal with
    | |- context [Auth.saveTokens env ?s] =>
      destruct (saveTokens_same env s) as [Htokens _]
    end.
    assert (Hkept : usable (Auth.State.tokens
                      (Auth.saveTokens env
                         (Auth.State.mk
                            (Auth.Tokens.mk (Auth.TokenData.access_token tokenData)
                               (Js.or_opt (Auth.TokenData.refresh_token tokenData)
                                  (Auth.Tokens.refresh_token (Auth.State.tokens st)))
                               (Auth.Tokens.realm_id (Auth.State.tokens st))
                               (Auth.expiry (Auth.Env.now env)
                                  (Auth.TokenData.expires_in tokenData)))
                            (Auth.State.tokenFile st)
                            (Auth.State.calls st
                             ++ [Auth.TokenRequest (sentRefreshToken st)]))))).
    { rewrite Htokens. split; simpl; [exact Hgiven |].
      unfold Js.or_opt.
      destruct (Js.truthy (Auth.TokenData.refresh_token tokenData)) eqn:E;
        assumption. }
    destruct (Auth.Env.api env _ _ _); exact Hkept.
Qed.

Lemma tokens_stay_usable_witness :
  usable (Auth.State.tokens
            (Auth.qbApiCall bareAnswer "/query" "GET"
               (tokensExpiring 1740823100000)).2).
Proof.
  apply (tokens_stay_usable bareAnswer "/query" "GET" (tokensExpiring 1740823100000)).
  split; reflexivity.
Defined.

(** ** The category list *)




(** ** Recategorizing a purchase *)

Lemma recategorizeLine_detail accountMap categoryId categoryName l l' :
  tagged l ->
  categoryName <> "" ->
  Update.recategorizeLine (Some categoryId) (Some categoryName) l = Some l' ->
  match Ledger.purchaseLineDetail accountMap (Update.Line.line l),
        Ledger.purchaseLineDetail accountMap (Update.Line.line l') with
  | Some d, Some d' =>
    Ledger.LineDetail.category d' = categoryName
    \/ Ledger.LineDetail.category d' = "Items"
  | None, None => l' = l
  | _, _ => False
  end.
Proof.
  intros Htag Hname. unfold Update.recategorizeLine, tagged, accountBased in *.
  unfold Ledger.purchaseLineDetail.
  destruct (Ledger.str_is _ _).
  - destruct (Ledger.ExpenseLine.AccountBasedExpenseLineDetail (Update.Line.line l))
      as [ref |] eqn:E; [| discriminate].
    intros [= <-]. simpl. left.
    apply String.eqb_neq in Hname.
    unfold Js.or_opt, Js.truthy. rewrite Hname. simpl. rewrite Hname. reflexivity.
  - intros [= <-].
    destruct (Ledger.ExpenseLine.AccountBasedExpenseLineDetail (Update.Line.line l))
      as [ref |]; [specialize (Htag eq_refl); discriminate |].
    destruct (Ledger.ExpenseLine.ItemBasedExpenseLineDetail (Update.Line.line l));
      [right; reflexivity | reflexivity].
Qed.

Lemma recategorized_details accountMap categoryId categoryName :
  categoryName <> "" ->
  forall lines lines',
    Forall tagged lines ->
    mapM (Update.recategorizeLine (Some categoryId) (Some categoryName)) lines
    = Some lines' ->
    let details :=
      omap (Ledger.purchaseLineDetail accountMap) (map Update.Line.line lines) in
    let details' :=
      omap (Ledger.purchaseLineDetail accountMap) (map Update.Line.line lines') in
    length details' = length details
    /\ Forall (fun d => Ledger.LineDetail.category d = categoryName
                        \/ Ledger.LineDetail.category d = "Items") details'
    /\ (details = [] -> lines' = lines).
Proof.
  intros Hname lines lines' Htagged Hmap.
  apply mapM_Some in Hmap.
  induction Hmap as [| l l' lines lines' Hl _ IH]; simpl.
  - split; [reflexivity |]. split; [constructor | reflexivity].
  - apply Forall_cons in Htagged as [Htag Htagged].
    destruct (IH Htagged) as (Hlen & Hall & Hsame).
    pose proof (recategorizeLine_detail accountMap categoryId categoryName l l'
                  Htag Hname Hl) as Hd.
    destruct (Ledger.purchaseLineDetail accountMap (Update.Line.line l)) as [d |];
      destruct (Ledger.purchaseLineDetail accountMap (Update.Line.line l')) as [d' |];
      try contradiction; simpl.
    + split; [f_equal; exact Hlen |]. split; [constructor; assumption |].
      discriminate.
    + subst l'. split; [exact Hlen |]. split; [exact Hall |].
      intros Hnil. rewrite (Hsame Hnil). reflexivity.
Qed.

(** Recategorizing clears the review flag, except for a purchase without
    lines.  Let the lines of a purchase be rewritten by the update with a
    category whose name is not one of the uncategorized names, and let
    the ledger hold the purchase as sent.  Then the next run emits as
    many transactions for it as before; when the purchase has a
    qualifying line none of them needs review; when it has none the
    update changed nothing, and the single transaction of the purchase
    still needs review. *)
Theorem recategorized_purchase_leaves_review
    (vendorMap : gmap string string)
    (accountMap : gmap string Ledger.AccountInfo.t)
    (p : Ledger.Purchase.t) (lines lines' : list Update.Line.t)
    (categoryId categoryName : string) :
  Ledger.Purchase.Line p = Some (map Update.Line.line lines) ->
  Forall tagged lines ->
  Ledger.isUncategorized categoryName = false ->
  Update.recategorize (Some categoryId) (Some categoryName) (Some lines)
  = Some (Some lines') ->
  let before := Ledger.processPurchase vendorMap accountMap p in
  let after := Ledger.processPurchase vendorMap accountMap (withLines p lines') in
  length after = length before
  /\ (qualifyingLines (Ledger.Purchase.Line p) <> [] ->
      Forall (fun t => Ledger.Txn.needsReview t = false) after)
  /\ (qualifyingLines (Ledger.Purchase.Line p) = [] ->
      after = before
      /\ Forall (fun t => Ledger.Txn.needsReview t = true) after).
Proof.
  intros Hlines Htagged Hcat Hrun before after.
  assert (Hname : categoryName <> "").
  { intros ->. discriminate Hcat. }
  simpl in Hrun.
  destruct (mapM _ lines) as [ls |] eqn:Hmap; [| discriminate].
  injection Hrun as ->.
  destruct (recategorized_details accountMap categoryId categoryName Hname
              lines lines' Htagged Hmap) as (Hlen & Hall & Hsame).
  pose proof (kept_length (Ledger.purchaseLineDetail accountMap) qualifyingLine
                (map Update.Line.line lines)
                (purchase_detail_agrees accountMap _)) as Hkept.
  subst before after. unfold Ledger.processPurchase, qualifyingLines.
  rewrite Hlines. cbn [withLines Ledger.Purchase.Line from_option id].
  rewrite Hlen.
  split; [| split].
  - destruct (0 <? length _)%nat; [| reflexivity].
    rewrite !length_imap. exact Hlen.
  - intros Hsome.
    assert (Hpos : (0 <? length (omap (Ledger.purchaseLineDetail accountMap)
                                   (map Update.Line.line lines)))%nat = true).
    { apply Nat.ltb_lt. rewrite Hkept.
      destruct (List.filter qualifyingLine (map Update.Line.line lines));
        [contradiction | simpl; lia]. }
    rewrite Hpos. apply Forall_forall. intros t Hin.
    apply elem_of_lookup_imap_1 in Hin as (i & d & -> & Hd). simpl.
    rewrite Forall_forall in Hall.
    destruct (Hall d (list_elem_of_lookup_2 _ _ _ Hd)) as [-> | ->];
      [exact Hcat | reflexivity].
  - intros Hnone.
    assert (Hnil : omap (Ledger.purchaseLineDetail accountMap)
                     (map Update.Line.line lines) = []).
    { apply length_zero_iff_nil. rewrite Hkept, Hnone. reflexivity. }
    rewrite (Hsame Hnil), Hnil. simpl.
    split; [reflexivity | repeat constructor].
Qed.

Lemma recategorized_purchase_leaves_review_witness :
  exists lines',
    Update.recategorize (Some "61") (Some "Office Supplies") (Some taggedLines)
    = Some (Some lines')
    /\ Forall (fun t => Ledger.Txn.needsReview t = false)
         (Ledger.processPurchase ∅ ∅ (withLines taggedPurchase lines')).
Proof.
  eexists. split; [reflexivity |].
  apply (fun H1 H2 H3 H4 =>
           proj1 (proj2 (recategorized_purchase_leaves_review ∅ ∅ taggedPurchase
                           taggedLines _ "61" "Office Supplies" H1 H2 H3 H4))).
  - reflexivity.
  - constructor; [intros _; reflexivity |].
    constructor; [intros H; discriminate H | constructor].
  - reflexivity.
  - reflexivity.
  - vm_compute. discriminate.
Defined.

(** ** Bank connections across a restart *)

(** A restart from the table keeps the exclusions and forgets the
    cursor.  The connection that is loaded from the row saved for it has
    the same id, token, name, time stamp and excluded accounts, and no
    cursor: the next sync asks the bank from the empty cursor, and
    returns what the bank then sends for the accounts that are not
    excluded. *)
Theorem restart_keeps_exclusions_forgets_cursor
    (account : Plaid.Connection.t) (feed : Bank.Feed) (isoNow : string) :
  Plaid.Connection.id (reloaded account) = Plaid.Connection.id account
  /\ Plaid.Connection.access_token (reloaded account)
     = Plaid.Connection.access_token account
  /\ Plaid.Connection.last_synced (reloaded account)
     = Plaid.Connection.last_synced account
  /\ Plaid.excludedAccounts (reloaded account) = Plaid.excludedAccounts account
  /\ Plaid.Connection.cursor (reloaded account) = None
  /\ Bank.Synced.transactions (Bank.syncOne feed isoNow (reloaded account))
     = contributedFrom feed "" account.
Proof.
  assert (Hexcl : Plaid.excludedAccounts (reloaded account)
                  = Plaid.excludedAccounts account).
  { unfold Plaid.excludedAccounts, reloaded. simpl.
    destruct (Plaid.Connection.excluded_accounts account); reflexivity. }
  split; [reflexivity |]. split; [reflexivity |]. split; [reflexivity |].
  split; [exact Hexcl |]. split; [reflexivity |].
  unfold Bank.syncOne, contributedFrom. simpl.
  destruct (feed _ _) as [message | syncData]; simpl; [reflexivity |].
  destruct (Js.truthy _); simpl; [reflexivity |].
  unfold Plaid.syncTransactions.
  induction (default [] (Bank.SyncData.added syncData)) as [| item items IH];
    simpl; [reflexivity |].
  assert (Hincl : Plaid.included (reloaded account) item
                  = Plaid.included account item)
    by (unfold Plaid.included; rewrite Hexcl; reflexivity).
  rewrite Hincl. destruct (Plaid.included account item); simpl;
    [f_equal |]; exact IH.
Qed.
